(** * Gold Analysis Platform: the React client, embedded and verified

    The development follows the client sources: the axios endpoint table
    ([services/api.js]), the pages ([Trading], [Predictions], [Signals],
    [PriceData], [Dashboard], [ZerodhaAuth]) and the components
    ([SignalDisplay], [PriceChart]). JavaScript values are modelled by
    [JS.jsval] (numbers are IEEE doubles, i.e. Rocq's primitive floats),
    asynchronous handlers by a small state, exception and event-log monad
    ([Eff.Eff]) run against a [Eff.World] that supplies the HTTP responses,
    the draws of [Math.random] and the language built-ins. A handler is run
    to its end before the next event is taken. The signal fusion rule and
    the timeframe check of the backend, which the client sources do not
    contain, are modelled from the specification ([Fusion], [Timeframe]). *)

From Stdlib Require Import ZArith List String Ascii Bool Lia PeanoNat Permutation.
From Stdlib Require Import Floats DecimalString.
Import ListNotations.
Open Scope string_scope.

(* ------------------------------------------------------------------ *)
(** ** JavaScript values *)

Module JS.

(** The values that reach the client code: what [JSON.parse] produces,
    plus [undefined]. An object is its list of own properties in insertion
    order (each key occurs once in a well-formed object; lookup takes the
    first occurrence). *)
#[warnings="-register-all"]
Inductive jsval : Type :=
| VUndefined
| VNull
| VBool (b : bool)
| VNum (x : float)
| VStr (s : string)
| VArr (items : list jsval)
| VObj (fields : list (string * jsval)).

(** [+0], [-0] and [NaN] are the falsy numbers. *)
Definition falsy_number (x : float) : bool :=
  match PrimFloat.classify x with
  | PZero | NZero | NaN => true
  | _ => false
  end.

(** ECMAScript ToBoolean. *)
Definition truthy (v : jsval) : bool :=
  match v with
  | VUndefined | VNull => false
  | VBool b => b
  | VNum x => negb (falsy_number x)
  | VStr s => negb (s =? "")
  | VArr _ | VObj _ => true
  end.

(** The [typeof] operator. *)
Definition typeof (v : jsval) : string :=
  match v with
  | VUndefined => "undefined"
  | VNull => "object"
  | VBool _ => "boolean"
  | VNum _ => "number"
  | VStr _ => "string"
  | VArr _ | VObj _ => "object"
  end.

(** [v] is [null] or [undefined]. *)
Definition nullish (v : jsval) : bool :=
  match v with VUndefined | VNull => true | _ => false end.

Definition is_null (v : jsval) : bool :=
  match v with VNull => true | _ => false end.

Definition is_array (v : jsval) : bool :=
  match v with VArr _ => true | _ => false end.

(** [v === s] for a string literal [s]. *)
Definition strict_eq_str (v : jsval) (s : string) : bool :=
  match v with VStr t => t =? s | _ => false end.

Definition nat_to_string (n : nat) : string :=
  NilZero.string_of_uint (Nat.to_uint n).

Definition num_of_nat (n : nat) : float :=
  PrimFloat.of_uint63 (Uint63.of_Z (Z.of_nat n)).

(** A property name is an array index when it is the canonical decimal
    numeral of a natural number. *)
Definition array_index (k : string) : option nat :=
  match NilEmpty.uint_of_string k with
  | Some u =>
      let n := Nat.of_uint u in
      if nat_to_string n =? k then Some n else None
  | None => None
  end.

Fixpoint lookup_field (k : string) (fields : list (string * jsval)) : option jsval :=
  match fields with
  | [] => None
  | (k', v) :: rest => if k' =? k then Some v else lookup_field k rest
  end.

(** Property read [o.k] on own data properties; [None] is the TypeError
    raised when [o] is [null] or [undefined]. Prototype members (methods)
    are not data and none of the names the pages read is one. *)
Definition get_prop (o : jsval) (k : string) : option jsval :=
  match o with
  | VUndefined | VNull => None
  | VBool _ | VNum _ => Some VUndefined
  | VStr s =>
      if k =? "length" then Some (VNum (num_of_nat (String.length s)))
      else match array_index k with
           | Some i =>
               match String.get i s with
               | Some c => Some (VStr (String c EmptyString))
               | None => Some VUndefined
               end
           | None => Some VUndefined
           end
  | VArr items =>
      if k =? "length" then Some (VNum (num_of_nat (List.length items)))
      else match array_index k with
           | Some i => Some (nth i items VUndefined)
           | None => Some VUndefined
           end
  | VObj fields =>
      match lookup_field k fields with
      | Some v => Some v
      | None => Some VUndefined
      end
  end.

(** [o.k] where [o] is known not to be [null] or [undefined]. *)
Definition prop (o : jsval) (k : string) : jsval :=
  match get_prop o k with
  | Some v => v
  | None => VUndefined
  end.

(** [Object.keys(o)] for a value that is already known to be an object
    (the callers test [typeof o === 'object'] and truthiness first). *)
Definition object_keys (o : jsval) : list string :=
  match o with
  | VObj fields => map fst fields
  | VArr items => map nat_to_string (seq 0 (List.length items))
  | VStr s => map nat_to_string (seq 0 (String.length s))
  | _ => []
  end.

(** The [in]-style test "the object has an own property named [k]". *)
Definition has_field (o : jsval) (k : string) : bool :=
  match o with
  | VObj fields => match lookup_field k fields with Some _ => true | None => false end
  | _ => false
  end.

(** [a || b] on values. *)
Definition js_or (a b : jsval) : jsval := if truthy a then a else b.

(** The integer [n] closest to [m * 2^e * 100], the larger one on a tie. *)
Definition nearest_hundredths (m : positive) (e : Z) : Z :=
  if (0 <=? e)%Z then (Z.pos m * 2 ^ e * 100)%Z
  else ((200 * Z.pos m + 2 ^ (- e)) / (2 * 2 ^ (- e)))%Z.

Definition digit_string (n : Z) : string :=
  NilZero.string_of_uint (N.to_uint (Z.to_N n)).

(** The decimal numeral of [n] with a point before its last two digits. *)
Definition hundredths_string (n : Z) : string :=
  digit_string (n / 100) ++ "." ++ digit_string (n mod 100 / 10)
  ++ digit_string (n mod 10).

(** [x.toFixed(2)] (Number.prototype.toFixed): non-finite numbers print
    as their names, magnitudes from 1e21 on print as [big] prints them (the
    general number-to-string conversion), anything else as the nearest
    multiple of 0.01, with the sign of a negative [x]. *)
Definition toFixed2 (big : float -> string) (x : float) : string :=
  match Prim2SF x with
  | S754_nan => "NaN"
  | S754_infinity false => "Infinity"
  | S754_infinity true => "-Infinity"
  | S754_zero _ => "0.00"
  | S754_finite neg m e =>
      (if neg then "-" else "")
      ++ (if (1e21 <=? PrimFloat.abs x)%float then big (PrimFloat.abs x)
          else hundredths_string (nearest_hundredths m e))
  end.

(** [v > 0] for a property value [v]; [num] is the number conversion of
    the runtime, needed for strings and objects only. *)
Definition gt_zero (num : jsval -> float) (v : jsval) : bool :=
  match v with
  | VUndefined | VNull => false
  | VBool b => b
  | VNum x => (0 <? x)%float
  | _ => (0 <? num v)%float
  end.

End JS.
Export JS.

(* ------------------------------------------------------------------ *)
(** ** The endpoint table of [services/api.js] *)

Module Api.

Inductive Method := GET | POST | DELETE.

Record Http := mkHttp { method : Method; url : string; payload : option jsval }.

(** One constructor per entry of [endpoints]; an omitted ([undefined])
    argument is [None] and takes the default of the parameter list. *)
Inductive ApiCall :=
| getPriceData (timeframe : option string) (limit : option nat)
| getIndicators (timeframe : option string) (limit : option nat)
| updateData
| getPredictions (timeframe : option string)
| getSignal (timeframe : option string)
| getAllSignals
| getZerodhaLoginUrl
| zerodhaCallback (requestToken : string)
| getZerodhaProfile
| getZerodhaMargins
| getZerodhaHoldings
| getZerodhaPositions
| getZerodhaOrders
| getZerodhaOrder (orderId : string)
| placeZerodhaOrder (orderData : jsval)
| cancelZerodhaOrder (orderId : string)
| placeTradeFromSignal (tradeData : jsval).

Definition dflt {A} (d : A) (o : option A) : A :=
  match o with Some a => a | None => d end.

(** The request each endpoint hands to axios. *)
Definition request (c : ApiCall) : Http :=
  match c with
  | getPriceData tf limit =>
      mkHttp GET ("/api/v1/data/price?timeframe=" ++ dflt "1h" tf
                  ++ "&limit=" ++ nat_to_string (dflt 100 limit)) None
  | getIndicators tf limit =>
      mkHttp GET ("/api/v1/data/indicators?timeframe=" ++ dflt "1h" tf
                  ++ "&limit=" ++ nat_to_string (dflt 100 limit)) None
  | updateData => mkHttp POST "/api/v1/data/update" None
  | getPredictions tf => mkHttp GET ("/api/v1/predict/" ++ dflt "1h" tf) None
  | getSignal tf => mkHttp GET ("/api/v1/signals/" ++ dflt "1h" tf) None
  | getAllSignals => mkHttp GET "/api/v1/signals" None
  | getZerodhaLoginUrl => mkHttp GET "/api/v1/auth/zerodha/login" None
  | zerodhaCallback requestToken =>
      mkHttp GET ("/api/v1/auth/zerodha/callback?request_token=" ++ requestToken) None
  | getZerodhaProfile => mkHttp GET "/api/v1/zerodha/profile" None
  | getZerodhaMargins => mkHttp GET "/api/v1/zerodha/margins" None
  | getZerodhaHoldings => mkHttp GET "/api/v1/zerodha/holdings" None
  | getZerodhaPositions => mkHttp GET "/api/v1/zerodha/positions" None
  | getZerodhaOrders => mkHttp GET "/api/v1/zerodha/orders" None
  | getZerodhaOrder orderId => mkHttp GET ("/api/v1/zerodha/order/" ++ orderId) None
  | placeZerodhaOrder orderData => mkHttp POST "/api/v1/zerodha/order" (Some orderData)
  | cancelZerodhaOrder orderId => mkHttp DELETE ("/api/v1/zerodha/order/" ++ orderId) None
  | placeTradeFromSignal tradeData =>
      mkHttp POST "/api/v1/zerodha/trade/signal" (Some tradeData)
  end.

(** Calls that ask the brokerage to place an order. *)
Definition is_order_submission (c : ApiCall) : bool :=
  match c with
  | placeZerodhaOrder _ | placeTradeFromSignal _ => true
  | _ => false
  end.

End Api.
Export Api.

(* ------------------------------------------------------------------ *)
(** ** Asynchronous handlers: state, exceptions and an event log *)

Module Eff.

(** What a handler does to the outside, in order. *)
Inductive Event :=
| Call (c : ApiCall)
| Timer (ms : nat) (navigate_to : string)
| Console (msg : string).

(** A settled promise of axios: the [data] of the response, or rejection. *)
Inductive Response := Resolved (data : jsval) | Rejected.

(** The environment of a run: the response to the [n]-th request, the
    [n]-th value [Math.random()] returns, and the built-ins of the language
    the handlers call ([parseInt], the string conversion applied by a
    template literal, and the number conversion applied by a comparison),
    whose definitions lie outside the repository. *)
Record World := mkWorld {
  respond : nat -> ApiCall -> Response;
  random : nat -> float;
  parseInt : jsval -> jsval;
  ToString : jsval -> string;
  ToNumber : jsval -> float
}.

Record Log := mkLog { events : list Event; draws : nat }.

Definition empty_log : Log := mkLog [] 0.

Definition is_call (e : Event) : bool :=
  match e with Call _ => true | _ => false end.

Fixpoint calls_of (es : list Event) : list ApiCall :=
  match es with
  | [] => []
  | Call c :: rest => c :: calls_of rest
  | _ :: rest => calls_of rest
  end.

Definition calls (l : Log) : list ApiCall := calls_of (events l).

Lemma calls_of_app (es fs : list Event) :
  calls_of (es ++ fs)%list = (calls_of es ++ calls_of fs)%list.
Proof.
  induction es as [|e es IH]; [reflexivity|].
  destruct e; simpl; rewrite IH; reflexivity.
Qed.


Inductive Outcome (A : Type) := Done (a : A) | Thrown.
Arguments Done {A} a.
Arguments Thrown {A}.

(** A computation over a component store [S]. *)
Definition Eff (S A : Type) : Type :=
  World -> S -> Log -> Outcome A * S * Log.

Section Combinators.
Context {S : Type}.

Definition ret {A} (a : A) : Eff S A := fun _ s l => (Done a, s, l).

Definition bind {A B} (m : Eff S A) (k : A -> Eff S B) : Eff S B :=
  fun w s l =>
    match m w s l with
    | (Done a, s', l') => k a w s' l'
    | (Thrown, s', l') => (Thrown, s', l')
    end.

Definition throw {A} : Eff S A := fun _ s l => (Thrown, s, l).

(** A [setX(...)] of React: an update of the store. *)
Definition modify (f : S -> S) : Eff S unit := fun _ s l => (Done tt, f s, l).

Definition emit (e : Event) : Eff S unit :=
  fun _ s l => (Done tt, s, mkLog (events l ++ [e]) (draws l)).

(** Issuing a request: it is logged and its promise is a value. *)
Definition start (c : ApiCall) : Eff S Response :=
  fun w s l =>
    (Done (respond w (List.length (calls l)) c), s,
     mkLog (events l ++ [Call c]) (draws l)).

(** [await p]: the data of a resolved promise, a throw on rejection. *)
Definition settle (r : Response) : Eff S jsval :=
  match r with
  | Resolved d => ret d
  | Rejected => throw
  end.

(** [await api.endpoint(...)], giving [response.data]. *)
Definition await (c : ApiCall) : Eff S jsval := bind (start c) settle.

(** [Math.random()]. *)
Definition math_random : Eff S float :=
  fun w s l => (Done (random w (draws l)), s, mkLog (events l) (Datatypes.S (draws l))).

(** A call of a built-in of the runtime. *)
Definition builtin {A} (f : World -> A) : Eff S A := fun w s l => (Done (f w), s, l).

(** A property read that throws on [null] and [undefined]. *)
Definition read (o : jsval) (k : string) : Eff S jsval :=
  match get_prop o k with
  | Some v => ret v
  | None => throw
  end.

(** [try { body } catch (err) { handler }]. *)
Definition try_catch {A} (body handler : Eff S A) : Eff S A :=
  fun w s l =>
    match body w s l with
    | (Done a, s', l') => (Done a, s', l')
    | (Thrown, s', l') => handler w s' l'
    end.

(** [try { body } finally { fin }] for a [fin] that does not throw. *)
Definition try_finally {A} (body : Eff S A) (fin : Eff S unit) : Eff S A :=
  fun w s l =>
    match body w s l with
    | (r, s', l') =>
        match fin w s' l' with
        | (_, s'', l'') => (r, s'', l'')
        end
    end.

End Combinators.

Declare Scope eff_scope.
Delimit Scope eff_scope with eff.
Notation "x <- m ;; k" := (bind m (fun x => k))
  (at level 61, m at next level, right associativity) : eff_scope.
Notation "m ;; k" := (bind m (fun _ => k))
  (at level 61, right associativity) : eff_scope.

(** Final store and log of a run. *)
Definition store_of {S A} (r : Outcome A * S * Log) : S := snd (fst r).
Definition log_of {S A} (r : Outcome A * S * Log) : Log := snd r.
Definition outcome_of {S A} (r : Outcome A * S * Log) : Outcome A := fst (fst r).

(** *** Running a computation step by step *)

Lemma bind_done {S A B} (m : Eff S A) (k : A -> Eff S B)
      (w : World) (s s' : S) (l l' : Log) (a : A) (r : Outcome B * S * Log) :
  m w s l = (Done a, s', l') -> k a w s' l' = r -> bind m k w s l = r.
Proof. intros Hm Hk. unfold bind. rewrite Hm. exact Hk. Qed.

Lemma bind_thrown {S A B} (m : Eff S A) (k : A -> Eff S B)
      (w : World) (s s' : S) (l l' : Log) :
  m w s l = (Thrown, s', l') -> bind m k w s l = (Thrown, s', l').
Proof. intros Hm. unfold bind. rewrite Hm. reflexivity. Qed.

Lemma calls_after_call (l : Log) (c : ApiCall) :
  calls (mkLog (events l ++ [Call c]) (draws l)) = (calls l ++ [c])%list.
Proof. unfold calls. cbn. rewrite calls_of_app. reflexivity. Qed.

Lemma await_resolved {S} (c : ApiCall) (w : World) (s : S) (l : Log) (d : jsval) :
  respond w (List.length (calls l)) c = Resolved d ->
  await c w s l = (Done d, s, mkLog (events l ++ [Call c]) (draws l)).
Proof. intros H. unfold await, bind, start. rewrite H. reflexivity. Qed.

Lemma await_rejected {S} (c : ApiCall) (w : World) (s : S) (l : Log) :
  respond w (List.length (calls l)) c = Rejected ->
  await c w s l = (Thrown, s, mkLog (events l ++ [Call c]) (draws l)).
Proof. intros H. unfold await, bind, start. rewrite H. reflexivity. Qed.

(** *** Invariants of a computation

    [keeps I P Q m]: started in a store satisfying [I] with only requests
    satisfying [P] logged, [m] ends in such a store and such a log, whether
    it returns or throws, and a value it returns satisfies [Q]. *)
Definition returns {A} (Q : A -> Prop) (o : Outcome A) : Prop :=
  match o with
  | Done a => Q a
  | Thrown => True
  end.

Definition keeps {S A} (I : S -> Prop) (P : ApiCall -> Prop) (Q : A -> Prop)
           (m : Eff S A) : Prop :=
  forall w s l,
    I s -> Forall P (calls l) ->
    I (store_of (m w s l))
    /\ Forall P (calls (log_of (m w s l)))
    /\ returns Q (outcome_of (m w s l)).

Definition anything {A} : A -> Prop := fun _ => True.

Section Keeps.
Context {S : Type} (I : S -> Prop) (P : ApiCall -> Prop).

Lemma keeps_ret {A} (Q : A -> Prop) (a : A) : Q a -> keeps I P Q (ret a).
Proof. intros Ha w s l Hs Hl. repeat split; assumption. Qed.

Lemma keeps_throw {A} (Q : A -> Prop) : keeps I P Q (@throw S A).
Proof. intros w s l Hs Hl. repeat split; assumption. Qed.

Lemma keeps_weaken {A} (Q Q' : A -> Prop) (m : Eff S A) :
  keeps I P Q m -> (forall a, Q a -> Q' a) -> keeps I P Q' m.
Proof.
  intros Hm HQ w s l Hs Hl. destruct (Hm w s l Hs Hl) as (H1 & H2 & H3).
  repeat split; try assumption.
  unfold returns in *. destruct (outcome_of (m w s l)); auto.
Qed.

Lemma keeps_bind {A B} (Q1 : A -> Prop) (Q : B -> Prop)
      (m : Eff S A) (k : A -> Eff S B) :
  keeps I P Q1 m -> (forall a, Q1 a -> keeps I P Q (k a)) -> keeps I P Q (bind m k).
Proof.
  intros Hm Hk w s l Hs Hl. specialize (Hm w s l Hs Hl).
  unfold bind, store_of, log_of, outcome_of, returns in *.
  destruct (m w s l) as [[[a|] s'] l']; cbn in *.
  - apply Hk; tauto.
  - tauto.
Qed.

Lemma keeps_modify (f : S -> S) :
  (forall s, I s -> I (f s)) -> keeps I P anything (modify f).
Proof. intros Hf w s l Hs Hl. repeat split; [apply Hf|]; assumption. Qed.

Lemma keeps_builtin {A} (f : World -> A) : keeps I P anything (builtin f).
Proof. intros w s l Hs Hl. repeat split; assumption. Qed.

Lemma keeps_math_random : keeps I P anything (@math_random S).
Proof. intros w s l Hs Hl. repeat split; assumption. Qed.

Lemma keeps_emit (e : Event) : is_call e = false -> keeps I P anything (emit e).
Proof.
  intros He w s l Hs Hl. repeat split; [assumption|].
  unfold emit, log_of, calls in *. cbn. rewrite calls_of_app.
  destruct e; try discriminate; cbn; rewrite app_nil_r; assumption.
Qed.

Lemma keeps_start (c : ApiCall) : P c -> keeps I P anything (start c).
Proof.
  intros Hc w s l Hs Hl. repeat split; [assumption|].
  unfold start, log_of, calls in *. cbn. rewrite calls_of_app.
  apply Forall_app. split; [assumption|]. cbn. constructor; [assumption|constructor].
Qed.

Lemma keeps_settle (r : Response) : keeps I P anything (@settle S r).
Proof. destruct r; [apply keeps_ret; exact Logic.I | apply keeps_throw]. Qed.

Lemma keeps_await (c : ApiCall) : P c -> keeps I P anything (await c).
Proof.
  intros Hc. apply keeps_bind with (Q1 := anything); [apply keeps_start; assumption|].
  intros r _. apply keeps_settle.
Qed.

Lemma keeps_read (o : jsval) (k : string) : keeps I P anything (@read S o k).
Proof.
  unfold read. destruct (get_prop o k); [apply keeps_ret; exact Logic.I | apply keeps_throw].
Qed.

Lemma keeps_try_catch {A} (Q : A -> Prop) (body handler : Eff S A) :
  keeps I P Q body -> keeps I P Q handler -> keeps I P Q (try_catch body handler).
Proof.
  intros Hb Hh w s l Hs Hl. specialize (Hb w s l Hs Hl).
  unfold try_catch, store_of, log_of, outcome_of, returns in *.
  destruct (body w s l) as [[[a|] s'] l']; cbn in *.
  - exact Hb.
  - apply Hh; tauto.
Qed.

Lemma keeps_try_finally {A} (Q : A -> Prop) (body : Eff S A) (fin : Eff S unit) :
  keeps I P Q body -> keeps I P anything fin -> keeps I P Q (try_finally body fin).
Proof.
  intros Hb Hf w s l Hs Hl. specialize (Hb w s l Hs Hl).
  unfold try_finally, store_of, log_of, outcome_of in *.
  destruct (body w s l) as [[r s'] l']; cbn in *.
  destruct Hb as (Hb1 & Hb2 & Hb3).
  specialize (Hf w s' l' Hb1 Hb2).
  destruct (fin w s' l') as [[r' s''] l'']; cbn in *. tauto.
Qed.

Lemma keeps_if {A} (Q : A -> Prop) (b : bool) (m1 m2 : Eff S A) :
  keeps I P Q m1 -> keeps I P Q m2 -> keeps I P Q (if b then m1 else m2).
Proof. destruct b; tauto. Qed.

Lemma keeps_anything {A} (Q : A -> Prop) (m : Eff S A) :
  keeps I P Q m -> keeps I P anything m.
Proof. intros H. apply keeps_weaken with (Q := Q); [exact H|]. intros; exact Logic.I. Qed.

End Keeps.

(** The structural steps of a [keeps] proof with no demand on the
    returned value; what is left is one goal per store update and per
    request. *)
Ltac keeps_step :=
  first
    [ apply keeps_ret; exact Logic.I | apply keeps_throw | apply keeps_builtin
    | apply keeps_math_random | apply keeps_read | apply keeps_settle
    | apply keeps_emit; reflexivity
    | apply keeps_bind with (Q1 := anything); [|intros ? _]
    | apply keeps_try_catch | apply keeps_try_finally
    | apply keeps_if
    | apply keeps_await | apply keeps_start | apply keeps_modify ].

End Eff.
Export Eff.

(* ------------------------------------------------------------------ *)
(** ** The Trading page ([pages/Trading.js]) *)

Module Trading.

Record ZerodhaStatus := mkStatus {
  isLoggedIn : bool;
  profile : jsval;
  margins : jsval
}.

Record TradeForm := mkForm {
  timeframe : string;
  quantity : jsval;
  orderType : string;
  stopLoss : jsval;
  takeProfit : jsval;
  useSignalLevels : bool
}.

(** The [useState] cells of the component. *)
Record State := mkState {
  loading : bool;
  submitting : bool;
  error : option string;
  success : option string;
  signal : jsval;
  zerodhaStatus : ZerodhaStatus;
  orders : jsval;
  positions : jsval;
  tradeForm : TradeForm
}.

Definition initial : State :=
  mkState true false None None (VObj [])
          (mkStatus false VNull VNull)
          (VArr []) (VArr [])
          (mkForm "1h" (VNum 1%float) "MARKET" VNull VNull true).

Definition setLoading (b : bool) : Eff State unit :=
  modify (fun s => mkState b (submitting s) (error s) (success s) (signal s)
                           (zerodhaStatus s) (orders s) (positions s) (tradeForm s)).
Definition setSubmitting (b : bool) : Eff State unit :=
  modify (fun s => mkState (loading s) b (error s) (success s) (signal s)
                           (zerodhaStatus s) (orders s) (positions s) (tradeForm s)).
Definition setError (e : option string) : Eff State unit :=
  modify (fun s => mkState (loading s) (submitting s) e (success s) (signal s)
                           (zerodhaStatus s) (orders s) (positions s) (tradeForm s)).
Definition setSuccess (m : option string) : Eff State unit :=
  modify (fun s => mkState (loading s) (submitting s) (error s) m (signal s)
                           (zerodhaStatus s) (orders s) (positions s) (tradeForm s)).
Definition setSignal (v : jsval) : Eff State unit :=
  modify (fun s => mkState (loading s) (submitting s) (error s) (success s) v
                           (zerodhaStatus s) (orders s) (positions s) (tradeForm s)).
Definition setZerodhaStatus (f : ZerodhaStatus -> ZerodhaStatus) : Eff State unit :=
  modify (fun s => mkState (loading s) (submitting s) (error s) (success s) (signal s)
                           (f (zerodhaStatus s)) (orders s) (positions s) (tradeForm s)).
Definition setOrders (v : jsval) : Eff State unit :=
  modify (fun s => mkState (loading s) (submitting s) (error s) (success s) (signal s)
                           (zerodhaStatus s) v (positions s) (tradeForm s)).
Definition setPositions (v : jsval) : Eff State unit :=
  modify (fun s => mkState (loading s) (submitting s) (error s) (success s) (signal s)
                           (zerodhaStatus s) (orders s) v (tradeForm s)).
Definition setTradeForm (f : TradeForm -> TradeForm) : Eff State unit :=
  modify (fun s => mkState (loading s) (submitting s) (error s) (success s) (signal s)
                           (zerodhaStatus s) (orders s) (positions s) (f (tradeForm s))).

Definition not_logged_in_message : string :=
  "You must log in to Zerodha to execute trades.".
Definition trade_failed_message : string :=
  "Failed to execute trade. Please check your inputs and try again.".

Open Scope eff_scope.

(** [useSignalLevels && signal.k ? signal.k : manual]: the signal is read
    only when the box is ticked, and the read throws on a null signal. *)
Definition level (use : bool) (sig : jsval) (k : string) (manual : jsval)
  : Eff State jsval :=
  if use then
    v <- read sig k ;;
    if truthy v then read sig k else ret manual
  else ret manual.

(** The object literal [tradeData]. *)
Definition tradeData (snap : State) (action : string) : Eff State jsval :=
  let form := tradeForm snap in
  qty <- builtin (fun w => parseInt w (quantity form)) ;;
  stop_loss <- level (useSignalLevels form) (signal snap) "stop_loss" (stopLoss form) ;;
  take_profit <- level (useSignalLevels form) (signal snap) "take_profit" (takeProfit form) ;;
  ret (VObj [("action", VStr action);
             ("timeframe", VStr (timeframe form));
             ("quantity", qty);
             ("order_type", VStr (orderType form));
             ("stop_loss", stop_loss);
             ("take_profit", take_profit)]).

(** [handleExecuteTrade(action)], closed over the render [snap]. *)
Definition handleExecuteTrade (snap : State) (action : string) : Eff State unit :=
  setSubmitting true ;;
  setError None ;;
  setSuccess None ;;
  try_finally
    (try_catch
       (if negb (isLoggedIn (zerodhaStatus snap)) then
          setError (Some not_logged_in_message) ;;
          setSubmitting false ;;
          ret tt
        else
          data <- tradeData snap action ;;
          response <- await (placeTradeFromSignal data) ;;
          order_id <- read response "order_id" ;;
          shown <- builtin (fun w => ToString w order_id) ;;
          setSuccess (Some ("Trade executed successfully! Order ID: " ++ shown)) ;;
          ordersResponse <- await getZerodhaOrders ;;
          setOrders ordersResponse)
       (emit (Console "Error executing trade:") ;;
        setError (Some trade_failed_message)))
    (setSubmitting false).

(** A click on BUY or SELL in render state [s]: the handler runs over
    the store it was rendered from. *)
Definition execute (w : World) (s : State) (l : Log) (action : string)
  : Outcome unit * State * Log :=
  handleExecuteTrade s action w s l.

Definition load_failed_message : string :=
  "Failed to load trading data. Please try again later.".

(** [fetchData()], closed over the render [snap]. [Promise.all] issues
    both requests before either is awaited. *)
Definition fetchData (snap : State) : Eff State unit :=
  setLoading true ;;
  setError None ;;
  try_finally
    (try_catch
       (try_catch
          (profileData <- await getZerodhaProfile ;;
           setZerodhaStatus (fun _ => mkStatus true profileData VUndefined) ;;
           marginsData <- await getZerodhaMargins ;;
           setZerodhaStatus (fun prev => mkStatus (isLoggedIn prev) (profile prev) marginsData) ;;
           ordersPromise <- start getZerodhaOrders ;;
           positionsPromise <- start getZerodhaPositions ;;
           ordersData <- settle ordersPromise ;;
           positionsData <- settle positionsPromise ;;
           setOrders ordersData ;;
           setPositions positionsData)
          (emit (Console "Not logged in to Zerodha") ;;
           setZerodhaStatus (fun _ => mkStatus false VNull VNull)) ;;
        data <- await (getSignal (Some (timeframe (tradeForm snap)))) ;;
        setSignal data ;;
        if truthy data then
          sl <- read data "stop_loss" ;;
          if truthy sl then
            tp <- read data "take_profit" ;;
            if truthy tp then
              setTradeForm (fun prev =>
                mkForm (timeframe prev) (quantity prev) (orderType prev)
                       sl tp (useSignalLevels prev))
            else ret tt
          else ret tt
        else ret tt)
       (emit (Console "Error loading trading data:") ;;
        setError (Some load_failed_message)))
    (setLoading false).

(** The form controls wired to [handleFormChange], by their [name]. *)
Inductive Control :=
| quantityInput | orderTypeSelect | useSignalLevelsBox | stopLossInput | takeProfitInput.

(** [handleFormChange(e)]: the field named like the control takes
    [checked] for the checkbox and the [value] string otherwise. *)
Definition handleFormChange (c : Control) (value : string) (checked : bool)
  : Eff State unit :=
  setTradeForm (fun prev =>
    match c with
    | quantityInput =>
        mkForm (timeframe prev) (VStr value) (orderType prev)
               (stopLoss prev) (takeProfit prev) (useSignalLevels prev)
    | orderTypeSelect =>
        mkForm (timeframe prev) (quantity prev) value
               (stopLoss prev) (takeProfit prev) (useSignalLevels prev)
    | useSignalLevelsBox =>
        mkForm (timeframe prev) (quantity prev) (orderType prev)
               (stopLoss prev) (takeProfit prev) checked
    | stopLossInput =>
        mkForm (timeframe prev) (quantity prev) (orderType prev)
               (VStr value) (takeProfit prev) (useSignalLevels prev)
    | takeProfitInput =>
        mkForm (timeframe prev) (quantity prev) (orderType prev)
               (stopLoss prev) (VStr value) (useSignalLevels prev)
    end).

(** [handleTimeframeChange(timeframe)], closed over the render [snap]. *)
Definition handleTimeframeChange (snap : State) (tf : string) : Eff State unit :=
  setTradeForm (fun prev =>
    mkForm tf (quantity prev) (orderType prev)
           (stopLoss prev) (takeProfit prev) (useSignalLevels prev)) ;;
  try_finally
    (try_catch
       (setLoading true ;;
        data <- await (getSignal (Some tf)) ;;
        setSignal data ;;
        if useSignalLevels (tradeForm snap) && truthy data then
          sl <- read data "stop_loss" ;;
          tp <- read data "take_profit" ;;
          setTradeForm (fun prev =>
            mkForm (timeframe prev) (quantity prev) (orderType prev)
                   sl tp (useSignalLevels prev))
        else ret tt)
       (emit (Console "Error fetching signal for timeframe:")))
    (setLoading false).

(** The [<option value=...>] list of the "Signal Timeframe" select. *)
Definition timeframe_options : list string := ["1h"; "4h"; "1d"; "1w"].

(** What the user can do on the page. A select delivers the value of
    one of its options ([chooseTimeframe i] picks the [i]-th; there is no
    event for an option that does not exist). *)
Inductive UiEvent :=
| mount
| refresh
| chooseTimeframe (i : nat)
| change (c : Control) (value : string) (checked : bool)
| clickBuy
| clickSell.

Definition handler (snap : State) (e : UiEvent) : Eff State unit :=
  match e with
  | mount | refresh => fetchData snap
  | chooseTimeframe i =>
      match nth_error timeframe_options i with
      | Some tf => handleTimeframeChange snap tf
      | None => ret tt
      end
  | change c value checked => handleFormChange c value checked
  | clickBuy => handleExecuteTrade snap "BUY"
  | clickSell => handleExecuteTrade snap "SELL"
  end.

(** The page after a sequence of events, each handler closed over the
    store the previous one left. *)
Fixpoint run (w : World) (es : list UiEvent) (s : State) (l : Log) : State * Log :=
  match es with
  | [] => (s, l)
  | e :: rest =>
      let r := handler s e w s l in
      run w rest (store_of r) (log_of r)
  end.

(** The order submissions among the requests of a log. *)
Definition order_submissions (l : Log) : list ApiCall :=
  filter is_order_submission (calls l).

(** The value a level of the order takes, as a function of the render. *)
Definition chosen_level (use : bool) (sig : jsval) (k : string) (manual : jsval) : jsval :=
  if use then
    match get_prop sig k with
    | Some v => if truthy v then v else manual
    | None => manual
    end
  else manual.

(** The payload of the order for a render and a button. *)
Definition order_payload (w : World) (s : State) (action : string) : jsval :=
  let form := tradeForm s in
  VObj [("action", VStr action);
        ("timeframe", VStr (timeframe form));
        ("quantity", parseInt w (quantity form));
        ("order_type", VStr (orderType form));
        ("stop_loss", chosen_level (useSignalLevels form) (signal s) "stop_loss" (stopLoss form));
        ("take_profit", chosen_level (useSignalLevels form) (signal s) "take_profit" (takeProfit form))].

(** A brokerage double for the examples: every order is accepted and
    numbered by the position of its request, the order list is empty, and
    the built-ins are the identity on the integers and strings the
    examples pass them. *)
Definition demo_broker : World :=
  mkWorld
    (fun n c =>
       match c with
       | placeTradeFromSignal _ =>
           Resolved (VObj [("order_id", VStr ("ORD-" ++ nat_to_string n))])
       | getZerodhaOrders => Resolved (VArr [])
       | _ => Rejected
       end)
    (fun _ => 0%float)
    (fun v => v)
    (fun v => match v with VStr t => t | _ => "undefined" end)
    (fun v => match v with VNum x => x | _ => nan end).

(** A logged-in render with the box ticked, a signal whose stop loss is
    the number 0 and a stop loss of 1900 left in the form. *)
Definition zero_stop_render : State :=
  mkState false false None None
          (VObj [("action", VStr "BUY"); ("stop_loss", VNum 0%float);
                 ("take_profit", VNum 2100%float)])
          (mkStatus true (VObj [("user_name", VStr "demo")])
                    (VObj [("available", VNum 100000%float)]))
          (VArr []) (VArr [])
          (mkForm "1h" (VNum 1%float) "MARKET" (VStr "1900") (VStr "2150") true).

(** A logged-in render whose signal carries both levels. *)
Definition ready_render : State :=
  mkState false false None None
          (VObj [("action", VStr "BUY"); ("stop_loss", VNum 1950%float);
                 ("take_profit", VNum 2100%float)])
          (mkStatus true (VObj [("user_name", VStr "demo")]) VNull)
          (VArr []) (VArr [])
          (mkForm "1h" (VNum 1%float) "MARKET" VNull VNull true).


(** A backend double for a logged-in account whose current signal has
    the number 0 as its stop loss. *)
Definition zero_stop_backend : World :=
  mkWorld
    (fun n c =>
       match c with
       | getZerodhaProfile => Resolved (VObj [("user_name", VStr "demo")])
       | getZerodhaMargins => Resolved (VObj [("available", VNum 100000%float)])
       | getZerodhaOrders | getZerodhaPositions => Resolved (VArr [])
       | getSignal _ =>
           Resolved (VObj [("action", VStr "BUY"); ("stop_loss", VNum 0%float);
                           ("take_profit", VNum 2100%float)])
       | placeTradeFromSignal _ =>
           Resolved (VObj [("order_id", VStr ("ORD-" ++ nat_to_string n))])
       | _ => Rejected
       end)
    (fun _ => 0%float)
    (fun v => v)
    (fun v => match v with VStr t => t | _ => "undefined" end)
    (fun v => match v with VNum x => x | _ => nan end).

(** The user opens the page, unticks the box, types both levels and
    ticks the box again. *)
Definition retick_session : list UiEvent :=
  [mount;
   change useSignalLevelsBox "on" false;
   change stopLossInput "1900" false;
   change takeProfitInput "2150" false;
   change useSignalLevelsBox "on" true].

Lemma get_prop_defined (o : jsval) (k : string) :
  nullish o = false -> exists v, get_prop o k = Some v.
Proof.
  destruct o; simpl; intros H; try discriminate; eauto.
  - destruct (k =? "length"); eauto.
    destruct (array_index k); eauto. destruct (String.get n s); eauto.
  - destruct (k =? "length"); eauto. destruct (array_index k); eauto.
  - destruct (lookup_field k fields); eauto.
Qed.

Lemma level_chosen (use : bool) (sig : jsval) (k : string) (manual : jsval)
      (w : World) (s : State) (l : Log) :
  nullish sig = false ->
  level use sig k manual w s l = (Done (chosen_level use sig k manual), s, l).
Proof.
  intros Hsig. destruct (get_prop_defined sig k Hsig) as [v Hv].
  unfold level, chosen_level, read, bind. destruct use; [|reflexivity].
  rewrite Hv. cbn. destruct (truthy v); reflexivity.
Qed.

Lemma tradeData_payload (w : World) (snap s : State) (l : Log) (action : string) :
  nullish (signal snap) = false \/ useSignalLevels (tradeForm snap) = false ->
  tradeData snap action w s l = (Done (order_payload w snap action), s, l).
Proof.
  intros H. unfold tradeData, order_payload, bind, builtin.
  destruct H as [H | H].
  - rewrite !(level_chosen _ _ _ _ _ _ _ H). reflexivity.
  - rewrite H. reflexivity.
Qed.

(** The run of an authenticated click whose order payload can be built:
    the order is posted first; what follows depends on the responses. *)
Lemma execute_logged_in (w : World) (s : State) (l : Log) (action : string) :
  isLoggedIn (zerodhaStatus s) = true ->
  nullish (signal s) = false \/ useSignalLevels (tradeForm s) = false ->
  exists rest,
    calls (log_of (execute w s l action))
    = (calls l ++ placeTradeFromSignal (order_payload w s action) :: rest)%list
    /\ filter is_order_submission rest = [].
Proof.
  intros Hin Hsig.
  unfold execute, handleExecuteTrade, try_finally, try_catch, bind at 1 2 3.
  cbn [setSubmitting setError setSuccess modify].
  rewrite Hin. cbn [negb].
  unfold bind at 1. rewrite (tradeData_payload _ _ _ _ _ Hsig).
  unfold await, start, settle, bind, calls. cbn [events draws].
  set (body := order_payload w s action).
  destruct (respond w (List.length (calls_of (events l))) (placeTradeFromSignal body))
    as [data|]; cbn.
  - unfold read. destruct (get_prop data "order_id") as [oid|]; cbn.
    + rewrite !calls_of_app. cbn. rewrite <- app_assoc. cbn.
      destruct (respond w _ getZerodhaOrders); cbn;
        rewrite ?calls_of_app; cbn; rewrite ?app_nil_r;
        exists [getZerodhaOrders]; split; reflexivity.
    + rewrite !calls_of_app. cbn. rewrite app_nil_r.
      exists []; split; reflexivity.
  - rewrite !calls_of_app. cbn. rewrite app_nil_r.
    exists []; split; reflexivity.
Qed.

Lemma signal_read_not_nullish (o : jsval) (k : string) (v : jsval) :
  get_prop o k = Some v -> nullish o = false.
Proof. destruct o; simpl; intros H; try discriminate; reflexivity. Qed.

(** C1. A trade execution requested while the Zerodha login state is
    false issues no request at all (so no [placeTradeFromSignal]), leaves
    the explicit error "You must log in to Zerodha to execute trades." in
    the page, shows no success, and ends with [submitting] cleared. *)
Theorem unauthenticated_trade_is_refused
        (w : World) (s : State) (l : Log) (action : string) :
  isLoggedIn (zerodhaStatus s) = false ->
  events (log_of (execute w s l action)) = events l
  /\ order_submissions (log_of (execute w s l action)) = order_submissions l
  /\ error (store_of (execute w s l action)) = Some not_logged_in_message
  /\ success (store_of (execute w s l action)) = None
  /\ submitting (store_of (execute w s l action)) = false
  /\ outcome_of (execute w s l action) = Done tt.
Proof.
  intros Hout.
  unfold execute, handleExecuteTrade, try_finally, try_catch, bind.
  cbn [setSubmitting setError setSuccess modify].
  rewrite Hout. cbn. repeat split; reflexivity.
Qed.

Lemma unauthenticated_trade_witness :
  isLoggedIn (zerodhaStatus initial) = false
  /\ events (log_of (execute demo_broker initial empty_log "BUY")) = []
  /\ error (store_of (execute demo_broker initial empty_log "BUY"))
     = Some "You must log in to Zerodha to execute trades.".
Proof.
  split; [reflexivity|].
  pose proof (unauthenticated_trade_is_refused demo_broker initial empty_log "BUY" eq_refl)
    as (Hev & _ & Herr & _).
  split; [exact Hev | exact Herr].
Defined.

(** C2, as stated, fails: after the session above the box is ticked and
    the current signal has the non-null stop_loss 0, and a click on BUY
    submits the stop loss left in the form ("1900"), not the signal's. *)
Lemma non_null_level_counterexample :
  fst (run zero_stop_backend retick_session initial empty_log) = zero_stop_render
  /\ isLoggedIn (zerodhaStatus zero_stop_render) = true
  /\ useSignalLevels (tradeForm zero_stop_render) = true
  /\ get_prop (signal zero_stop_render) "stop_loss" = Some (VNum 0%float)
  /\ get_prop (signal zero_stop_render) "take_profit" = Some (VNum 2100%float)
  /\ nullish (VNum 0%float) = false
  /\ nullish (VNum 2100%float) = false
  /\ calls (log_of (execute zero_stop_backend zero_stop_render empty_log "BUY"))
     = [placeTradeFromSignal
          (VObj [("action", VStr "BUY"); ("timeframe", VStr "1h");
                 ("quantity", VNum 1%float); ("order_type", VStr "MARKET");
                 ("stop_loss", VStr "1900"); ("take_profit", VNum 2100%float)]);
        getZerodhaOrders]
  /\ VStr "1900" <> VNum 0%float.
Proof.
  repeat split; try reflexivity. discriminate.
Qed.

(** C2, amended. When both levels of the current signal are truthy
    (not null, undefined, 0, NaN or the empty string), the submitted order
    carries exactly the signal's stop_loss and take_profit if
    useSignalLevels is ticked, and the levels of the form if it is not. *)
Theorem submitted_levels
        (w : World) (s : State) (l : Log) (action : string) (sl tp : jsval) :
  isLoggedIn (zerodhaStatus s) = true ->
  get_prop (signal s) "stop_loss" = Some sl ->
  get_prop (signal s) "take_profit" = Some tp ->
  truthy sl = true ->
  truthy tp = true ->
  exists body rest,
    calls (log_of (execute w s l action))
    = (calls l ++ placeTradeFromSignal body :: rest)%list
    /\ filter is_order_submission rest = []
    /\ get_prop body "stop_loss"
       = Some (if useSignalLevels (tradeForm s) then sl else stopLoss (tradeForm s))
    /\ get_prop body "take_profit"
       = Some (if useSignalLevels (tradeForm s) then tp else takeProfit (tradeForm s)).
Proof.
  intros Hin Hsl Htp Tsl Ttp.
  assert (Hsig : nullish (signal s) = false)
    by (eapply signal_read_not_nullish; eassumption).
  destruct (execute_logged_in w s l action Hin (or_introl Hsig)) as (rest & Hcalls & Hrest).
  exists (order_payload w s action), rest.
  split; [exact Hcalls|]. split; [exact Hrest|].
  unfold order_payload, chosen_level. cbn.
  rewrite Hsl, Htp, Tsl, Ttp.
  destruct (useSignalLevels (tradeForm s)); split; reflexivity.
Qed.

Lemma submitted_levels_witness :
  exists body rest,
    calls (log_of (execute demo_broker ready_render empty_log "BUY"))
    = placeTradeFromSignal body :: rest
    /\ filter is_order_submission rest = []
    /\ get_prop body "stop_loss" = Some (VNum 1950%float)
    /\ get_prop body "take_profit" = Some (VNum 2100%float).
Proof.
  exact (submitted_levels demo_broker ready_render empty_log "BUY"
           (VNum 1950%float) (VNum 2100%float)
           eq_refl eq_refl eq_refl eq_refl eq_refl).
Defined.


End Trading.

(* ------------------------------------------------------------------ *)
(** ** The Predictions page ([pages/Predictions.js]) *)

Module Predictions.

Record Accuracy := mkAccuracy {
  mae : string;
  mse : string;
  rmse : string;
  accuracy : string
}.

Record State := mkState {
  loading : bool;
  error : option string;
  priceData : jsval;
  predictions : jsval;
  selectedTimeframe : string;
  metrics : option Accuracy
}.

Definition initial : State :=
  mkState true None (VArr []) (VArr []) "1h" None.

Definition setLoading (b : bool) : Eff State unit :=
  modify (fun s => mkState b (error s) (priceData s) (predictions s)
                           (selectedTimeframe s) (metrics s)).
Definition setError (e : option string) : Eff State unit :=
  modify (fun s => mkState (loading s) e (priceData s) (predictions s)
                           (selectedTimeframe s) (metrics s)).
Definition setPriceData (v : jsval) : Eff State unit :=
  modify (fun s => mkState (loading s) (error s) v (predictions s)
                           (selectedTimeframe s) (metrics s)).
Definition setPredictions (v : jsval) : Eff State unit :=
  modify (fun s => mkState (loading s) (error s) (priceData s) v
                           (selectedTimeframe s) (metrics s)).
Definition setSelectedTimeframe (tf : string) : Eff State unit :=
  modify (fun s => mkState (loading s) (error s) (priceData s) (predictions s)
                           tf (metrics s)).
Definition setAccuracy (a : Accuracy) : Eff State unit :=
  modify (fun s => mkState (loading s) (error s) (priceData s) (predictions s)
                           (selectedTimeframe s) (Some a)).

Definition load_failed_message : string :=
  "Failed to load predictions. Please try again later.".

Open Scope eff_scope.

(** [(e).toFixed(2)] on a number computed in the handler. *)
Definition fixed2 (x : float) : Eff State string :=
  builtin (fun w => toFixed2 (fun y => ToString w (VNum y)) x).

(** [data && data.length > 0]. *)
Definition non_empty (data : jsval) : Eff State bool :=
  if truthy data then
    len <- read data "length" ;;
    builtin (fun w => gt_zero (ToNumber w) len)
  else ret false.

(** The object literal handed to [setAccuracy]: four draws, in the
    order of its properties. *)
Definition drawn_accuracy : Eff State Accuracy :=
  r1 <- math_random ;;
  mae_ <- fixed2 (r1 * 10)%float ;;
  r2 <- math_random ;;
  mse_ <- fixed2 (r2 * 100)%float ;;
  r3 <- math_random ;;
  rmse_ <- fixed2 (r3 * 15)%float ;;
  r4 <- math_random ;;
  accuracy_ <- fixed2 (75 + r4 * 15)%float ;;
  ret (mkAccuracy mae_ mse_ rmse_ accuracy_).

(** [fetchData()] of a render whose [selectedTimeframe] is [tf]. *)
Definition fetchData (tf : string) : Eff State unit :=
  setLoading true ;;
  setError None ;;
  try_finally
    (try_catch
       (priceResponse <- await (getPriceData (Some tf) (Some 100)) ;;
        setPriceData priceResponse ;;
        predictionsResponse <- await (getPredictions (Some tf)) ;;
        setPredictions predictionsResponse ;;
        filled <- non_empty predictionsResponse ;;
        if (filled : bool) then
          a <- drawn_accuracy ;;
          setAccuracy a
        else ret tt)
       (emit (Console "Error fetching predictions:") ;;
        setError (Some load_failed_message)))
    (setLoading false).

(** The timeframe buttons, by the literal each passes to
    [handleTimeframeChange]. *)
Definition timeframe_buttons : list string := ["1h"; "4h"; "1d"; "1w"].

Inductive UiEvent :=
| mount
| refresh
| clickTimeframe (i : nat).

(** A button sets [selectedTimeframe]; the effect depending on it
    fetches again when the value changed. *)
Definition handler (snap : State) (e : UiEvent) : Eff State unit :=
  match e with
  | mount | refresh => fetchData (selectedTimeframe snap)
  | clickTimeframe i =>
      match nth_error timeframe_buttons i with
      | Some tf =>
          setSelectedTimeframe tf ;;
          if tf =? selectedTimeframe snap then ret tt else fetchData tf
      | None => ret tt
      end
  end.

Fixpoint run (w : World) (es : list UiEvent) (s : State) (l : Log) : State * Log :=
  match es with
  | [] => (s, l)
  | e :: rest =>
      let r := handler s e w s l in
      run w rest (store_of r) (log_of r)
  end.

(** A backend double that answers every request for a timeframe with
    the same price bars and the same two predictions, and a generator that
    returns 0.5 four times and 0.25 from then on. *)
Definition replaying : World :=
  mkWorld
    (fun _ c =>
       match c with
       | getPriceData _ _ =>
           Resolved (VArr [VObj [("timestamp", VStr "2024-01-01T10:00:00");
                                 ("close", VNum 2000%float)]])
       | getPredictions _ =>
           Resolved (VArr [VObj [("timestamp", VStr "2024-01-01T11:00:00");
                                 ("predicted_price", VNum 2001%float)];
                           VObj [("timestamp", VStr "2024-01-01T12:00:00");
                                 ("predicted_price", VNum 2002%float)]])
       | _ => Rejected
       end)
    (fun n => if (n <? 4)%nat then 0.5%float else 0.25%float)
    (fun v => v)
    (fun v => match v with VStr t => t | _ => "undefined" end)
    (fun v => match v with VNum x => x | _ => nan end).

(** [data && data.length > 0] as a function of the response. *)
Definition has_items (w : World) (data : jsval) : bool :=
  truthy data &&
  match get_prop data "length" with
  | Some len => gt_zero (ToNumber w) len
  | None => false
  end.

(** The metrics the four draws from position [d] on give. *)
Definition metrics_of_draws (w : World) (d : nat) : Accuracy :=
  let fx := toFixed2 (fun y => ToString w (VNum y)) in
  mkAccuracy (fx (random w d * 10)%float)
             (fx (random w (1 + d) * 100)%float)
             (fx (random w (2 + d) * 15)%float)
             (fx (75 + random w (3 + d) * 15)%float).

Lemma non_empty_has_items (w : World) (data : jsval) (s : State) (l : Log) :
  non_empty data w s l = (Done (has_items w data), s, l).
Proof.
  unfold non_empty, has_items.
  destruct (truthy data) eqn:Ht; [|reflexivity].
  unfold bind, read. destruct (get_prop data "length") as [len|] eqn:Hlen.
  - reflexivity.
  - destruct data; simpl in *; try discriminate.
    + destruct (lookup_field "length" fields); discriminate.
Qed.

Lemma drawn_accuracy_metrics (w : World) (s : State) (l : Log) :
  drawn_accuracy w s l
  = (Done (metrics_of_draws w (draws l)), s, mkLog (events l) (4 + draws l)).
Proof. reflexivity. Qed.

(** A fetch whose two requests resolve, in full. *)
Lemma fetchData_resolved
      (w : World) (s : State) (l : Log) (tf : string) (pd pr : jsval) :
  respond w (List.length (calls l)) (getPriceData (Some tf) (Some 100)) = Resolved pd ->
  respond w (Datatypes.S (List.length (calls l))) (getPredictions (Some tf)) = Resolved pr ->
  fetchData tf w s l
  = (Done tt,
     mkState false None pd pr (selectedTimeframe s)
             (if has_items w pr then Some (metrics_of_draws w (draws l)) else metrics s),
     mkLog (events l ++ [Call (getPriceData (Some tf) (Some 100));
                         Call (getPredictions (Some tf))])
           (if has_items w pr then 4 + draws l else draws l)).
Proof.
  intros Hpd Hpr.
  unfold fetchData.
  eapply bind_done; [reflexivity|].
  eapply bind_done; [reflexivity|].
  unfold try_finally, try_catch.
  match goal with
  | |- context [bind ?m ?k w ?s0 l] =>
      assert (Hbody : bind m k w s0 l
                      = (Done tt,
                         mkState true None pd pr (selectedTimeframe s)
                           (if has_items w pr then Some (metrics_of_draws w (draws l))
                            else metrics s),
                         mkLog (events l ++ [Call (getPriceData (Some tf) (Some 100));
                                             Call (getPredictions (Some tf))])
                               (if has_items w pr then 4 + draws l else draws l)))
  end.
  { eapply bind_done; [apply await_resolved; exact Hpd|].
    eapply bind_done; [reflexivity|].
    eapply bind_done.
    { apply await_resolved. rewrite calls_after_call, length_app, Nat.add_1_r. exact Hpr. }
    eapply bind_done; [reflexivity|].
    eapply bind_done; [apply non_empty_has_items|].
    cbn [events draws]. rewrite <- app_assoc. cbn [app].
    destruct (has_items w pr).
    - eapply bind_done; [apply drawn_accuracy_metrics|]. reflexivity.
    - reflexivity. }
  rewrite Hbody. reflexivity.
Qed.

(** C3, as stated, fails: the backend double answers the mount and the
    refresh with the same price data and the same predictions, and the two
    renders show different metrics. *)
Lemma metrics_counterexample :
  respond replaying 0 (getPriceData (Some "1h") (Some 100))
  = respond replaying 2 (getPriceData (Some "1h") (Some 100))
  /\ respond replaying 1 (getPredictions (Some "1h"))
     = respond replaying 3 (getPredictions (Some "1h"))
  /\ calls (snd (run replaying [mount; refresh] initial empty_log))
     = [getPriceData (Some "1h") (Some 100); getPredictions (Some "1h");
        getPriceData (Some "1h") (Some 100); getPredictions (Some "1h")]
  /\ metrics (fst (run replaying [mount] initial empty_log))
     = Some (mkAccuracy "5.00" "50.00" "7.50" "82.50")
  /\ metrics (fst (run replaying [mount; refresh] initial empty_log))
     = Some (mkAccuracy "2.50" "25.00" "3.75" "78.75").
Proof.
  repeat split; vm_compute; reflexivity.
Qed.

(** C3, amended. When both requests of a fetch resolve, the metrics
    shown afterwards are set exactly when the predictions response is
    non-empty, and are then the [toFixed(2)] renderings of
    [r1*10], [r2*100], [r3*15] and [75 + r4*15] for the next four values
    [r1..r4] of [Math.random()]: a function of the draws, not of the
    content of the responses. With an empty predictions response the
    metrics of the previous render stay. *)
Theorem metrics_follow_the_draws
        (w : World) (s : State) (l : Log) (tf : string) (pd pr : jsval) :
  respond w (List.length (calls l)) (getPriceData (Some tf) (Some 100)) = Resolved pd ->
  respond w (Datatypes.S (List.length (calls l))) (getPredictions (Some tf)) = Resolved pr ->
  metrics (store_of (fetchData tf w s l))
  = (if has_items w pr then Some (metrics_of_draws w (draws l)) else metrics s)
  /\ draws (log_of (fetchData tf w s l))
     = (if has_items w pr then 4 + draws l else draws l)
  /\ predictions (store_of (fetchData tf w s l)) = pr
  /\ priceData (store_of (fetchData tf w s l)) = pd.
Proof.
  intros Hpd Hpr.
  rewrite (fetchData_resolved w s l tf pd pr Hpd Hpr).
  destruct (has_items w pr); repeat split; reflexivity.
Qed.

Lemma metrics_follow_the_draws_witness :
  metrics (store_of (fetchData "1h" replaying initial empty_log))
  = Some (mkAccuracy "5.00" "50.00" "7.50" "82.50").
Proof.
  exact (proj1 (metrics_follow_the_draws replaying initial empty_log "1h"
                  _ _ eq_refl eq_refl)).
Defined.

End Predictions.

(* ------------------------------------------------------------------ *)
(** ** The Signals page ([pages/Signals.js]) *)

Module Signals.

(** [lastUpdate] holds [new Date()]; the model keeps whether it is set. *)
Record State := mkState {
  loading : bool;
  error : option string;
  signals : jsval;
  selectedTimeframe : string;
  lastUpdate : bool
}.

Definition initial : State := mkState true None (VObj []) "1h" false.

Definition timeframes : list string := ["1h"; "4h"; "1d"; "1w"].

Definition setLoading (b : bool) : Eff State unit :=
  modify (fun s => mkState b (error s) (signals s) (selectedTimeframe s) (lastUpdate s)).
Definition setError (e : option string) : Eff State unit :=
  modify (fun s => mkState (loading s) e (signals s) (selectedTimeframe s) (lastUpdate s)).
Definition setSignals (v : jsval) : Eff State unit :=
  modify (fun s => mkState (loading s) (error s) v (selectedTimeframe s) (lastUpdate s)).
Definition setSelectedTimeframe (tf : string) : Eff State unit :=
  modify (fun s => mkState (loading s) (error s) (signals s) tf (lastUpdate s)).
Definition setLastUpdate : Eff State unit :=
  modify (fun s => mkState (loading s) (error s) (signals s) (selectedTimeframe s) true).

Open Scope eff_scope.

Definition fetchSignals : Eff State unit :=
  setLoading true ;;
  setError None ;;
  try_finally
    (try_catch
       (data <- await getAllSignals ;;
        setSignals data ;;
        setLastUpdate)
       (emit (Console "Error fetching signals:") ;;
        setError (Some "Failed to load signals. Please try again later.")))
    (setLoading false).

(** [handleUpdateData()]; the fetch it starts is run to its end. *)
Definition handleUpdateData : Eff State unit :=
  try_catch
    (setLoading true ;;
     await updateData ;;
     fetchSignals)
    (emit (Console "Error updating data:") ;;
     setError (Some "Failed to update data. Please try again later.") ;;
     setLoading false).

Inductive UiEvent :=
| mount
| refresh
| update
| clickTimeframe (i : nat).

Definition handler (e : UiEvent) : Eff State unit :=
  match e with
  | mount | refresh => fetchSignals
  | update => handleUpdateData
  | clickTimeframe i =>
      match nth_error timeframes i with
      | Some tf => setSelectedTimeframe tf
      | None => ret tt
      end
  end.

Fixpoint run (w : World) (es : list UiEvent) (s : State) (l : Log) : State * Log :=
  match es with
  | [] => (s, l)
  | e :: rest =>
      let r := handler e w s l in
      run w rest (store_of r) (log_of r)
  end.

End Signals.

(* ------------------------------------------------------------------ *)
(** ** The Price Data page ([pages/PriceData.js]) *)

Module PriceData.

Record State := mkState {
  loading : bool;
  error : option string;
  priceData : jsval;
  selectedTimeframe : string;
  limit : nat
}.

Definition initial : State := mkState true None (VArr []) "1h" 100.

Definition setLoading (b : bool) : Eff State unit :=
  modify (fun s => mkState b (error s) (priceData s) (selectedTimeframe s) (limit s)).
Definition setError (e : option string) : Eff State unit :=
  modify (fun s => mkState (loading s) e (priceData s) (selectedTimeframe s) (limit s)).
Definition setPriceData (v : jsval) : Eff State unit :=
  modify (fun s => mkState (loading s) (error s) v (selectedTimeframe s) (limit s)).
Definition setSelectedTimeframe (tf : string) : Eff State unit :=
  modify (fun s => mkState (loading s) (error s) (priceData s) tf (limit s)).
Definition setLimit (n : nat) : Eff State unit :=
  modify (fun s => mkState (loading s) (error s) (priceData s) (selectedTimeframe s) n).

Open Scope eff_scope.

(** [fetchPriceData()] of a render with these two state values. *)
Definition fetchPriceData (tf : string) (lim : nat) : Eff State unit :=
  setLoading true ;;
  setError None ;;
  try_finally
    (try_catch
       (data <- await (getPriceData (Some tf) (Some lim)) ;;
        setPriceData data)
       (emit (Console "Error fetching price data:") ;;
        setError (Some "Failed to load price data. Please try again later.")))
    (setLoading false).

Definition handleUpdateData (snap : State) : Eff State unit :=
  try_catch
    (setLoading true ;;
     await updateData ;;
     fetchPriceData (selectedTimeframe snap) (limit snap))
    (emit (Console "Error updating data:") ;;
     setError (Some "Failed to update data. Please try again later.") ;;
     setLoading false).

Definition timeframe_buttons : list string := ["1h"; "4h"; "1d"; "1w"].
Definition limit_buttons : list nat := [50; 100; 200; 500].

Inductive UiEvent :=
| mount
| update
| clickTimeframe (i : nat)
| clickLimit (i : nat).

(** The effect on [[selectedTimeframe, limit]] fetches after a button
    changed one of the two. *)
Definition handler (snap : State) (e : UiEvent) : Eff State unit :=
  match e with
  | mount => fetchPriceData (selectedTimeframe snap) (limit snap)
  | update => handleUpdateData snap
  | clickTimeframe i =>
      match nth_error timeframe_buttons i with
      | Some tf =>
          setSelectedTimeframe tf ;;
          if tf =? selectedTimeframe snap then ret tt
          else fetchPriceData tf (limit snap)
      | None => ret tt
      end
  | clickLimit i =>
      match nth_error limit_buttons i with
      | Some n =>
          setLimit n ;;
          if (n =? limit snap)%nat then ret tt
          else fetchPriceData (selectedTimeframe snap) n
      | None => ret tt
      end
  end.

Fixpoint run (w : World) (es : list UiEvent) (s : State) (l : Log) : State * Log :=
  match es with
  | [] => (s, l)
  | e :: rest =>
      let r := handler s e w s l in
      run w rest (store_of r) (log_of r)
  end.

End PriceData.

(* ------------------------------------------------------------------ *)
(** ** The Dashboard page ([pages/Dashboard.js]) *)

Module Dashboard.

Record State := mkState {
  loading : bool;
  error : option string;
  priceData : jsval;
  predictions : jsval;
  signals : jsval;
  selectedTimeframe : string;
  lastUpdate : bool;
  showPredictions : bool
}.

Definition initial : State :=
  mkState true None (VArr []) (VArr []) (VObj []) "1h" false true.

Definition setLoading (b : bool) : Eff State unit :=
  modify (fun s => mkState b (error s) (priceData s) (predictions s) (signals s)
                           (selectedTimeframe s) (lastUpdate s) (showPredictions s)).
Definition setError (e : option string) : Eff State unit :=
  modify (fun s => mkState (loading s) e (priceData s) (predictions s) (signals s)
                           (selectedTimeframe s) (lastUpdate s) (showPredictions s)).
Definition setPriceData (v : jsval) : Eff State unit :=
  modify (fun s => mkState (loading s) (error s) v (predictions s) (signals s)
                           (selectedTimeframe s) (lastUpdate s) (showPredictions s)).
Definition setPredictions (v : jsval) : Eff State unit :=
  modify (fun s => mkState (loading s) (error s) (priceData s) v (signals s)
                           (selectedTimeframe s) (lastUpdate s) (showPredictions s)).
Definition setSignals (v : jsval) : Eff State unit :=
  modify (fun s => mkState (loading s) (error s) (priceData s) (predictions s) v
                           (selectedTimeframe s) (lastUpdate s) (showPredictions s)).
Definition setSelectedTimeframe (tf : string) : Eff State unit :=
  modify (fun s => mkState (loading s) (error s) (priceData s) (predictions s) (signals s)
                           tf (lastUpdate s) (showPredictions s)).
Definition setLastUpdate : Eff State unit :=
  modify (fun s => mkState (loading s) (error s) (priceData s) (predictions s) (signals s)
                           (selectedTimeframe s) true (showPredictions s)).
Definition setShowPredictions (b : bool) : Eff State unit :=
  modify (fun s => mkState (loading s) (error s) (priceData s) (predictions s) (signals s)
                           (selectedTimeframe s) (lastUpdate s) b).

Open Scope eff_scope.

(** The list a price or prediction response is taken to hold: its
    [data.data] or [data] when that is an array, else the empty list (with
    a warning). *)
Definition received_list (what : string) (data : jsval) : Eff State jsval :=
  if truthy data
     && (strict_eq_str (prop data "status") "success" || truthy (prop data "data"))
  then
    if is_array (prop data "data") then ret (prop data "data")
    else if is_array data then ret data
    else emit (Console (what ++ " data is not in the expected format:")) ;; ret (VArr [])
  else emit (Console ("Invalid " ++ what ++ " data response:")) ;; ret (VArr []).

(** The signal a signal response is taken to hold. *)
Definition received_signal (data : jsval) : Eff State jsval :=
  if truthy data then
    if strict_eq_str (prop data "status") "success" && truthy (prop data "data")
    then ret (prop data "data")
    else if (typeof data =? "object") && negb (truthy (prop data "error"))
    then ret data
    else emit (Console "Signal data is not in the expected format:") ;; ret (VObj [])
  else emit (Console "Invalid signal data response:") ;; ret (VObj []).

Definition fetchDashboardData (tf : string) : Eff State unit :=
  setLoading true ;;
  setError None ;;
  try_finally
    (try_catch
       (priceResponse <- await (getPriceData (Some tf) (Some 100)) ;;
        prices <- received_list "price" priceResponse ;;
        setPriceData prices ;;
        predictionsResponse <- await (getPredictions (Some tf)) ;;
        preds <- received_list "prediction" predictionsResponse ;;
        setPredictions preds ;;
        signalResponse <- await (getSignal (Some tf)) ;;
        sig <- received_signal signalResponse ;;
        setSignals sig ;;
        setLastUpdate)
       (emit (Console "Error fetching dashboard data:") ;;
        setError (Some "Failed to load dashboard data. Please try again later.") ;;
        setPriceData (VArr []) ;;
        setPredictions (VArr []) ;;
        setSignals (VObj [])))
    (setLoading false).

(** [handleUpdateData()]; the refresh it starts is run to its end. *)
Definition handleUpdateData (snap : State) : Eff State unit :=
  try_catch
    (setLoading true ;;
     response <- await updateData ;;
     emit (Console (if truthy response && strict_eq_str (prop response "status") "success"
                    then "Data update successful:"
                    else "Data update response not as expected:")) ;;
     fetchDashboardData (selectedTimeframe snap))
    (emit (Console "Error updating data:") ;;
     setError (Some "Failed to update data. Please try again later.") ;;
     setLoading false).

Definition timeframe_buttons : list string := ["1h"; "4h"; "1d"; "1w"].

Inductive UiEvent :=
| mount
| refresh
| update
| clickTimeframe (i : nat)
| togglePredictions.

(** A timeframe button fetches for its literal, and the effect on
    [[selectedTimeframe]] fetches once more when the value changed; the
    two fetches are run one after the other. *)
Definition handler (snap : State) (e : UiEvent) : Eff State unit :=
  match e with
  | mount | refresh => fetchDashboardData (selectedTimeframe snap)
  | update => handleUpdateData snap
  | clickTimeframe i =>
      match nth_error timeframe_buttons i with
      | Some tf =>
          setSelectedTimeframe tf ;;
          fetchDashboardData tf ;;
          if tf =? selectedTimeframe snap then ret tt else fetchDashboardData tf
      | None => ret tt
      end
  | togglePredictions => setShowPredictions (negb (showPredictions snap))
  end.

Fixpoint run (w : World) (es : list UiEvent) (s : State) (l : Log) : State * Log :=
  match es with
  | [] => (s, l)
  | e :: rest =>
      let r := handler s e w s l in
      run w rest (store_of r) (log_of r)
  end.

End Dashboard.

(* ------------------------------------------------------------------ *)
(** ** The OAuth callback page ([pages/ZerodhaAuth.js]) *)

Module ZerodhaAuth.

Record State := mkState {
  loading : bool;
  error : option string;
  success : bool
}.

Definition initial : State := mkState true None false.

Definition setLoading (b : bool) : Eff State unit :=
  modify (fun s => mkState b (error s) (success s)).
Definition setError (e : option string) : Eff State unit :=
  modify (fun s => mkState (loading s) e (success s)).
Definition setSuccess (b : bool) : Eff State unit :=
  modify (fun s => mkState (loading s) (error s) b).

(** A [URLSearchParams] object is its list of name-value pairs, and
    [get] returns the value of the first pair with the name, or [null]. *)
Fixpoint search_get (params : list (string * string)) (name : string) : option string :=
  match params with
  | [] => None
  | (n, v) :: rest => if n =? name then Some v else search_get rest name
  end.

Definition no_token_message : string :=
  "No request token found in the URL. Authentication failed.".
Definition exchange_failed_message : string :=
  "Failed to authenticate with Zerodha. Please try again later.".

Open Scope eff_scope.

(** The branch [if (!requestToken) { ...; return; }]. *)
Definition refuse : Eff State unit :=
  setError (Some no_token_message) ;;
  setLoading false.

(** [handleAuth()], for the search parameters of the location. *)
Definition handleAuth (params : list (string * string)) : Eff State unit :=
  try_catch
    (match search_get params "request_token" with
     | None => refuse
     | Some requestToken =>
         if negb (truthy (VStr requestToken)) then refuse
         else
           await (zerodhaCallback requestToken) ;;
           setSuccess true ;;
           setLoading false ;;
           emit (Timer 3000 "/trading")
     end)
    (emit (Console "Zerodha authentication error:") ;;
     setError (Some exchange_failed_message) ;;
     setLoading false).

(** The request token a callback URL brings, if any: the value of the
    parameter when it is there and not empty. *)
Definition request_token (params : list (string * string)) : option string :=
  match search_get params "request_token" with
  | Some t => if t =? "" then None else Some t
  | None => None
  end.

(** A brokerage double that accepts every token exchange. *)
Definition accepting : World :=
  mkWorld (fun _ c => match c with
                      | zerodhaCallback _ => Resolved (VObj [("status", VStr "success")])
                      | _ => Rejected
                      end)
          (fun _ => 0%float)
          (fun v => v)
          (fun v => match v with VStr t => t | _ => "undefined" end)
          (fun v => match v with VNum x => x | _ => nan end).

Lemma handleAuth_without_token (params : list (string * string))
      (w : World) (s : State) (l : Log) :
  request_token params = None ->
  handleAuth params w s l = (Done tt, mkState false (Some no_token_message) (success s), l).
Proof.
  unfold request_token, handleAuth, try_catch. intros H.
  destruct (search_get params "request_token") as [t|]; [|reflexivity].
  cbn [truthy]. destruct (t =? "") eqn:Ht; [reflexivity|discriminate].
Qed.

Lemma handleAuth_with_token (params : list (string * string)) (t : string)
      (w : World) (s : State) (l : Log) :
  request_token params = Some t ->
  calls (log_of (handleAuth params w s l)) = (calls l ++ [zerodhaCallback t])%list
  /\ success (store_of (handleAuth params w s l))
     = match respond w (List.length (calls l)) (zerodhaCallback t) with
       | Resolved _ => true
       | Rejected => success s
       end.
Proof.
  unfold request_token, handleAuth, try_catch. intros H.
  destruct (search_get params "request_token") as [t'|]; [|discriminate].
  cbn [truthy]. destruct (t' =? "") eqn:Ht; [discriminate|].
  injection H as ->. cbn [negb].
  destruct (respond w (List.length (calls l)) (zerodhaCallback t)) as [d|] eqn:Hr.
  - erewrite bind_done; [|apply await_resolved; exact Hr|reflexivity].
    cbn. unfold calls. cbn. rewrite !calls_of_app. cbn.
    rewrite app_nil_r. split; reflexivity.
  - erewrite bind_thrown; [|apply await_rejected; exact Hr].
    cbn. unfold calls. cbn. rewrite !calls_of_app. cbn.
    rewrite app_nil_r. split; reflexivity.
Qed.

(** C6. The token exchange is requested exactly when the callback URL
    brings a request token. A URL without the request_token parameter (or
    with an empty one) makes the page show "No request token found in the
    URL. Authentication failed.", logs no request and leaves [success]
    as it was; a URL with a token [t] issues the one request
    [zerodhaCallback t], and [success] is set only when it resolves. *)
Theorem exchange_needs_request_token
        (params : list (string * string)) (w : World) (s : State) (l : Log) :
  (search_get params "request_token" = None -> request_token params = None)
  /\ calls (log_of (handleAuth params w s l))
     = (calls l ++ match request_token params with
                  | Some t => [zerodhaCallback t]
                  | None => []
                  end)%list
  /\ match request_token params with
     | None =>
         events (log_of (handleAuth params w s l)) = events l
         /\ error (store_of (handleAuth params w s l)) = Some no_token_message
         /\ success (store_of (handleAuth params w s l)) = success s
         /\ loading (store_of (handleAuth params w s l)) = false
     | Some t =>
         success (store_of (handleAuth params w s l))
         = match respond w (List.length (calls l)) (zerodhaCallback t) with
           | Resolved _ => true
           | Rejected => success s
           end
     end.
Proof.
  split.
  - intros H. unfold request_token. rewrite H. reflexivity.
  - destruct (request_token params) as [t|] eqn:Ht.
    + destruct (handleAuth_with_token params t w s l Ht) as [Hc Hs].
      split; assumption.
    + rewrite (handleAuth_without_token params w s l Ht). cbn.
      rewrite app_nil_r. repeat split; reflexivity.
Qed.

(** Callback URLs without the parameter, with a token, and with an empty
    parameter, on the accepting double. *)
Lemma callback_examples :
  handleAuth [("status", "success")] accepting initial empty_log
  = (Done tt, mkState false (Some no_token_message) false, empty_log)
  /\ handleAuth [("request_token", "abc123"); ("status", "success")]
               accepting initial empty_log
     = (Done tt, mkState false None true,
        mkLog [Call (zerodhaCallback "abc123"); Timer 3000 "/trading"] 0)
  /\ handleAuth [("request_token", "")] accepting initial empty_log
     = (Done tt, mkState false (Some no_token_message) false, empty_log)
  /\ request (zerodhaCallback "abc123")
     = mkHttp GET "/api/v1/auth/zerodha/callback?request_token=abc123" None.
Proof. repeat split; reflexivity. Qed.

End ZerodhaAuth.

(* ------------------------------------------------------------------ *)
(** ** The signal card ([components/SignalDisplay.js]): its test and
    the helpers that classify the action *)

Module SignalDisplay.

(** [signal && typeof signal === 'object' && !signal.error &&
    Object.keys(signal).length > 0], as the truth value the [if] tests. *)
Definition hasValidData (signal : jsval) : bool :=
  truthy signal
  && (typeof signal =? "object")
  && negb (truthy (prop signal "error"))
  && (0 <? List.length (object_keys signal))%nat.

Definition getSignalClass (action : jsval) : string :=
  if negb (truthy action) then "hold-signal"
  else if strict_eq_str action "BUY" then "buy-signal"
  else if strict_eq_str action "SELL" then "sell-signal"
  else "hold-signal".

Definition getStrengthClass (strength : jsval) : string :=
  if strict_eq_str strength "STRONG" then "strong-signal" else "".

Definition getSignalIndicator (action : jsval) : string :=
  if negb (truthy action) then "hold"
  else if strict_eq_str action "BUY" then "buy"
  else if strict_eq_str action "SELL" then "sell"
  else "hold".

(** The action part of the card header: the class of the indicator dot
    ([signal-indicator ...]), the classes of the label, and the value of
    the expression [signal.action || 'HOLD'] it shows. *)
Record Header := mkHeader {
  indicator : string;
  signalClass : string;
  strengthClass : string;
  actionShown : jsval
}.



Definition header_of (action : jsval) (strength : jsval) : Header :=
  mkHeader (getSignalIndicator action) (getSignalClass action)
           (getStrengthClass strength) (js_or action (VStr "HOLD")).


Lemma hasValidData_false_iff (signal : jsval) :
  hasValidData signal = false
  <-> (nullish signal = true
       \/ typeof signal <> "object"
       \/ truthy (prop signal "error") = true
       \/ object_keys signal = []).
Proof.
  unfold hasValidData, nullish.
  destruct signal as [| |b|x|s0|items|fields]; cbn [truthy typeof andb].
  - split; [intros _; left; reflexivity | reflexivity].
  - split; [intros _; left; reflexivity | reflexivity].
  - split; [intros _; right; left; discriminate|].
    intros _. destruct b; reflexivity.
  - split; [intros _; right; left; discriminate|].
    intros _. destruct (negb (falsy_number x)); reflexivity.
  - split; [intros _; right; left; discriminate|].
    intros _. destruct (negb (s0 =? "")); reflexivity.
  - replace (prop (VArr items) "error") with VUndefined by reflexivity.
    cbn. destruct items as [|i items]; cbn.
    + split; [intros _; do 3 right; reflexivity | reflexivity].
    + split; [discriminate|].
      intros [H|[H|[H|H]]]; try discriminate. contradiction H; reflexivity.
  - cbn [String.eqb Ascii.eqb Bool.eqb andb].
    destruct (truthy (prop (VObj fields) "error")) eqn:He; cbn.
    + split; [intros _; right; right; left; reflexivity | reflexivity].
    + destruct fields as [|f fields]; cbn.
      * split; [intros _; do 3 right; reflexivity | reflexivity].
      * split; [discriminate|].
        intros [H|[H|[H|H]]]; try discriminate. contradiction H; reflexivity.
Qed.


End SignalDisplay.

(* ------------------------------------------------------------------ *)
(** ** The price chart ([components/PriceChart.js]) *)

Module PriceChart.

(** What the component returns: one of three messages, or the data of
    a line chart (labels and one or two datasets; the static styling and
    the options object are left out). *)
Inductive Chart :=
| NoValidPriceData
| NoPriceData
| InvalidDataFormat
| PredictionChart (labels : list string) (actual predicted : list jsval)
| PriceOnlyChart (labels : list string) (data : list jsval).

Section Component.
(** [moment(v).format('MM/DD/YYYY HH:mm')], the one library call. *)
Variable format : jsval -> string.

(** [item && item.timestamp ? moment(item.timestamp).format(...) : ''] *)
Definition timestamp_label (item : jsval) : string :=
  if truthy item && truthy (prop item "timestamp")
  then format (prop item "timestamp")
  else "".

(** [item && typeof item.k !== 'undefined' ? item.k : null] *)
Definition field_or_null (k : string) (item : jsval) : jsval :=
  if truthy item && negb (typeof (prop item k) =? "undefined")
  then prop item k
  else VNull.

Definition labels_of (items : list jsval) : list string :=
  filter (fun t => negb (t =? "")) (map timestamp_label items).

Definition values_of (k : string) (items : list jsval) : list jsval :=
  filter (fun v => negb (is_null v)) (map (field_or_null k) items).

(** The prediction line: a null for every close, then the predicted
    prices, then nulls up to the number of labels. *)
Definition prediction_line (closes : nat) (predicted : list jsval) (labels : nat)
  : list jsval :=
  let line := (repeat VNull closes ++ predicted)%list in
  if (List.length line <? labels)%nat
  then (line ++ repeat VNull (labels - List.length line))%list
  else line.

(** The component; an omitted [showPrediction] or [predictionData]
    takes its default ([false], [[]]). *)
Definition PriceChart (priceData showPrediction predictionData : jsval) : Chart :=
  let showPrediction :=
    match showPrediction with VUndefined => VBool false | v => v end in
  let predictionData :=
    match predictionData with VUndefined => VArr [] | v => v end in
  match priceData with
  | VArr [] => NoPriceData
  | VArr items =>
      let timestamps := labels_of items in
      let closePrices := values_of "close" items in
      if (List.length timestamps =? 0)%nat || (List.length closePrices =? 0)%nat
      then InvalidDataFormat
      else
        let predArray :=
          if truthy showPrediction && truthy predictionData
          then match predictionData with VArr preds => preds | _ => [] end
          else [] in
        let predictionTimestamps := labels_of predArray in
        let predictedPrices := values_of "predicted_price" predArray in
        if truthy showPrediction
           && (0 <? List.length predictionTimestamps)%nat
           && (0 <? List.length predictedPrices)%nat
        then
          let allTimestamps := (timestamps ++ predictionTimestamps)%list in
          PredictionChart allTimestamps closePrices
            (prediction_line (List.length closePrices) predictedPrices
                             (List.length allTimestamps))
        else PriceOnlyChart timestamps closePrices
  | _ => NoValidPriceData
  end.

End Component.

(** A formatter double: a string timestamp is its own label. *)
Definition plain_label (v : jsval) : string :=
  match v with VStr t => t | _ => "Invalid date" end.

Definition two_bars : jsval :=
  VArr [VObj [("timestamp", VStr "01/01/2024 10:00"); ("close", VNum 2000%float)];
        VObj [("timestamp", VStr "01/01/2024 11:00"); ("close", VNum 2004%float)]].

Definition one_prediction : jsval :=
  VArr [VObj [("timestamp", VStr "01/01/2024 12:00"); ("predicted_price", VNum 2010%float)]].

End PriceChart.

(* ------------------------------------------------------------------ *)
(** ** Signal fusion (specification section 4.3) *)

Module Fusion.

(** Modelled from the spec: the vote of one voter, "in {BUY, SELL,
    NEUTRAL}" (the voters are backend code, not under src/). *)
Inductive Vote := VoteBuy | VoteSell | VoteNeutral.

(** Modelled from the spec: "action in {BUY, SELL, HOLD}". *)
Inductive Action := BUY | SELL | HOLD.

(** Modelled from the spec: the votes of the four voters it names (RSI,
    MACD histogram, Bollinger bands, forecast direction). *)
Record ComponentVotes := mkVotes {
  rsi : Vote;
  macd : Vote;
  bollinger : Vote;
  forecast : Vote
}.

Definition ballots (v : ComponentVotes) : list Vote :=
  [rsi v; macd v; bollinger v; forecast v].

(** Running tally of the BUY and SELL votes; a neutral vote counts for
    neither. *)
Fixpoint tally (votes : list Vote) : nat * nat :=
  match votes with
  | [] => (0, 0)
  | VoteBuy :: rest => let (b, s) := tally rest in (S b, s)
  | VoteSell :: rest => let (b, s) := tally rest in (b, S s)
  | VoteNeutral :: rest => tally rest
  end.

(** Modelled from the spec: the fusion rule of SignalFusionEngine, which
    is backend code and not part of the client sources. "action = majority
    vote among non-neutral votes; ties resolve to HOLD". *)
Definition fuse (votes : list Vote) : Action :=
  let (b, s) := tally votes in
  if (s <? b)%nat then BUY
  else if (b <? s)%nat then SELL
  else HOLD.

Definition fuse_components (v : ComponentVotes) : Action := fuse (ballots v).

Definition is_buy (v : Vote) : bool :=
  match v with VoteBuy => true | _ => false end.
Definition is_sell (v : Vote) : bool :=
  match v with VoteSell => true | _ => false end.
Definition non_neutral (v : Vote) : bool :=
  match v with VoteNeutral => false | _ => true end.

(** Number of votes of a kind. *)
Definition votes_for (kind : Vote -> bool) (votes : list Vote) : nat :=
  List.length (filter kind votes).

Lemma tally_counts (votes : list Vote) :
  tally votes = (votes_for is_buy votes, votes_for is_sell votes).
Proof.
  unfold votes_for.
  induction votes as [|v votes IH]; [reflexivity|].
  destruct v; cbn; rewrite IH; reflexivity.
Qed.

Lemma non_neutral_split (votes : list Vote) :
  votes_for non_neutral votes = votes_for is_buy votes + votes_for is_sell votes.
Proof.
  unfold votes_for.
  induction votes as [|v votes IH]; [reflexivity|].
  destruct v; cbn; rewrite ?IH; lia.
Qed.

Lemma votes_for_perm (kind : Vote -> bool) (votes votes' : list Vote) :
  Permutation votes votes' -> votes_for kind votes = votes_for kind votes'.
Proof.
  unfold votes_for. intros H.
  induction H as [|v l l' _ IH|v v' l|l l' l'' _ IH1 _ IH2].
  - reflexivity.
  - cbn. destruct (kind v); cbn; rewrite IH; reflexivity.
  - cbn. destruct (kind v), (kind v'); reflexivity.
  - rewrite IH1. exact IH2.
Qed.

Lemma fuse_cases (votes : list Vote) :
  fuse votes
  = if (votes_for is_sell votes <? votes_for is_buy votes)%nat then BUY
    else if (votes_for is_buy votes <? votes_for is_sell votes)%nat then SELL
    else HOLD.
Proof. unfold fuse. rewrite tally_counts. reflexivity. Qed.

(** C5. Over the modelled fusion rule: the action is BUY exactly when
    the BUY votes are more than half of the non-neutral votes, SELL exactly
    when the SELL votes are, and HOLD exactly on a tie (2 BUY against
    2 SELL gives HOLD); the action depends on the votes only through how
    many of each kind there are, whatever their order. *)
Theorem fusion_is_majority_vote (votes : list Vote) :
  (fuse votes = BUY
   <-> votes_for non_neutral votes < 2 * votes_for is_buy votes)
  /\ (fuse votes = SELL
      <-> votes_for non_neutral votes < 2 * votes_for is_sell votes)
  /\ (fuse votes = HOLD
      <-> votes_for is_buy votes = votes_for is_sell votes)
  /\ fuse_components (mkVotes VoteBuy VoteSell VoteBuy VoteSell) = HOLD
  /\ (forall votes', Permutation votes votes' -> fuse votes' = fuse votes).
Proof.
  rewrite non_neutral_split, fuse_cases.
  set (b := votes_for is_buy votes). set (s := votes_for is_sell votes).
  repeat split.
  - destruct (Nat.ltb_spec s b); [lia|].
    destruct (Nat.ltb_spec b s); discriminate.
  - intros H. destruct (Nat.ltb_spec s b); [reflexivity|lia].
  - destruct (Nat.ltb_spec s b); [discriminate|].
    destruct (Nat.ltb_spec b s); [lia|discriminate].
  - intros H. destruct (Nat.ltb_spec s b); [lia|].
    destruct (Nat.ltb_spec b s); [reflexivity|lia].
  - destruct (Nat.ltb_spec s b); [discriminate|].
    destruct (Nat.ltb_spec b s); [discriminate|lia].
  - intros H. destruct (Nat.ltb_spec s b); [lia|].
    destruct (Nat.ltb_spec b s); [lia|reflexivity].
  - intros votes' Hp. rewrite fuse_cases.
    rewrite <- (votes_for_perm is_buy _ _ Hp), <- (votes_for_perm is_sell _ _ Hp).
    reflexivity.
Qed.

(** The rule on the combinations of the four named voters. *)
Lemma fusion_table :
  fuse_components (mkVotes VoteBuy VoteBuy VoteBuy VoteBuy) = BUY
  /\ fuse_components (mkVotes VoteBuy VoteNeutral VoteNeutral VoteNeutral) = BUY
  /\ fuse_components (mkVotes VoteBuy VoteBuy VoteSell VoteNeutral) = BUY
  /\ fuse_components (mkVotes VoteSell VoteNeutral VoteSell VoteBuy) = SELL
  /\ fuse_components (mkVotes VoteSell VoteBuy VoteNeutral VoteNeutral) = HOLD
  /\ fuse_components (mkVotes VoteNeutral VoteNeutral VoteNeutral VoteNeutral) = HOLD.
Proof. repeat split; reflexivity. Qed.

End Fusion.

(* ------------------------------------------------------------------ *)
(** ** Timeframes: what the core accepts and what the client sends *)

Module Timeframe.

Inductive CoreError := InvalidTimeframe.

Inductive Checked := Accepted | Failed (e : CoreError).

(** Modelled from the spec: "Recognized timeframes: 1h, 4h, 1d, 1w". *)
Definition recognized : list string := ["1h"; "4h"; "1d"; "1w"].

(** Modelled from the spec: the check the core applies to the timeframe
    argument of getSignal, getForecast, getIndicators and submitSignalTrade
    ("any other value fails with InvalidTimeframe"); the core is backend
    code and not part of the client sources. *)
Definition check (tf : string) : Checked :=
  if existsb (String.eqb tf) recognized then Accepted else Failed InvalidTimeframe.

(** The timeframe a request of the client carries: in its URL, or in
    the [timeframe] field of an order payload. *)
Definition timeframe_of (c : ApiCall) : option jsval :=
  match c with
  | getPriceData tf _ | getIndicators tf _ | getPredictions tf | getSignal tf =>
      Some (VStr (dflt "1h" tf))
  | placeZerodhaOrder (VObj fields) | placeTradeFromSignal (VObj fields) =>
      lookup_field "timeframe" fields
  | _ => None
  end.

(** A request carries no timeframe, or one the core accepts. *)
Definition sends_recognized (c : ApiCall) : Prop :=
  match timeframe_of c with
  | None => True
  | Some (VStr tf) => check tf = Accepted
  | Some _ => False
  end.

(** The invariant of the Trading page: the timeframe of the form is
    one the core accepts. *)
Definition trading_timeframe_ok (s : Trading.State) : Prop :=
  check (Trading.timeframe (Trading.tradeForm s)) = Accepted.

(** [keeps] goals whose store updates leave the invariant as it is. *)
Ltac keeps_auto :=
  repeat keeps_step;
  try (intros ? ?; assumption);
  try exact Logic.I.

Lemma check_accepts (tf : string) : check tf = Accepted <-> In tf recognized.
Proof.
  unfold check. destruct (existsb (String.eqb tf) recognized) eqn:E.
  - split; [intros _|reflexivity].
    apply existsb_exists in E as (x & Hin & Heq).
    apply String.eqb_eq in Heq. subst. exact Hin.
  - split; [discriminate|]. intros Hin.
    assert (existsb (String.eqb tf) recognized = true) as E'.
    { apply existsb_exists. exists tf. split; [exact Hin|apply String.eqb_refl]. }
    congruence.
Qed.

Lemma check_rejects (tf : string) :
  ~ In tf recognized -> check tf = Failed InvalidTimeframe.
Proof.
  intros H. unfold check. destruct (existsb (String.eqb tf) recognized) eqn:E; [|reflexivity].
  apply existsb_exists in E as (x & Hin & Heq).
  apply String.eqb_eq in Heq. subst. contradiction.
Qed.

(** Every button and option of the pages names a recognized timeframe. *)
Lemma choice_recognized (i : nat) (tf : string) :
  nth_error recognized i = Some tf -> check tf = Accepted.
Proof.
  intros H. apply check_accepts. eapply nth_error_In. exact H.
Qed.

Lemma predictions_fetch (tf : string) :
  check tf = Accepted ->
  keeps (fun s => check (Predictions.selectedTimeframe s) = Accepted)
        sends_recognized anything (Predictions.fetchData tf).
Proof.
  intros Htf. unfold Predictions.fetchData, Predictions.non_empty,
    Predictions.drawn_accuracy, Predictions.fixed2.
  keeps_auto; exact Htf.
Qed.

Lemma predictions_handler (snap : Predictions.State) (e : Predictions.UiEvent) :
  check (Predictions.selectedTimeframe snap) = Accepted ->
  keeps (fun s => check (Predictions.selectedTimeframe s) = Accepted)
        sends_recognized anything (Predictions.handler snap e).
Proof.
  intros Hsnap. destruct e as [| |i]; cbn [Predictions.handler].
  - apply predictions_fetch. exact Hsnap.
  - apply predictions_fetch. exact Hsnap.
  - destruct (nth_error Predictions.timeframe_buttons i) as [tf|] eqn:Hi.
    + pose proof (choice_recognized i tf Hi) as Htf.
      keeps_auto; exact Htf.
    + keeps_auto.
Qed.

Lemma predictions_run (w : World) (es : list Predictions.UiEvent)
      (s : Predictions.State) (l : Log) :
  check (Predictions.selectedTimeframe s) = Accepted ->
  Forall sends_recognized (calls l) ->
  Forall sends_recognized (calls (snd (Predictions.run w es s l))).
Proof.
  revert s l. induction es as [|e es IH]; intros s l Hs Hl; [exact Hl|].
  cbn [Predictions.run].
  destruct (predictions_handler s e Hs w s l Hs Hl) as (Hs' & Hl' & _).
  apply IH; assumption.
Qed.

Lemma price_data_handler (snap : PriceData.State) (e : PriceData.UiEvent) :
  check (PriceData.selectedTimeframe snap) = Accepted ->
  keeps (fun s => check (PriceData.selectedTimeframe s) = Accepted)
        sends_recognized anything (PriceData.handler snap e).
Proof.
  intros Hsnap. destruct e as [| |i|i]; cbn [PriceData.handler].
  - keeps_auto; exact Hsnap.
  - keeps_auto; first [exact Hsnap | exact Logic.I].
  - destruct (nth_error PriceData.timeframe_buttons i) as [tf|] eqn:Hi.
    + pose proof (choice_recognized i tf Hi) as Htf.
      keeps_auto; exact Htf.
    + keeps_auto.
  - destruct (nth_error PriceData.limit_buttons i) as [n|] eqn:Hi.
    + keeps_auto; exact Hsnap.
    + keeps_auto.
Qed.

Lemma price_data_run (w : World) (es : list PriceData.UiEvent)
      (s : PriceData.State) (l : Log) :
  check (PriceData.selectedTimeframe s) = Accepted ->
  Forall sends_recognized (calls l) ->
  Forall sends_recognized (calls (snd (PriceData.run w es s l))).
Proof.
  revert s l. induction es as [|e es IH]; intros s l Hs Hl; [exact Hl|].
  cbn [PriceData.run].
  destruct (price_data_handler s e Hs w s l Hs Hl) as (Hs' & Hl' & _).
  apply IH; assumption.
Qed.

Lemma dashboard_fetch (tf : string) :
  check tf = Accepted ->
  keeps (fun s => check (Dashboard.selectedTimeframe s) = Accepted)
        sends_recognized anything (Dashboard.fetchDashboardData tf).
Proof.
  intros Htf.
  unfold Dashboard.fetchDashboardData, Dashboard.received_list, Dashboard.received_signal.
  keeps_auto; exact Htf.
Qed.

Lemma dashboard_handler (snap : Dashboard.State) (e : Dashboard.UiEvent) :
  check (Dashboard.selectedTimeframe snap) = Accepted ->
  keeps (fun s => check (Dashboard.selectedTimeframe s) = Accepted)
        sends_recognized anything (Dashboard.handler snap e).
Proof.
  intros Hsnap. destruct e as [| | |i|]; cbn [Dashboard.handler].
  - apply dashboard_fetch. exact Hsnap.
  - apply dashboard_fetch. exact Hsnap.
  - unfold Dashboard.handleUpdateData.
    keeps_auto; exact Hsnap.
  - destruct (nth_error Dashboard.timeframe_buttons i) as [tf|] eqn:Hi.
    + pose proof (choice_recognized i tf Hi) as Htf.
      apply keeps_bind with (Q1 := anything); [keeps_auto|intros ? _].
      apply keeps_bind with (Q1 := anything); [apply dashboard_fetch; exact Htf|intros ? _].
      apply keeps_if; [keeps_auto | apply dashboard_fetch; exact Htf].
    + keeps_auto.
  - keeps_auto.
Qed.

Lemma dashboard_run (w : World) (es : list Dashboard.UiEvent)
      (s : Dashboard.State) (l : Log) :
  check (Dashboard.selectedTimeframe s) = Accepted ->
  Forall sends_recognized (calls l) ->
  Forall sends_recognized (calls (snd (Dashboard.run w es s l))).
Proof.
  revert s l. induction es as [|e es IH]; intros s l Hs Hl; [exact Hl|].
  cbn [Dashboard.run].
  destruct (dashboard_handler s e Hs w s l Hs Hl) as (Hs' & Hl' & _).
  apply IH; assumption.
Qed.

Lemma signals_handler (e : Signals.UiEvent) :
  keeps (fun s => check (Signals.selectedTimeframe s) = Accepted)
        sends_recognized anything (Signals.handler e).
Proof.
  destruct e as [| | |i]; cbn [Signals.handler].
  - keeps_auto.
  - keeps_auto.
  - keeps_auto.
  - destruct (nth_error Signals.timeframes i) as [tf|] eqn:Hi.
    + pose proof (choice_recognized i tf Hi) as Htf. keeps_auto.
    + keeps_auto.
Qed.

Lemma signals_run (w : World) (es : list Signals.UiEvent)
      (s : Signals.State) (l : Log) :
  check (Signals.selectedTimeframe s) = Accepted ->
  Forall sends_recognized (calls l) ->
  check (Signals.selectedTimeframe (fst (Signals.run w es s l))) = Accepted
  /\ Forall sends_recognized (calls (snd (Signals.run w es s l))).
Proof.
  revert s l. induction es as [|e es IH]; intros s l Hs Hl; [split; assumption|].
  cbn [Signals.run].
  destruct (signals_handler e w s l Hs Hl) as (Hs' & Hl' & _).
  apply IH; assumption.
Qed.

Lemma trading_level (use : bool) (sig : jsval) (k : string) (manual : jsval) :
  keeps trading_timeframe_ok sends_recognized anything (Trading.level use sig k manual).
Proof. unfold Trading.level. keeps_auto. Qed.

(** The payload built for a render with a recognized timeframe carries
    that timeframe. *)
Lemma trading_tradeData (snap : Trading.State) (action : string) :
  trading_timeframe_ok snap ->
  keeps trading_timeframe_ok sends_recognized
        (fun data => sends_recognized (placeTradeFromSignal data))
        (Trading.tradeData snap action).
Proof.
  intros Hsnap. unfold Trading.tradeData.
  apply keeps_bind with (Q1 := anything); [keeps_auto|intros qty _].
  apply keeps_bind with (Q1 := anything); [apply trading_level|intros sl _].
  apply keeps_bind with (Q1 := anything); [apply trading_level|intros tp _].
  apply keeps_ret. exact Hsnap.
Qed.

Lemma trading_execute (snap : Trading.State) (action : string) :
  trading_timeframe_ok snap ->
  keeps trading_timeframe_ok sends_recognized anything
        (Trading.handleExecuteTrade snap action).
Proof.
  intros Hsnap. unfold Trading.handleExecuteTrade.
  do 3 (apply keeps_bind with (Q1 := anything); [keeps_auto|intros ? _]).
  apply keeps_try_finally; [|keeps_auto].
  apply keeps_try_catch; [|keeps_auto].
  apply keeps_if; [keeps_auto|].
  apply keeps_bind with (Q1 := fun data => sends_recognized (placeTradeFromSignal data));
    [apply trading_tradeData; exact Hsnap|intros data Hdata].
  apply keeps_bind with (Q1 := anything); [apply keeps_await; exact Hdata|intros ? _].
  keeps_auto.
Qed.

Lemma trading_handler (snap : Trading.State) (e : Trading.UiEvent) :
  trading_timeframe_ok snap ->
  keeps trading_timeframe_ok sends_recognized anything (Trading.handler snap e).
Proof.
  intros Hsnap. destruct e as [| |i|c value checked| |]; cbn [Trading.handler].
  - unfold Trading.fetchData. keeps_auto; exact Hsnap.
  - unfold Trading.fetchData. keeps_auto; exact Hsnap.
  - destruct (nth_error Trading.timeframe_options i) as [tf|] eqn:Hi.
    + pose proof (choice_recognized i tf Hi) as Htf.
      unfold Trading.handleTimeframeChange. keeps_auto; exact Htf.
    + keeps_auto.
  - unfold Trading.handleFormChange.
    apply keeps_modify. intros s Hs. destruct c; exact Hs.
  - apply trading_execute. exact Hsnap.
  - apply trading_execute. exact Hsnap.
Qed.

Lemma trading_run (w : World) (es : list Trading.UiEvent)
      (s : Trading.State) (l : Log) :
  trading_timeframe_ok s ->
  Forall sends_recognized (calls l) ->
  Forall sends_recognized (calls (snd (Trading.run w es s l))).
Proof.
  revert s l. induction es as [|e es IH]; intros s l Hs Hl; [exact Hl|].
  cbn [Trading.run].
  destruct (trading_handler s e Hs w s l Hs Hl) as (Hs' & Hl' & _).
  apply IH; assumption.
Qed.

(** C7. The core's check (modelled from the specification) accepts a
    timeframe exactly when it is one of 1h, 4h, 1d, 1w and fails every
    other value with InvalidTimeframe; and whatever the user does on the
    Trading, Predictions, Dashboard, Price Data and Signals pages and
    whatever the backend answers, every request the client sends carries
    no timeframe or one the check accepts (an endpoint called without a
    timeframe sends its default, 1h). *)
Theorem client_timeframes_are_recognized :
  (forall tf, check tf = Accepted <-> tf = "1h" \/ tf = "4h" \/ tf = "1d" \/ tf = "1w")
  /\ (forall tf, tf <> "1h" -> tf <> "4h" -> tf <> "1d" -> tf <> "1w" ->
                 check tf = Failed InvalidTimeframe)
  /\ (forall w es,
        Forall sends_recognized
               (calls (snd (Trading.run w es Trading.initial empty_log))))
  /\ (forall w es,
        Forall sends_recognized
               (calls (snd (Predictions.run w es Predictions.initial empty_log))))
  /\ (forall w es,
        Forall sends_recognized
               (calls (snd (Dashboard.run w es Dashboard.initial empty_log))))
  /\ (forall w es,
        Forall sends_recognized
               (calls (snd (PriceData.run w es PriceData.initial empty_log))))
  /\ (forall w es,
        Forall sends_recognized
               (calls (snd (Signals.run w es Signals.initial empty_log)))
        /\ In (Signals.selectedTimeframe (fst (Signals.run w es Signals.initial empty_log)))
              Signals.timeframes)
  /\ sends_recognized (getSignal None)
  /\ sends_recognized (getPredictions None)
  /\ sends_recognized (getIndicators None None).
Proof.
  split.
  { intros tf. rewrite check_accepts. unfold recognized. cbn [In].
    split; intros H; repeat destruct H as [H|H]; subst; auto; try contradiction;
      tauto. }
  split.
  { intros tf H1 H2 H3 H4. apply check_rejects. unfold recognized. cbn [In].
    intros [H|[H|[H|[H|[]]]]]; symmetry in H; contradiction. }
  split; [intros w es; apply trading_run; [reflexivity|constructor]|].
  split; [intros w es; apply predictions_run; [reflexivity|constructor]|].
  split; [intros w es; apply dashboard_run; [reflexivity|constructor]|].
  split; [intros w es; apply price_data_run; [reflexivity|constructor]|].
  split.
  { intros w es.
    destruct (signals_run w es Signals.initial empty_log eq_refl (Forall_nil _)) as [Hs Hl].
    split; [exact Hl|]. apply check_accepts in Hs. exact Hs. }
  repeat split; reflexivity.
Qed.

(** A session on the Trading page against the brokerage double: mount,
    choose the third option, then an option the select does not have. *)
Lemma trading_session_example :
  calls (snd (Trading.run Trading.demo_broker
                [Trading.mount; Trading.chooseTimeframe 2; Trading.chooseTimeframe 7]
                Trading.initial empty_log))
  = [getZerodhaProfile; getSignal (Some "1h"); getSignal (Some "1d")]
  /\ map request [getSignal (Some "1d"); getSignal None]
     = [mkHttp GET "/api/v1/signals/1d" None; mkHttp GET "/api/v1/signals/1h" None].
Proof. split; reflexivity. Qed.

End Timeframe.

(* ------------------------------------------------------------------ *)
(** ** How handlers end *)

Module Run.

(** [m] returns on every run: it never throws. *)
Definition settles {S A} (m : Eff S A) : Prop :=
  forall w s l, exists a, outcome_of (m w s l) = Done a.

(** Every request is allowed: [keeps I unrestricted] is about the store. *)
Definition unrestricted : ApiCall -> Prop := fun _ => True.

Section Settles.
Context {S : Type}.

Lemma settles_ret {A} (a : A) : settles (@ret S A a).
Proof. intros w s l. exists a. reflexivity. Qed.

Lemma settles_modify (f : S -> S) : settles (modify f).
Proof. intros w s l. exists tt. reflexivity. Qed.

Lemma settles_emit (e : Event) : settles (@emit S e).
Proof. intros w s l. exists tt. reflexivity. Qed.

Lemma settles_bind {A B} (m : Eff S A) (k : A -> Eff S B) :
  settles m -> (forall a, settles (k a)) -> settles (bind m k).
Proof.
  intros Hm Hk w s l. destruct (Hm w s l) as [a Ha].
  unfold bind, outcome_of in *.
  destruct (m w s l) as [[[a'|] s'] l']; cbn in Ha; [|discriminate].
  apply Hk.
Qed.

Lemma settles_try_catch {A} (body handler : Eff S A) :
  settles handler -> settles (try_catch body handler).
Proof.
  intros Hh w s l. unfold try_catch, outcome_of.
  destruct (body w s l) as [[[a|] s'] l']; cbn.
  - exists a. reflexivity.
  - apply Hh.
Qed.

Lemma settles_try_finally {A} (body : Eff S A) (fin : Eff S unit) :
  settles body -> settles (try_finally body fin).
Proof.
  intros Hb w s l. destruct (Hb w s l) as [a Ha].
  unfold try_finally, outcome_of in *.
  destruct (body w s l) as [[r s'] l']; cbn in *.
  destruct (fin w s' l') as [[r' s''] l'']; cbn. exists a. exact Ha.
Qed.

Lemma settles_if {A} (b : bool) (m1 m2 : Eff S A) :
  settles m1 -> settles m2 -> settles (if b then m1 else m2).
Proof. destruct b; tauto. Qed.

(** A [finally] block that is one store update has the last word. *)
Lemma try_finally_store {A} (body : Eff S A) (f : S -> S)
      (w : World) (s : S) (l : Log) :
  store_of (try_finally body (modify f) w s l) = f (store_of (body w s l))
  /\ log_of (try_finally body (modify f) w s l) = log_of (body w s l)
  /\ outcome_of (try_finally body (modify f) w s l) = outcome_of (body w s l).
Proof.
  unfold try_finally, store_of, log_of, outcome_of.
  destruct (body w s l) as [[r s'] l']. repeat split; reflexivity.
Qed.

Lemma try_catch_done {A} (body handler : Eff S A)
      (w : World) (s s' : S) (l l' : Log) (a : A) :
  body w s l = (Done a, s', l') -> try_catch body handler w s l = (Done a, s', l').
Proof. intros H. unfold try_catch. rewrite H. reflexivity. Qed.

Lemma try_catch_thrown {A} (body handler : Eff S A)
      (w : World) (s s' : S) (l l' : Log) :
  body w s l = (Thrown, s', l') -> try_catch body handler w s l = handler w s' l'.
Proof. intros H. unfold try_catch. rewrite H. reflexivity. Qed.

Lemma unrestricted_log (cs : list ApiCall) : Forall unrestricted cs.
Proof. apply Forall_forall. intros c _. exact Logic.I. Qed.

(** Only requests are added to the requests of a log. *)
Lemma start_calls (c : ApiCall) (w : World) (s : S) (l : Log) :
  calls (log_of (start c w s l)) = (calls l ++ [c])%list.
Proof. unfold start, log_of. cbn. apply calls_after_call. Qed.

End Settles.

Ltac settles_step :=
  first
    [ apply settles_ret | apply settles_modify | apply settles_emit
    | apply settles_bind; [|intros ?]
    | apply settles_try_finally | apply settles_try_catch
    | apply settles_if ].

(** The position of the next request after [k] more requests. *)
Ltac next_index :=
  unfold calls; cbn [events draws];
  rewrite ?calls_of_app; cbn [calls_of];
  rewrite ?length_app; cbn [List.length];
  rewrite ?Nat.add_1_r.

End Run.
Export Run.

(* ------------------------------------------------------------------ *)
(** ** Trading page: every way an execution ends *)

Module TradingFlows.
Import Trading.

(** The page after a failed execution: the failure message, no success. *)
Definition failed (s : State) : State :=
  mkState (loading s) false (Some trade_failed_message) None (signal s)
          (zerodhaStatus s) (orders s) (positions s) (tradeForm s).


(** A logged-in render whose signal is [null] (a backend that answers
    the signal request with null), the box ticked. *)
Definition null_signal_render : State :=
  mkState false false None None VNull
          (mkStatus true (VObj [("user_name", VStr "demo")]) VNull)
          (VArr []) (VArr [])
          (mkForm "1h" (VNum 1%float) "MARKET" VNull VNull true).

(** A brokerage double that refuses every order. *)
Definition refusing_broker : World :=
  mkWorld (fun _ _ => Rejected) (fun _ => 0%float) (fun v => v)
          (fun v => match v with VStr t => t | _ => "undefined" end)
          (fun v => match v with VNum x => x | _ => nan end).


Definition untouched (s0 s : State) : Prop :=
  tradeForm s = tradeForm s0 /\ signal s = signal s0
  /\ zerodhaStatus s = zerodhaStatus s0 /\ positions s = positions s0
  /\ loading s = loading s0.

Lemma level_keeps (I : State -> Prop) (use : bool) (sig : jsval) (k : string) (manual : jsval) :
  keeps I unrestricted anything (level use sig k manual).
Proof. unfold level. repeat keeps_step. Qed.

Lemma execute_keeps (s0 snap : State) (action : string) :
  keeps (untouched s0) unrestricted anything (handleExecuteTrade snap action).
Proof.
  unfold handleExecuteTrade, tradeData.
  repeat first [apply level_keeps | keeps_step];
    try (intros ? ?; assumption); exact Logic.I.
Qed.

Lemma execute_settles (snap : State) (action : string) :
  settles (handleExecuteTrade snap action).
Proof. unfold handleExecuteTrade. repeat settles_step. Qed.

(** Whatever the render and the responses, [handleExecuteTrade] returns
    (it never rejects), clears [submitting], and leaves the form, the
    signal, the login status, the positions and [loading] as they were. *)
Theorem execution_always_settles
        (w : World) (s : State) (l : Log) (action : string) :
  outcome_of (execute w s l action) = Done tt
  /\ submitting (store_of (execute w s l action)) = false
  /\ untouched s (store_of (execute w s l action)).
Proof.
  split; [|split].
  - destruct (execute_settles s action w s l) as [[] H]. exact H.
  - unfold execute, handleExecuteTrade, bind at 1 2 3.
    cbn [setSubmitting setError setSuccess modify].
    unfold try_finally.
    match goal with |- context [try_catch ?b ?h w ?s0 l] =>
      destruct (try_catch b h w s0 l) as [[r s'] l'] end.
    reflexivity.
  - apply (execute_keeps s s action w s l).
    + repeat split; reflexivity.
    + apply unrestricted_log.
Qed.

(** With the box ticked and a signal that is null or undefined, the
    order is never built: no request is sent and the page shows the
    failure message. *)
Theorem execution_without_signal
        (w : World) (s : State) (l : Log) (action : string) :
  isLoggedIn (zerodhaStatus s) = true ->
  useSignalLevels (tradeForm s) = true ->
  nullish (signal s) = true ->
  execute w s l action
  = (Done tt, failed s,
     mkLog (events l ++ [Console "Error executing trade:"]) (draws l)).
Proof.
  intros Hin Huse Hsig.
  unfold execute, handleExecuteTrade, tradeData, level, failed,
    try_finally, try_catch, bind, builtin, read.
  cbn [setSubmitting setError setSuccess modify].
  rewrite Hin, Huse. destruct (signal s); try discriminate; reflexivity.
Qed.

Lemma execution_without_signal_witness :
  execute demo_broker null_signal_render empty_log "BUY"
  = (Done tt, failed null_signal_render,
     mkLog [Console "Error executing trade:"] 0).
Proof.
  exact (execution_without_signal demo_broker null_signal_render empty_log "BUY"
           eq_refl eq_refl eq_refl).
Defined.

(** An order the brokerage route rejects: the one request is the POST,
    the page shows the failure message and no success, and the order list
    is not refreshed. *)
Theorem rejected_order_is_reported
        (w : World) (s : State) (l : Log) (action : string) :
  isLoggedIn (zerodhaStatus s) = true ->
  nullish (signal s) = false \/ useSignalLevels (tradeForm s) = false ->
  respond w (List.length (calls l)) (placeTradeFromSignal (order_payload w s action))
  = Rejected ->
  execute w s l action
  = (Done tt, failed s,
     mkLog (events l ++ [Call (placeTradeFromSignal (order_payload w s action));
                         Console "Error executing trade:"]) (draws l)).
Proof.
  intros Hin Hsig Hr.
  unfold execute, handleExecuteTrade.
  do 3 (eapply bind_done; [reflexivity|]).
  unfold try_finally. rewrite Hin. cbn [negb].
  erewrite try_catch_thrown.
  2:{ eapply bind_done; [apply tradeData_payload; exact Hsig|].
      eapply bind_thrown. apply await_rejected. exact Hr. }
  cbn. rewrite <- app_assoc. reflexivity.
Qed.

Lemma rejected_order_witness :
  error (store_of (execute refusing_broker ready_render empty_log "SELL"))
  = Some trade_failed_message
  /\ calls (log_of (execute refusing_broker ready_render empty_log "SELL"))
     = [placeTradeFromSignal (order_payload refusing_broker ready_render "SELL")].
Proof.
  rewrite (rejected_order_is_reported refusing_broker ready_render empty_log "SELL"
             eq_refl (or_introl eq_refl) eq_refl).
  split; reflexivity.
Defined.



End TradingFlows.

(* ------------------------------------------------------------------ *)
(** ** Trading page: submitting the same order again *)

Module Resubmission.
Import Trading TradingFlows.










End Resubmission.

(* ------------------------------------------------------------------ *)
(** ** Trading page: loading the account and the signal *)

Module TradingLoad.
Import Trading.

Definition logged_out : ZerodhaStatus := mkStatus false VNull VNull.

(** The form after [fetchData] received the signal [data]: both levels
    are taken over when the signal and both of its levels are truthy. *)
Definition adopt_levels (data : jsval) (form : TradeForm) : TradeForm :=
  if truthy data && truthy (prop data "stop_loss") && truthy (prop data "take_profit")
  then mkForm (timeframe form) (quantity form) (orderType form)
              (prop data "stop_loss") (prop data "take_profit") (useSignalLevels form)
  else form.

(** The form after [handleTimeframeChange tf] received [data], for a
    render whose box was ticked or not. *)
Definition retarget (ticked : bool) (tf : string) (data : jsval) (form : TradeForm)
  : TradeForm :=
  if ticked && truthy data
  then mkForm tf (quantity form) (orderType form)
              (prop data "stop_loss") (prop data "take_profit") (useSignalLevels form)
  else mkForm tf (quantity form) (orderType form)
              (stopLoss form) (takeProfit form) (useSignalLevels form).

(** What [fetchData] leaves alone in the form. *)
Definition same_choices (s0 s : State) : Prop :=
  timeframe (tradeForm s) = timeframe (tradeForm s0)
  /\ quantity (tradeForm s) = quantity (tradeForm s0)
  /\ orderType (tradeForm s) = orderType (tradeForm s0)
  /\ useSignalLevels (tradeForm s) = useSignalLevels (tradeForm s0)
  /\ success s = success s0
  /\ submitting s = submitting s0.

(** A backend double for an expired session: account requests are
    rejected, signals are served. *)
Definition expired_session : World :=
  mkWorld (fun _ c =>
             match c with
             | getSignal _ =>
                 Resolved (VObj [("action", VStr "BUY"); ("stop_loss", VNum 1950%float);
                                 ("take_profit", VNum 2100%float)])
             | _ => Rejected
             end)
          (fun _ => 0%float) (fun v => v)
          (fun v => match v with VStr t => t | _ => "undefined" end)
          (fun v => match v with VNum x => x | _ => nan end).

(** A backend double whose account requests resolve except the order
    list, and whose signal requests are rejected. *)
Definition orders_unavailable : World :=
  mkWorld (fun _ c =>
             match c with
             | getZerodhaProfile => Resolved (VObj [("user_name", VStr "demo")])
             | getZerodhaMargins => Resolved (VObj [("available", VNum 100000%float)])
             | getZerodhaPositions => Resolved (VArr [VObj [("tradingsymbol", VStr "GOLD")]])
             | placeTradeFromSignal _ => Resolved (VObj [("order_id", VStr "ORD-1")])
             | _ => Rejected
             end)
          (fun _ => 0%float) (fun v => v)
          (fun v => match v with VStr t => t | _ => "undefined" end)
          (fun v => match v with VNum x => x | _ => nan end).

(** A backend double that rejects every request. *)
Definition refusing : World :=
  mkWorld (fun _ _ => Rejected) (fun _ => 0%float) (fun v => v)
          (fun v => match v with VStr t => t | _ => "undefined" end)
          (fun v => match v with VNum x => x | _ => nan end).

(** A backend double whose signal is HOLD, with no levels. *)
Definition hold_backend : World :=
  mkWorld (fun _ c =>
             match c with
             | getSignal _ =>
                 Resolved (VObj [("action", VStr "HOLD"); ("stop_loss", VNull);
                                 ("take_profit", VNull)])
             | _ => Rejected
             end)
          (fun _ => 0%float) (fun v => v)
          (fun v => match v with VStr t => t | _ => "undefined" end)
          (fun v => match v with VNum x => x | _ => nan end).

(** A backend double whose signal service is down while orders are
    accepted. *)
Definition signals_down : World :=
  mkWorld (fun n c =>
             match c with
             | placeTradeFromSignal _ => Resolved (VObj [("order_id", VStr "ORD-3")])
             | getZerodhaOrders => Resolved (VArr [])
             | _ => Rejected
             end)
          (fun _ => 0%float) (fun v => v)
          (fun v => match v with VStr t => t | _ => "undefined" end)
          (fun v => match v with VNum x => x | _ => nan end).

Open Scope eff_scope.

(** The two parts of [fetchData]'s outer [try] block. *)
Definition account_part : Eff State unit :=
  try_catch
    (profileData <- await getZerodhaProfile ;;
     setZerodhaStatus (fun _ => mkStatus true profileData VUndefined) ;;
     marginsData <- await getZerodhaMargins ;;
     setZerodhaStatus (fun prev => mkStatus (isLoggedIn prev) (profile prev) marginsData) ;;
     ordersPromise <- start getZerodhaOrders ;;
     positionsPromise <- start getZerodhaPositions ;;
     ordersData <- settle ordersPromise ;;
     positionsData <- settle positionsPromise ;;
     setOrders ordersData ;;
     setPositions positionsData)
    (emit (Console "Not logged in to Zerodha") ;;
     setZerodhaStatus (fun _ => mkStatus false VNull VNull)).

Definition signal_part (snap : State) : Eff State unit :=
  data <- await (getSignal (Some (timeframe (tradeForm snap)))) ;;
  setSignal data ;;
  if truthy data then
    sl <- read data "stop_loss" ;;
    if truthy sl then
      tp <- read data "take_profit" ;;
      if truthy tp then
        setTradeForm (fun prev =>
          mkForm (timeframe prev) (quantity prev) (orderType prev)
                 sl tp (useSignalLevels prev))
      else ret tt
    else ret tt
  else ret tt.

Definition load_failed : Eff State unit :=
  emit (Console "Error loading trading data:") ;;
  setError (Some load_failed_message).

(** The answers to the four account requests when all of them resolve
    ([n] is the position of the profile request). *)
Definition account_answers (w : World) (n : nat) : option (jsval * jsval * jsval * jsval) :=
  match respond w n getZerodhaProfile with
  | Resolved p =>
      match respond w (1 + n) getZerodhaMargins with
      | Resolved m =>
          match respond w (2 + n) getZerodhaOrders,
                respond w (3 + n) getZerodhaPositions with
          | Resolved o, Resolved ps => Some (p, m, o, ps)
          | _, _ => None
          end
      | Rejected => None
      end
  | Rejected => None
  end.

(** The account requests that are issued. *)
Definition account_calls (w : World) (n : nat) : list ApiCall :=
  match respond w n getZerodhaProfile with
  | Rejected => [getZerodhaProfile]
  | Resolved _ =>
      match respond w (1 + n) getZerodhaMargins with
      | Rejected => [getZerodhaProfile; getZerodhaMargins]
      | Resolved _ =>
          [getZerodhaProfile; getZerodhaMargins; getZerodhaOrders; getZerodhaPositions]
      end
  end.

(** The account cells of the store after the account part. *)
Definition account_store (answers : option (jsval * jsval * jsval * jsval)) (s : State)
  : State :=
  match answers with
  | Some (p, m, o, ps) =>
      mkState (loading s) (submitting s) (error s) (success s) (signal s)
              (mkStatus true p m) o ps (tradeForm s)
  | None =>
      mkState (loading s) (submitting s) (error s) (success s) (signal s)
              logged_out (orders s) (positions s) (tradeForm s)
  end.

Lemma read_truthy {S} (data : jsval) (k : string) (w : World) (s : S) (l : Log) :
  truthy data = true -> read data k w s l = (Done (prop data k), s, l).
Proof.
  intros H.
  assert (Hn : nullish data = false) by (destruct data; try discriminate; reflexivity).
  destruct (get_prop_defined data k Hn) as [v Hv].
  unfold read, prop. rewrite Hv. reflexivity.
Qed.

Lemma fetch_keeps (s0 snap : State) :
  keeps (same_choices s0) unrestricted anything (fetchData snap).
Proof.
  unfold fetchData. repeat keeps_step; try (intros ? ?; assumption); exact Logic.I.
Qed.

Lemma fetch_settles (snap : State) : settles (fetchData snap).
Proof. unfold fetchData. repeat settles_step. Qed.

Lemma fetchData_parts (snap : State) :
  fetchData snap
  = (setLoading true ;;
     setError None ;;
     try_finally
       (try_catch (account_part ;; signal_part snap) load_failed)
       (setLoading false)).
Proof. reflexivity. Qed.

Lemma account_run (w : World) (s : State) (l : Log) :
  exists l',
    account_part w s l = (Done tt, account_store (account_answers w (List.length (calls l))) s, l')
    /\ calls l' = (calls l ++ account_calls w (List.length (calls l)))%list
    /\ draws l' = draws l.
Proof.
  unfold account_part, account_answers, account_calls.
  destruct (respond w (List.length (calls l)) getZerodhaProfile) as [p|] eqn:Hp.
  2:{ eexists. split.
      - erewrite try_catch_thrown;
          [|eapply bind_thrown; apply await_rejected; exact Hp].
        reflexivity.
      - split; [|reflexivity]. next_index. rewrite app_nil_r. reflexivity. }
  destruct (respond w (1 + List.length (calls l)) getZerodhaMargins) as [m|] eqn:Hm.
  2:{ eexists. split.
      - erewrite try_catch_thrown.
        2:{ eapply bind_done; [apply await_resolved; exact Hp|].
            eapply bind_done; [reflexivity|].
            eapply bind_thrown. apply await_rejected.
            next_index. fold (calls l). exact Hm. }
        reflexivity.
      - split; [|reflexivity]. next_index. rewrite app_nil_r, <- app_assoc. reflexivity. }
  destruct (respond w (2 + List.length (calls l)) getZerodhaOrders) as [o|] eqn:Ho;
    destruct (respond w (3 + List.length (calls l)) getZerodhaPositions) as [ps|] eqn:Hps.
  - eexists. split.
    + erewrite try_catch_done.
      2:{ eapply bind_done; [apply await_resolved; exact Hp|].
          eapply bind_done; [reflexivity|].
          eapply bind_done; [apply await_resolved; next_index; fold (calls l); exact Hm|].
          eapply bind_done; [reflexivity|].
          eapply bind_done; [reflexivity|].
          eapply bind_done; [reflexivity|].
          unfold start. next_index. fold (calls l).
          cbn in Ho, Hps. rewrite Ho, Hps.
          reflexivity. }
      reflexivity.
    + split; [|reflexivity]. next_index. rewrite <- !app_assoc. reflexivity.
  - eexists. split.
    + erewrite try_catch_thrown.
      2:{ eapply bind_done; [apply await_resolved; exact Hp|].
          eapply bind_done; [reflexivity|].
          eapply bind_done; [apply await_resolved; next_index; fold (calls l); exact Hm|].
          eapply bind_done; [reflexivity|].
          eapply bind_done; [reflexivity|].
          eapply bind_done; [reflexivity|].
          unfold start. next_index. fold (calls l).
          cbn in Ho, Hps. rewrite Ho, Hps.
          reflexivity. }
      reflexivity.
    + split; [|reflexivity]. next_index. rewrite app_nil_r, <- !app_assoc. reflexivity.
  - eexists. split.
    + erewrite try_catch_thrown.
      2:{ eapply bind_done; [apply await_resolved; exact Hp|].
          eapply bind_done; [reflexivity|].
          eapply bind_done; [apply await_resolved; next_index; fold (calls l); exact Hm|].
          eapply bind_done; [reflexivity|].
          eapply bind_done; [reflexivity|].
          eapply bind_done; [reflexivity|].
          unfold start. next_index. fold (calls l).
          cbn in Ho, Hps. rewrite Ho.
          reflexivity. }
      reflexivity.
    + split; [|reflexivity]. next_index. rewrite app_nil_r, <- !app_assoc. reflexivity.
  - eexists. split.
    + erewrite try_catch_thrown.
      2:{ eapply bind_done; [apply await_resolved; exact Hp|].
          eapply bind_done; [reflexivity|].
          eapply bind_done; [apply await_resolved; next_index; fold (calls l); exact Hm|].
          eapply bind_done; [reflexivity|].
          eapply bind_done; [reflexivity|].
          eapply bind_done; [reflexivity|].
          unfold start. next_index. fold (calls l).
          cbn in Ho, Hps. rewrite Ho.
          reflexivity. }
      reflexivity.
    + split; [|reflexivity]. next_index. rewrite app_nil_r, <- !app_assoc. reflexivity.
Qed.

Lemma adopt_run (data : jsval) (w : World) (s : State) (l : Log) :
  (if truthy data then
     sl <- read data "stop_loss" ;;
     if truthy sl then
       tp <- read data "take_profit" ;;
       if truthy tp then
         setTradeForm (fun prev =>
           mkForm (timeframe prev) (quantity prev) (orderType prev)
                  sl tp (useSignalLevels prev))
       else ret tt
     else ret tt
   else ret tt) w s l
  = (Done tt,
     mkState (loading s) (submitting s) (error s) (success s) (signal s)
             (zerodhaStatus s) (orders s) (positions s) (adopt_levels data (tradeForm s)),
     l).
Proof.
  unfold adopt_levels. destruct s as [lo su er sc sg zs os ps form]. cbn.
  destruct (truthy data) eqn:Hd; cbn; [|reflexivity].
  erewrite bind_done; [reflexivity|apply read_truthy; exact Hd|].
  destruct (truthy (prop data "stop_loss")); cbn; [|reflexivity].
  erewrite bind_done; [reflexivity|apply read_truthy; exact Hd|].
  destruct (truthy (prop data "take_profit")); reflexivity.
Qed.

(** The signal part under the outer [catch]. *)
Lemma signal_run (snap : State) (w : World) (s : State) (l : Log) :
  try_catch (signal_part snap) load_failed w s l
  = match respond w (List.length (calls l)) (getSignal (Some (timeframe (tradeForm snap)))) with
    | Resolved data =>
        (Done tt,
         mkState (loading s) (submitting s) (error s) (success s) data
                 (zerodhaStatus s) (orders s) (positions s)
                 (adopt_levels data (tradeForm s)),
         mkLog (events l ++ [Call (getSignal (Some (timeframe (tradeForm snap))))]) (draws l))
    | Rejected =>
        (Done tt,
         mkState (loading s) (submitting s) (Some load_failed_message) (success s)
                 (signal s) (zerodhaStatus s) (orders s) (positions s) (tradeForm s),
         mkLog (events l ++ [Call (getSignal (Some (timeframe (tradeForm snap))));
                             Console "Error loading trading data:"]) (draws l))
    end.
Proof.
  destruct (respond w _ _) as [data|] eqn:Hr.
  - apply try_catch_done. unfold signal_part.
    eapply bind_done; [apply await_resolved; exact Hr|].
    eapply bind_done; [reflexivity|].
    rewrite adopt_run. reflexivity.
  - erewrite try_catch_thrown;
      [|unfold signal_part; eapply bind_thrown; apply await_rejected; exact Hr].
    cbn. rewrite <- app_assoc. reflexivity.
Qed.

(** [fetchData] in full, from the account part on. *)
Lemma fetch_run (w : World) (s : State) (l : Log) :
  exists l',
    calls l' = (calls l ++ account_calls w (List.length (calls l)))%list
    /\ draws l' = draws l
    /\ fetchData s w s l
       = try_finally
           (try_catch (signal_part s) load_failed)
           (setLoading false) w
           (account_store (account_answers w (List.length (calls l)))
              (mkState true (submitting s) None (success s) (signal s)
                       (zerodhaStatus s) (orders s) (positions s) (tradeForm s)))
           l'.
Proof.
  destruct (account_run w
              (mkState true (submitting s) None (success s) (signal s)
                       (zerodhaStatus s) (orders s) (positions s) (tradeForm s)) l)
    as (l' & Hrun & Hcalls & Hdraws).
  exists l'. split; [exact Hcalls|]. split; [exact Hdraws|].
  rewrite fetchData_parts.
  eapply bind_done; [reflexivity|].
  eapply bind_done; [reflexivity|].
  unfold try_finally, try_catch, bind.
  cbn [loading submitting error success signal zerodhaStatus orders positions tradeForm].
  rewrite Hrun. reflexivity.
Qed.

(** The account is read as a whole. The page ends logged in, with the
    profile, margins, orders and positions of the answers, exactly when
    all four account requests resolve; when any of them is rejected it
    ends logged out with its orders and positions as before. Orders and
    positions are requested together, and the signal of the form's
    timeframe is always requested last. *)
Theorem account_is_read_as_a_whole (w : World) (s : State) (l : Log) :
  zerodhaStatus (store_of (fetchData s w s l))
  = match account_answers w (List.length (calls l)) with
    | Some (p, m, _, _) => mkStatus true p m
    | None => logged_out
    end
  /\ orders (store_of (fetchData s w s l))
     = match account_answers w (List.length (calls l)) with
       | Some (_, _, o, _) => o
       | None => orders s
       end
  /\ positions (store_of (fetchData s w s l))
     = match account_answers w (List.length (calls l)) with
       | Some (_, _, _, ps) => ps
       | None => positions s
       end
  /\ calls (log_of (fetchData s w s l))
     = (calls l ++ account_calls w (List.length (calls l))
        ++ [getSignal (Some (timeframe (tradeForm s)))])%list.
Proof.
  destruct (fetch_run w s l) as (l' & Hcalls & _ & Hrun).
  rewrite Hrun. unfold try_finally. rewrite signal_run.
  destruct (account_answers w (List.length (calls l))) as [[[[p m] o] ps]|];
    destruct (respond w (List.length (calls l')) _); cbn;
    (repeat split; try reflexivity);
    unfold calls in *; cbn; rewrite ?calls_of_app, Hcalls; cbn;
    rewrite <- ?app_assoc; reflexivity.
Qed.

(** The signal of the page after a fetch: a resolved signal request
    replaces it and clears the error, and its two levels are copied to the
    form only when the signal and both levels are truthy; a rejected one
    leaves signal and form as they were and shows the load error. *)
Theorem fetched_signal_is_adopted (w : World) (s : State) (l : Log) :
  (signal (store_of (fetchData s w s l)),
   tradeForm (store_of (fetchData s w s l)),
   error (store_of (fetchData s w s l)))
  = match respond w (List.length (calls l)
                     + List.length (account_calls w (List.length (calls l))))
                  (getSignal (Some (timeframe (tradeForm s)))) with
    | Resolved data => (data, adopt_levels data (tradeForm s), None)
    | Rejected => (signal s, tradeForm s, Some load_failed_message)
    end.
Proof.
  destruct (fetch_run w s l) as (l' & Hcalls & _ & Hrun).
  rewrite Hrun. unfold try_finally. rewrite signal_run.
  rewrite Hcalls, length_app.
  destruct (account_answers w (List.length (calls l))) as [[[[p m] o] ps]|];
    destruct (respond w _ _); reflexivity.
Qed.

(** Whatever the backend answers, [fetchData] returns, clears
    [loading], and leaves the timeframe, the quantity, the order type and
    the box of the form, the success message and [submitting] alone. *)
Theorem fetch_always_settles (w : World) (s : State) (l : Log) :
  outcome_of (fetchData s w s l) = Done tt
  /\ loading (store_of (fetchData s w s l)) = false
  /\ same_choices s (store_of (fetchData s w s l)).
Proof.
  split; [|split].
  - destruct (fetch_settles s w s l) as [[] H]. exact H.
  - destruct (fetch_run w s l) as (l' & _ & _ & Hrun).
    rewrite Hrun. unfold try_finally.
    match goal with |- context [try_catch ?b ?h w ?s0 l'] =>
      destruct (try_catch b h w s0 l') as [[r s'] l''] end.
    reflexivity.
  - apply (fetch_keeps s s w s l).
    + repeat split; reflexivity.
    + apply unrestricted_log.
Qed.

Lemma logged_out_after_rejected_profile (w : World) (s : State) (l : Log) :
  respond w (List.length (calls l)) getZerodhaProfile = Rejected ->
  isLoggedIn (zerodhaStatus (store_of (fetchData s w s l))) = false.
Proof.
  intros Hp.
  destruct (fetch_run w s l) as (l' & _ & _ & Hrun).
  rewrite Hrun. unfold try_finally. rewrite signal_run.
  unfold account_answers. rewrite Hp.
  destruct (respond w (List.length (calls l')) _); reflexivity.
Qed.

(** A session that has expired closes trading: when the profile request
    of a fetch is rejected, a click on BUY or SELL in the render that
    follows sends nothing and shows the log-in message, whatever the login
    state was before the fetch. *)
Theorem expired_session_closes_trading
        (w : World) (s : State) (l : Log) (action : string) :
  respond w (List.length (calls l)) getZerodhaProfile = Rejected ->
  events (log_of (execute w (store_of (fetchData s w s l))
                          (log_of (fetchData s w s l)) action))
  = events (log_of (fetchData s w s l))
  /\ error (store_of (execute w (store_of (fetchData s w s l))
                              (log_of (fetchData s w s l)) action))
     = Some not_logged_in_message.
Proof.
  intros Hp.
  pose proof (logged_out_after_rejected_profile w s l Hp) as Hout.
  unfold execute, handleExecuteTrade, try_finally, try_catch, bind.
  cbn [setSubmitting setError setSuccess modify].
  rewrite Hout. cbn. split; reflexivity.
Qed.

Lemma expired_session_witness :
  isLoggedIn (zerodhaStatus ready_render) = true
  /\ events (log_of (execute expired_session
                       (store_of (fetchData ready_render expired_session ready_render empty_log))
                       (log_of (fetchData ready_render expired_session ready_render empty_log))
                       "BUY"))
     = [Call getZerodhaProfile; Console "Not logged in to Zerodha";
        Call (getSignal (Some "1h"))].
Proof.
  split; [reflexivity|].
  rewrite (proj1 (expired_session_closes_trading expired_session ready_render
                    empty_log "BUY" eq_refl)).
  reflexivity.
Defined.

Lemma timeframe_change_rejected_run
      (w : World) (s : State) (l : Log) (tf : string) :
  respond w (List.length (calls l)) (getSignal (Some tf)) = Rejected ->
  handleTimeframeChange s tf w s l
  = (Done tt,
     mkState false (submitting s) (error s) (success s) (signal s)
             (zerodhaStatus s) (orders s) (positions s)
             (mkForm tf (quantity (tradeForm s)) (orderType (tradeForm s))
                     (stopLoss (tradeForm s)) (takeProfit (tradeForm s))
                     (useSignalLevels (tradeForm s))),
     mkLog (events l ++ [Call (getSignal (Some tf));
                         Console "Error fetching signal for timeframe:"]) (draws l)).
Proof.
  intros Hr. unfold handleTimeframeChange.
  eapply bind_done; [reflexivity|].
  unfold try_finally.
  erewrite try_catch_thrown.
  2:{ eapply bind_done; [reflexivity|].
      eapply bind_thrown. apply await_rejected. exact Hr. }
  cbn. rewrite <- app_assoc. reflexivity.
Qed.

(** A timeframe change whose signal request is rejected is silent: the
    form moves to the new timeframe, the signal of the old timeframe and
    the levels of the form stay on the page, [loading] is cleared, and the
    error of the page is left as it was (the failure goes to the console
    only). *)
Theorem failed_timeframe_change_is_silent
        (w : World) (s : State) (l : Log) (tf : string) :
  respond w (List.length (calls l)) (getSignal (Some tf)) = Rejected ->
  outcome_of (handleTimeframeChange s tf w s l) = Done tt
  /\ timeframe (tradeForm (store_of (handleTimeframeChange s tf w s l))) = tf
  /\ signal (store_of (handleTimeframeChange s tf w s l)) = signal s
  /\ error (store_of (handleTimeframeChange s tf w s l)) = error s
  /\ loading (store_of (handleTimeframeChange s tf w s l)) = false
  /\ stopLoss (tradeForm (store_of (handleTimeframeChange s tf w s l)))
     = stopLoss (tradeForm s)
  /\ takeProfit (tradeForm (store_of (handleTimeframeChange s tf w s l)))
     = takeProfit (tradeForm s)
  /\ events (log_of (handleTimeframeChange s tf w s l))
     = (events l ++ [Call (getSignal (Some tf));
                     Console "Error fetching signal for timeframe:"])%list.
Proof.
  intros Hr. rewrite (timeframe_change_rejected_run w s l tf Hr).
  repeat split; reflexivity.
Qed.

Lemma failed_timeframe_change_witness :
  signal (store_of (handleTimeframeChange ready_render "1w" refusing ready_render empty_log))
  = signal ready_render
  /\ timeframe (tradeForm (store_of (handleTimeframeChange ready_render "1w" refusing
                                                          ready_render empty_log)))
     = "1w"
  /\ error (store_of (handleTimeframeChange ready_render "1w" refusing ready_render empty_log))
     = None.
Proof.
  pose proof (failed_timeframe_change_is_silent refusing ready_render empty_log "1w" eq_refl)
    as (_ & Htf & Hsig & Herr & _).
  repeat split; assumption.
Defined.

(** A timeframe change whose signal request resolves replaces the
    signal; with the box ticked (and a truthy answer) it overwrites both
    levels of the form with the new signal's, missing ones included, and
    with the box unticked it leaves the typed levels. *)
Theorem timeframe_change_retargets_form
        (w : World) (s : State) (l : Log) (tf : string) (data : jsval) :
  respond w (List.length (calls l)) (getSignal (Some tf)) = Resolved data ->
  handleTimeframeChange s tf w s l
  = (Done tt,
     mkState false (submitting s) (error s) (success s) data
             (zerodhaStatus s) (orders s) (positions s)
             (retarget (useSignalLevels (tradeForm s)) tf data (tradeForm s)),
     mkLog (events l ++ [Call (getSignal (Some tf))]) (draws l)).
Proof.
  intros Hr. unfold handleTimeframeChange, retarget.
  eapply bind_done; [reflexivity|].
  unfold try_finally.
  destruct (useSignalLevels (tradeForm s) && truthy data) eqn:Hc.
  - erewrite try_catch_done.
    2:{ eapply bind_done; [reflexivity|].
        eapply bind_done; [apply await_resolved; exact Hr|].
        eapply bind_done; [reflexivity|].
        rewrite Hc. apply andb_prop in Hc as [_ Hd].
        eapply bind_done; [apply read_truthy; exact Hd|].
        eapply bind_done; [apply read_truthy; exact Hd|].
        reflexivity. }
    reflexivity.
  - erewrite try_catch_done.
    2:{ eapply bind_done; [reflexivity|].
        eapply bind_done; [apply await_resolved; exact Hr|].
        eapply bind_done; [reflexivity|].
        rewrite Hc. reflexivity. }
    reflexivity.
Qed.

Lemma timeframe_change_witness :
  tradeForm (store_of (handleTimeframeChange zero_stop_render "4h" hold_backend
                                             zero_stop_render empty_log))
  = mkForm "4h" (VNum 1%float) "MARKET" VNull VNull true.
Proof.
  rewrite (timeframe_change_retargets_form hold_backend zero_stop_render empty_log "4h"
             (VObj [("action", VStr "HOLD"); ("stop_loss", VNull); ("take_profit", VNull)])
             eq_refl).
  reflexivity.
Defined.

(** After a silent failure the old levels are traded under the new
    timeframe: with the box ticked and a signal with truthy levels on the
    page, a rejected timeframe change followed by a click submits an order
    for the new timeframe carrying the levels of the old timeframe's
    signal. *)
Theorem stale_levels_are_traded
        (w : World) (s : State) (l : Log) (tf action : string) (sl tp : jsval) :
  isLoggedIn (zerodhaStatus s) = true ->
  useSignalLevels (tradeForm s) = true ->
  get_prop (signal s) "stop_loss" = Some sl -> truthy sl = true ->
  get_prop (signal s) "take_profit" = Some tp -> truthy tp = true ->
  respond w (List.length (calls l)) (getSignal (Some tf)) = Rejected ->
  exists body rest,
    calls (log_of (execute w (store_of (handleTimeframeChange s tf w s l))
                           (log_of (handleTimeframeChange s tf w s l)) action))
    = (calls l ++ getSignal (Some tf) :: placeTradeFromSignal body :: rest)%list
    /\ get_prop body "timeframe" = Some (VStr tf)
    /\ get_prop body "stop_loss" = Some sl
    /\ get_prop body "take_profit" = Some tp.
Proof.
  intros Hin Huse Hsl Tsl Htp Ttp Hr.
  rewrite (timeframe_change_rejected_run w s l tf Hr).
  cbn [store_of log_of fst snd].
  assert (Hsig : nullish (signal s) = false)
    by (eapply signal_read_not_nullish; eassumption).
  match goal with |- context [execute w ?s1 ?l1 action] =>
    destruct (execute_logged_in w s1 l1 action Hin (or_introl Hsig))
      as (rest & Hcalls & _);
    exists (order_payload w s1 action), rest
  end.
  split.
  - rewrite Hcalls. next_index. rewrite <- ?app_assoc. reflexivity.
  - unfold order_payload, chosen_level. cbn.
    rewrite Huse, Hsl, Htp, Tsl, Ttp. repeat split; reflexivity.
Qed.

Lemma stale_levels_witness :
  exists body rest,
    calls (log_of (execute signals_down
                     (store_of (handleTimeframeChange ready_render "1w" signals_down
                                                      ready_render empty_log))
                     (log_of (handleTimeframeChange ready_render "1w" signals_down
                                                    ready_render empty_log)) "BUY"))
    = getSignal (Some "1w") :: placeTradeFromSignal body :: rest
    /\ get_prop body "timeframe" = Some (VStr "1w")
    /\ get_prop body "stop_loss" = Some (VNum 1950%float)
    /\ get_prop body "take_profit" = Some (VNum 2100%float).
Proof.
  exact (stale_levels_are_traded signals_down ready_render empty_log "1w" "BUY"
           (VNum 1950%float) (VNum 2100%float)
           eq_refl eq_refl eq_refl eq_refl eq_refl eq_refl eq_refl).
Defined.

End TradingLoad.

(* ------------------------------------------------------------------ *)
(** ** Trading page: starting the brokerage login *)

Module BrokerLogin.

(** The Trading page together with where the browser is sent:
    [href] is the value last assigned to [window.location.href]. *)
Record Page := mkPage {
  trading : Trading.State;
  href : option jsval
}.

(** A handler of the Trading store run on the page. *)
Definition onTrading {A} (m : Eff Trading.State A) : Eff Page A :=
  fun w p l =>
    match m w (trading p) l with
    | (o, s', l') => (o, mkPage s' (href p), l')
    end.

Definition setHref (v : jsval) : Eff Page unit :=
  modify (fun p => mkPage (trading p) (Some v)).

Definition login_failed_message : string :=
  "Failed to initiate Zerodha login. Please try again later.".

Open Scope eff_scope.

(** [handleZerodhaLogin()]. *)
Definition handleZerodhaLogin : Eff Page unit :=
  try_catch
    (data <- await getZerodhaLoginUrl ;;
     login_url <- read data "login_url" ;;
     setHref login_url)
    (emit (Console "Error getting Zerodha login URL:") ;;
     onTrading (Trading.setError (Some login_failed_message))).

(** A backend double that hands out a login URL. *)
Definition issuing : World :=
  mkWorld (fun _ c =>
             match c with
             | getZerodhaLoginUrl =>
                 Resolved (VObj [("login_url", VStr "https://kite.zerodha.com/connect/login")])
             | _ => Rejected
             end)
          (fun _ => 0%float) (fun v => v)
          (fun v => match v with VStr t => t | _ => "undefined" end)
          (fun v => match v with VNum x => x | _ => nan end).




(** The login and its two failures on doubles. *)
Lemma login_examples :
  href (store_of (handleZerodhaLogin issuing (mkPage Trading.initial None) empty_log))
  = Some (VStr "https://kite.zerodha.com/connect/login")
  /\ href (store_of (handleZerodhaLogin Trading.demo_broker
                                        (mkPage Trading.initial None) empty_log))
     = None
  /\ Trading.error (trading (store_of (handleZerodhaLogin Trading.demo_broker
                                         (mkPage Trading.initial None) empty_log)))
     = Some login_failed_message.
Proof. repeat split; reflexivity. Qed.

End BrokerLogin.

(* ------------------------------------------------------------------ *)
(** ** Predictions page: failed fetches *)

Module PredictionsFlows.
Import Predictions.

(** A backend double that serves prices and no predictions. *)
Definition prices_only : World :=
  mkWorld (fun _ c =>
             match c with
             | getPriceData _ _ =>
                 Resolved (VArr [VObj [("timestamp", VStr "2024-01-02T10:00:00");
                                       ("close", VNum 2010%float)]])
             | _ => Rejected
             end)
          (fun _ => 0.5%float) (fun v => v)
          (fun v => match v with VStr t => t | _ => "undefined" end)
          (fun v => match v with VNum x => x | _ => nan end).

(** The page as the replaying double leaves it after the mount. *)
Definition shown_1h : State := fst (run replaying [mount] initial empty_log).

Lemma price_rejected_run (w : World) (s : State) (l : Log) (tf : string) :
  respond w (List.length (calls l)) (getPriceData (Some tf) (Some 100)) = Rejected ->
  fetchData tf w s l
  = (Done tt,
     mkState false (Some load_failed_message) (priceData s) (predictions s)
             (selectedTimeframe s) (metrics s),
     mkLog (events l ++ [Call (getPriceData (Some tf) (Some 100));
                         Console "Error fetching predictions:"]) (draws l)).
Proof.
  intros Hr. unfold fetchData.
  do 2 (eapply bind_done; [reflexivity|]).
  unfold try_finally.
  erewrite try_catch_thrown;
    [|eapply bind_thrown; apply await_rejected; exact Hr].
  cbn. rewrite <- app_assoc. reflexivity.
Qed.

Lemma predictions_rejected_run
      (w : World) (s : State) (l : Log) (tf : string) (pd : jsval) :
  respond w (List.length (calls l)) (getPriceData (Some tf) (Some 100)) = Resolved pd ->
  respond w (Datatypes.S (List.length (calls l))) (getPredictions (Some tf)) = Rejected ->
  fetchData tf w s l
  = (Done tt,
     mkState false (Some load_failed_message) pd (predictions s)
             (selectedTimeframe s) (metrics s),
     mkLog (events l ++ [Call (getPriceData (Some tf) (Some 100));
                         Call (getPredictions (Some tf));
                         Console "Error fetching predictions:"]) (draws l)).
Proof.
  intros Hpd Hpr. unfold fetchData.
  do 2 (eapply bind_done; [reflexivity|]).
  unfold try_finally.
  erewrite try_catch_thrown.
  2:{ eapply bind_done; [apply await_resolved; exact Hpd|].
      eapply bind_done; [reflexivity|].
      eapply bind_thrown. apply await_rejected.
      next_index. fold (calls l). exact Hpr. }
  cbn. rewrite <- !app_assoc. reflexivity.
Qed.

(** When the price request of a fetch is rejected nothing else happens:
    the predictions are not requested, no random number is drawn, and the
    page keeps its prices, predictions and metrics and shows the error. *)
Theorem price_outage_stops_the_fetch
        (w : World) (s : State) (l : Log) (tf : string) :
  respond w (List.length (calls l)) (getPriceData (Some tf) (Some 100)) = Rejected ->
  calls (log_of (fetchData tf w s l))
  = (calls l ++ [getPriceData (Some tf) (Some 100)])%list
  /\ draws (log_of (fetchData tf w s l)) = draws l
  /\ priceData (store_of (fetchData tf w s l)) = priceData s
  /\ predictions (store_of (fetchData tf w s l)) = predictions s
  /\ metrics (store_of (fetchData tf w s l)) = metrics s
  /\ error (store_of (fetchData tf w s l)) = Some load_failed_message.
Proof.
  intros Hr. rewrite (price_rejected_run w s l tf Hr).
  repeat split; try reflexivity.
  cbn. next_index. rewrite ?app_nil_r. reflexivity.
Qed.

Lemma price_outage_witness :
  calls (log_of (fetchData "4h" TradingLoad.refusing shown_1h empty_log))
  = [getPriceData (Some "4h") (Some 100)]
  /\ metrics (store_of (fetchData "4h" TradingLoad.refusing shown_1h empty_log))
     = Some (mkAccuracy "5.00" "50.00" "7.50" "82.50").
Proof.
  pose proof (price_outage_stops_the_fetch TradingLoad.refusing shown_1h empty_log "4h"
                eq_refl) as (Hc & _ & _ & _ & Hm & _).
  split; [exact Hc | exact Hm].
Defined.

(** When the prices arrive and the predictions request is rejected, the
    page shows the new prices beside the predictions and the metrics of
    the fetch before, with the error; no random number is drawn. *)
Theorem prediction_outage_keeps_old_predictions
        (w : World) (s : State) (l : Log) (tf : string) (pd : jsval) :
  respond w (List.length (calls l)) (getPriceData (Some tf) (Some 100)) = Resolved pd ->
  respond w (Datatypes.S (List.length (calls l))) (getPredictions (Some tf)) = Rejected ->
  priceData (store_of (fetchData tf w s l)) = pd
  /\ predictions (store_of (fetchData tf w s l)) = predictions s
  /\ metrics (store_of (fetchData tf w s l)) = metrics s
  /\ error (store_of (fetchData tf w s l)) = Some load_failed_message
  /\ draws (log_of (fetchData tf w s l)) = draws l.
Proof.
  intros Hpd Hpr. rewrite (predictions_rejected_run w s l tf pd Hpd Hpr).
  repeat split; reflexivity.
Qed.

Lemma prediction_outage_witness :
  predictions (store_of (fetchData "4h" prices_only shown_1h empty_log))
  = predictions shown_1h
  /\ priceData (store_of (fetchData "4h" prices_only shown_1h empty_log))
     = VArr [VObj [("timestamp", VStr "2024-01-02T10:00:00"); ("close", VNum 2010%float)]]
  /\ metrics (store_of (fetchData "4h" prices_only shown_1h empty_log))
     = Some (mkAccuracy "5.00" "50.00" "7.50" "82.50").
Proof.
  pose proof (prediction_outage_keeps_old_predictions prices_only shown_1h empty_log "4h"
                _ eq_refl eq_refl) as (Hpd & Hpr & Hm & _).
  repeat split; assumption.
Defined.

(** Whatever the backend answers, a fetch returns, clears [loading],
    leaves the selected timeframe alone, sends the price request first and
    at most the predictions request after it, and draws either no random
    number or exactly four. *)
Theorem fetch_is_bounded (w : World) (s : State) (l : Log) (tf : string) :
  outcome_of (fetchData tf w s l) = Done tt
  /\ loading (store_of (fetchData tf w s l)) = false
  /\ selectedTimeframe (store_of (fetchData tf w s l)) = selectedTimeframe s
  /\ (calls (log_of (fetchData tf w s l))
      = (calls l ++ [getPriceData (Some tf) (Some 100)])%list
      \/ calls (log_of (fetchData tf w s l))
         = (calls l ++ [getPriceData (Some tf) (Some 100); getPredictions (Some tf)])%list)
  /\ (draws (log_of (fetchData tf w s l)) = draws l
      \/ draws (log_of (fetchData tf w s l)) = 4 + draws l).
Proof.
  destruct (respond w (List.length (calls l)) (getPriceData (Some tf) (Some 100)))
    as [pd|] eqn:Hpd.
  - destruct (respond w (Datatypes.S (List.length (calls l))) (getPredictions (Some tf)))
      as [pr|] eqn:Hpr.
    + rewrite (fetchData_resolved w s l tf pd pr Hpd Hpr).
      repeat split; cbn.
      * right. next_index. rewrite ?app_nil_r, <- ?app_assoc. reflexivity.
      * destruct (has_items w pr); [right|left]; reflexivity.
    + rewrite (predictions_rejected_run w s l tf pd Hpd Hpr).
      repeat split; cbn.
      * right. next_index. rewrite ?app_nil_r, <- ?app_assoc. reflexivity.
      * left. reflexivity.
  - rewrite (price_rejected_run w s l tf Hpd).
    repeat split; cbn.
    + left. next_index. rewrite ?app_nil_r, <- ?app_assoc. reflexivity.
    + left. reflexivity.
Qed.

End PredictionsFlows.

(* ------------------------------------------------------------------ *)
(** ** Price chart: what reaches the datasets *)

Module ChartData.
Import PriceChart.

(** A bar or a prediction the chart can place: it has a timestamp with
    a label and a value (not null, not undefined) under the key [k]. *)
Definition placeable (format : jsval -> string) (k : string) (item : jsval) : Prop :=
  truthy item = true
  /\ truthy (prop item "timestamp") = true
  /\ format (prop item "timestamp") <> ""
  /\ nullish (prop item k) = false.

Definition label_of (format : jsval -> string) (item : jsval) : string :=
  format (prop item "timestamp").

(** The items of an array, none for any other value. *)
Definition items_of (v : jsval) : list jsval :=
  match v with VArr items => items | _ => [] end.

Lemma filter_all {A} (f : A -> bool) (l : list A) :
  Forall (fun x => f x = true) l -> filter f l = l.
Proof.
  induction 1 as [|x l Hx _ IH]; [reflexivity|].
  cbn. rewrite Hx, IH. reflexivity.
Qed.

Lemma filter_clean {A} (f : A -> bool) (l : list A) :
  Forall (fun x => f x = true) (filter f l).
Proof.
  apply Forall_forall. intros x Hx. apply filter_In in Hx. tauto.
Qed.

Lemma field_or_null_defined (k : string) (item : jsval) :
  field_or_null k item <> VUndefined.
Proof.
  unfold field_or_null.
  destruct (truthy item); cbn; [|discriminate].
  destruct (prop item k); cbn; discriminate.
Qed.

Lemma values_clean (k : string) (items : list jsval) :
  Forall (fun v => nullish v = false) (values_of k items).
Proof.
  unfold values_of. apply Forall_forall. intros v Hv.
  apply filter_In in Hv as [Hin Hnn].
  apply in_map_iff in Hin as (item & <- & _).
  pose proof (field_or_null_defined k item) as Hd.
  destruct (field_or_null k item); try reflexivity; [contradiction|discriminate].
Qed.

Lemma labels_clean (format : jsval -> string) (items : list jsval) :
  Forall (fun t => t <> "") (labels_of format items).
Proof.
  unfold labels_of. apply Forall_forall. intros t Ht.
  apply filter_In in Ht as [_ Hne].
  intros ->. discriminate.
Qed.

Lemma placeable_labels (format : jsval -> string) (k : string) (items : list jsval) :
  Forall (placeable format k) items ->
  labels_of format items = map (label_of format) items.
Proof.
  intros H. unfold labels_of.
  assert (Hmap : map (timestamp_label format) items = map (label_of format) items).
  { apply map_ext_in. intros item Hin.
    rewrite Forall_forall in H. destruct (H item Hin) as (Hi & Ht & _).
    unfold timestamp_label, label_of. rewrite Hi, Ht. reflexivity. }
  rewrite Hmap. apply filter_all.
  apply Forall_forall. intros t Ht.
  apply in_map_iff in Ht as (item & <- & Hin).
  rewrite Forall_forall in H. destruct (H item Hin) as (_ & _ & Hne & _).
  unfold label_of. destruct (format (prop item "timestamp") =? "") eqn:E; [|reflexivity].
  apply String.eqb_eq in E. contradiction.
Qed.

Lemma placeable_values (format : jsval -> string) (k : string) (items : list jsval) :
  Forall (placeable format k) items ->
  values_of k items = map (fun item => prop item k) items.
Proof.
  intros H. unfold values_of.
  assert (Hmap : map (field_or_null k) items = map (fun item => prop item k) items).
  { apply map_ext_in. intros item Hin.
    rewrite Forall_forall in H. destruct (H item Hin) as (Hi & _ & _ & Hv).
    unfold field_or_null. rewrite Hi.
    destruct (prop item k); try discriminate; reflexivity. }
  rewrite Hmap. apply filter_all.
  apply Forall_forall. intros v Hv.
  apply in_map_iff in Hv as (item & <- & Hin).
  rewrite Forall_forall in H. destruct (H item Hin) as (_ & _ & _ & Hn).
  destruct (prop item k); try discriminate; reflexivity.
Qed.

(** When every bar and every prediction can be placed, the chart lines
    everything up: one label per bar followed by one per prediction, the
    close of each bar under its label, and each predicted price under the
    label of its prediction, with nulls under the bars and no padding. *)
Theorem placeable_data_lines_up
        (format : jsval -> string) (bars preds : list jsval) (showPrediction : jsval) :
  bars <> [] -> preds <> [] ->
  truthy showPrediction = true ->
  Forall (placeable format "close") bars ->
  Forall (placeable format "predicted_price") preds ->
  PriceChart format (VArr bars) showPrediction (VArr preds)
  = PredictionChart
      (map (label_of format) bars ++ map (label_of format) preds)
      (map (fun bar => prop bar "close") bars)
      (repeat VNull (List.length bars)
       ++ map (fun pred => prop pred "predicted_price") preds).
Proof.
  intros Hb Hp Hshow Hbars Hpreds.
  unfold PriceChart.
  assert (Hsp : match showPrediction with VUndefined => VBool false | v => v end
                = showPrediction)
    by (destruct showPrediction; try reflexivity; discriminate).
  rewrite Hsp, Hshow.
  rewrite (placeable_labels format "close" bars Hbars),
          (placeable_values format "close" bars Hbars).
  cbn [truthy andb].
  rewrite (placeable_labels format "predicted_price" preds Hpreds),
          (placeable_values format "predicted_price" preds Hpreds).
  destruct bars as [|bar bars]; [contradiction|].
  destruct preds as [|pred preds]; [contradiction|].
  cbn [map List.length Nat.eqb orb Nat.ltb Nat.leb andb].
  unfold prediction_line.
  rewrite !length_app, !repeat_length. cbn [List.length].
  rewrite !length_map, Nat.ltb_irrefl. reflexivity.
Qed.

Lemma placeable_data_witness :
  PriceChart plain_label two_bars (VBool true) one_prediction
  = PredictionChart ["01/01/2024 10:00"; "01/01/2024 11:00"; "01/01/2024 12:00"]
                    [VNum 2000%float; VNum 2004%float]
                    [VNull; VNull; VNum 2010%float].
Proof.
  refine (placeable_data_lines_up plain_label _ _ (VBool true) _ _ eq_refl _ _).
  - discriminate.
  - discriminate.
  - repeat constructor; discriminate.
  - repeat constructor; discriminate.
Defined.

(** Predictions that are switched off, that are not a list, or of
    which none has a label or none has a price, change nothing: the chart
    is the one drawn without predictions. *)
Theorem unusable_predictions_are_ignored
        (format : jsval -> string) (priceData showPrediction predictionData : jsval) :
  truthy showPrediction = false
  \/ labels_of format (items_of predictionData) = []
  \/ values_of "predicted_price" (items_of predictionData) = [] ->
  PriceChart format priceData showPrediction predictionData
  = PriceChart format priceData (VBool false) (VArr []).
Proof.
  intros H. unfold PriceChart.
  destruct priceData as [| |b|x|t|bars|fields]; try reflexivity.
  destruct bars as [|bar bars]; [reflexivity|].
  destruct (_ || _); [reflexivity|].
  cbn [truthy andb].
  set (sp := match showPrediction with VUndefined => VBool false | v => v end).
  assert (Hsp : truthy sp = truthy showPrediction)
    by (subst sp; destruct showPrediction; reflexivity).
  rewrite Hsp.
  destruct (truthy showPrediction) eqn:Hshow; [|reflexivity].
  destruct H as [H|H]; [discriminate|].
  cbn [andb].
  set (pd := match predictionData with VUndefined => VArr [] | v => v end).
  assert (Hitems : (if truthy pd then match pd with VArr preds => preds | _ => [] end else [])
                   = items_of predictionData).
  { subst pd. destruct predictionData as [| |pb|px|pt|preds|pfields]; cbn; try reflexivity.
    - destruct pb; reflexivity.
    - destruct (negb (falsy_number px)); reflexivity.
    - destruct (negb (pt =? "")); reflexivity. }
  rewrite Hitems.
  destruct H as [H|H]; rewrite H; cbn; rewrite ?andb_false_r; reflexivity.
Qed.

Lemma unusable_predictions_witness :
  PriceChart plain_label two_bars (VBool true)
             (VArr [VObj [("timestamp", VStr "01/01/2024 12:00")]])
  = PriceOnlyChart ["01/01/2024 10:00"; "01/01/2024 11:00"]
                   [VNum 2000%float; VNum 2004%float].
Proof.
  rewrite (unusable_predictions_are_ignored plain_label two_bars (VBool true)
             (VArr [VObj [("timestamp", VStr "01/01/2024 12:00")]])
             (or_intror (or_intror eq_refl))).
  reflexivity.
Defined.

(** What is drawn is clean: no label is empty, no actual price is null
    or undefined, neither list is empty, and in a chart with predictions
    the predicted line is the nulls of the bars, then at least one
    predicted price, none of them null or undefined and in the order of the
    response, then nulls only. *)
Theorem drawn_datasets_are_clean
        (format : jsval -> string) (priceData showPrediction predictionData : jsval) :
  match PriceChart format priceData showPrediction predictionData with
  | PriceOnlyChart labels data =>
      labels <> [] /\ data <> []
      /\ Forall (fun t => t <> "") labels
      /\ Forall (fun v => nullish v = false) data
  | PredictionChart labels actual predicted =>
      labels <> [] /\ actual <> []
      /\ Forall (fun t => t <> "") labels
      /\ Forall (fun v => nullish v = false) actual
      /\ exists prices pad,
           predicted = (repeat VNull (List.length actual) ++ prices ++ repeat VNull pad)%list
           /\ prices <> []
           /\ Forall (fun v => nullish v = false) prices
           /\ List.length predicted
              = Nat.max (List.length labels) (List.length actual + List.length prices)
  | _ => True
  end.
Proof.
  unfold PriceChart.
  destruct priceData as [| |b|x|t|bars|fields]; try exact Logic.I.
  destruct bars as [|bar bars]; [exact Logic.I|].
  destruct (_ || _) eqn:Hempty; [exact Logic.I|].
  apply orb_false_elim in Hempty as [Hl Hd].
  apply Nat.eqb_neq in Hl, Hd.
  assert (Hlabels : labels_of format (bar :: bars) <> [])
    by (intros E; rewrite E in Hl; apply Hl; reflexivity).
  assert (Hdata : values_of "close" (bar :: bars) <> [])
    by (intros E; rewrite E in Hd; apply Hd; reflexivity).
  destruct (_ && _ && _) eqn:Hshow.
  - apply andb_prop in Hshow as [Hshow Hprices]. apply Nat.ltb_lt in Hprices.
    split; [intros E; apply app_eq_nil in E as [E _]; contradiction|].
    split; [exact Hdata|]. split.
    { apply Forall_app. split; apply labels_clean. }
    split; [apply values_clean|].
    match goal with
    | |- context [prediction_line ?c ?p ?n] =>
        exists p;
        exists (n - List.length (repeat VNull c ++ p))
    end.
    split; [|split; [|split]].
    + unfold prediction_line.
      match goal with
      | |- context [(?a <? ?b)%nat] => destruct (Nat.ltb_spec a b) as [E|E]
      end.
      * rewrite <- app_assoc. reflexivity.
      * match goal with
        | |- context [repeat VNull (?b - ?a)] =>
            replace (b - a) with 0 by lia
        end.
        cbn [repeat]. rewrite app_nil_r. reflexivity.
    + intros E. rewrite E in Hprices. cbn in Hprices. lia.
    + apply values_clean.
    + unfold prediction_line.
      match goal with
      | |- context [(?a <? ?b)%nat] => destruct (Nat.ltb_spec a b) as [E|E]
      end;
        rewrite ?length_app, ?repeat_length in *; lia.
  - split; [exact Hlabels|]. split; [exact Hdata|].
    split; [apply labels_clean | apply values_clean].
Qed.

End ChartData.

(* ------------------------------------------------------------------ *)
(** ** PriceChart: where the predicted prices sit *)

Module PredictionLine.
Import PriceChart.

(** Bars with a third one that has a timestamp and no close. *)
Definition ragged_bars : jsval :=
  VArr [VObj [("timestamp", VStr "01/01/2024 10:00"); ("close", VNum 2000%float)];
        VObj [("timestamp", VStr "01/01/2024 11:00"); ("close", VNum 2004%float)];
        VObj [("timestamp", VStr "01/01/2024 12:00")]].

(** Predictions of which the second has a timestamp and no price. *)
Definition ragged_predictions : jsval :=
  VArr [VObj [("timestamp", VStr "01/01/2024 12:00"); ("predicted_price", VNum 2010%float)];
        VObj [("timestamp", VStr "01/01/2024 13:00")]].

(** The line is the nulls of the closes, the predicted prices, and the
    nulls that are missing up to the number of labels. *)
Lemma prediction_line_shape (closes : nat) (predicted : list jsval) (labels : nat) :
  prediction_line closes predicted labels
  = (repeat VNull closes ++ predicted
     ++ repeat VNull (labels - (closes + List.length predicted)))%list.
Proof.
  unfold prediction_line. rewrite length_app, repeat_length.
  destruct (Nat.ltb_spec (closes + List.length predicted) labels) as [E|E].
  - rewrite <- app_assoc. reflexivity.
  - replace (labels - (closes + List.length predicted)) with 0 by lia.
    cbn [repeat]. rewrite app_nil_r. reflexivity.
Qed.

Lemma nth_error_repeat_null (n i : nat) (v : jsval) :
  nth_error (repeat VNull n) i = Some v -> v = VNull.
Proof.
  intros H. apply nth_error_In in H. apply repeat_spec in H. exact H.
Qed.

(** C10. When the chart is drawn with predictions, the predicted-price
    dataset is, in this order: one null for each actual price (its first
    [closePrices.length] entries), the predicted prices, of which there is
    at least one and none is null or undefined, and nulls only up to the
    number of labels. So it is never shorter than the label array, every
    index that carries an actual price carries a null, every entry after
    the predicted prices is a null, and a predicted price sits only at an
    index from [closePrices.length] on. *)
Theorem predictions_never_overlap_actuals
        (format : jsval -> string) (priceData showPrediction predictionData : jsval)
        (labels : list string) (actual predicted : list jsval) :
  PriceChart format priceData showPrediction predictionData
  = PredictionChart labels actual predicted ->
  exists prices,
    predicted
    = (repeat VNull (List.length actual) ++ prices
       ++ repeat VNull (List.length labels - (List.length actual + List.length prices)))%list
    /\ prices <> []
    /\ Forall (fun v => nullish v = false) prices
    /\ (forall i, i < List.length actual -> nth_error predicted i = Some VNull)
    /\ (forall i a, nth_error actual i = Some a -> nth_error predicted i = Some VNull)
    /\ (forall i v, List.length actual + List.length prices <= i ->
                    nth_error predicted i = Some v -> v = VNull)
    /\ (forall i v, nth_error predicted i = Some v -> v <> VNull ->
                    List.length actual <= i < List.length actual + List.length prices)
    /\ List.length labels <= List.length predicted
    /\ List.length predicted
       = Nat.max (List.length labels) (List.length actual + List.length prices).
Proof.
  unfold PriceChart. intros H.
  destruct priceData as [| |b|x|s0|items|fields]; try discriminate.
  destruct items as [|item items]; [discriminate|].
  destruct (_ || _); [discriminate|].
  destruct (_ && _ && _) eqn:Hshow; [|discriminate].
  injection H as <- <- <-.
  apply andb_prop in Hshow as [_ Hpred]. apply Nat.ltb_lt in Hpred.
  match goal with
  | |- context [prediction_line ?c ?p ?n] =>
      exists p; rewrite (prediction_line_shape c p n);
      set (prices := p) in *; set (closes := c) in *; set (count := n) in *
  end.
  set (pad := count - (closes + List.length prices)).
  split; [reflexivity|].
  split; [intros E; rewrite E in Hpred; cbn in Hpred; lia|].
  split; [apply ChartData.values_clean|].
  split.
  { intros i Hi. rewrite nth_error_app1 by (rewrite repeat_length; exact Hi).
    apply nth_error_repeat. exact Hi. }
  split.
  { intros i a Ha.
    assert (Hi : i < closes) by (apply nth_error_Some; rewrite Ha; discriminate).
    rewrite nth_error_app1 by (rewrite repeat_length; exact Hi).
    apply nth_error_repeat. exact Hi. }
  split.
  { intros i v Hi Hv.
    rewrite nth_error_app2 in Hv by (rewrite repeat_length; lia).
    rewrite nth_error_app2 in Hv by (rewrite repeat_length; lia).
    apply nth_error_repeat_null in Hv. exact Hv. }
  split.
  { intros i v Hv Hnn.
    destruct (Nat.lt_ge_cases i closes) as [Hi|Hi].
    - rewrite nth_error_app1 in Hv by (rewrite repeat_length; exact Hi).
      apply nth_error_repeat_null in Hv. contradiction.
    - split; [exact Hi|].
      destruct (Nat.lt_ge_cases i (closes + List.length prices)) as [Hj|Hj]; [exact Hj|].
      rewrite nth_error_app2 in Hv by (rewrite repeat_length; lia).
      rewrite nth_error_app2 in Hv by (rewrite repeat_length; lia).
      apply nth_error_repeat_null in Hv. contradiction. }
  rewrite !length_app, !repeat_length. unfold pad. split; lia.
Qed.

(** A chart whose prediction line needs padding: two bars, and two
    predictions of which one has a price. *)
Lemma predictions_never_overlap_witness :
  PriceChart plain_label two_bars (VBool true) ragged_predictions
  = PredictionChart ["01/01/2024 10:00"; "01/01/2024 11:00";
                     "01/01/2024 12:00"; "01/01/2024 13:00"]
                    [VNum 2000%float; VNum 2004%float]
                    [VNull; VNull; VNum 2010%float; VNull]
  /\ exists prices,
       [VNull; VNull; VNum 2010%float; VNull]
       = (repeat VNull 2 ++ prices ++ repeat VNull (4 - (2 + List.length prices)))%list
       /\ prices <> [].
Proof.
  split; [reflexivity|].
  destruct (predictions_never_overlap_actuals plain_label two_bars (VBool true)
              ragged_predictions _ _ _ eq_refl) as (prices & Hshape & Hne & _).
  exists prices. split; [exact Hshape | exact Hne].
Defined.

(** The indexes are those of the datasets. When a bar has a timestamp
    and no close, the bars have more labels than actual prices, and the
    first predicted price stands at the index of the last bar's label. *)
Lemma ragged_bars_example :
  PriceChart plain_label ragged_bars (VBool true) one_prediction
  = PredictionChart ["01/01/2024 10:00"; "01/01/2024 11:00";
                     "01/01/2024 12:00"; "01/01/2024 12:00"]
                    [VNum 2000%float; VNum 2004%float]
                    [VNull; VNull; VNum 2010%float; VNull].
Proof. reflexivity. Qed.

End PredictionLine.

(* ------------------------------------------------------------------ *)
(** ** Signal card: prices and the signal breakdown *)

Module SignalCard.
Import SignalDisplay.

(** [s.includes(needle)] on strings: [needle] occurs in [s]. *)
Fixpoint contains (needle s : string) : bool :=
  String.prefix needle s
  || match s with
     | EmptyString => false
     | String _ rest => contains needle rest
     end.

(** [value && value.includes && value.includes(needle)] as the truth
    value the conditional tests; [None] is the TypeError of calling an
    [includes] property that is not a function (an object of the response
    that has a truthy field of that name). Strings and arrays have the
    method, other values have no such property. *)
Definition includes (value : jsval) (needle : string) : option bool :=
  match value with
  | VStr s => Some (contains needle s)
  | VArr items => Some (existsb (fun v => strict_eq_str v needle) items)
  | VObj fields =>
      match lookup_field "includes" fields with
      | Some f => if truthy f then None else Some false
      | None => Some false
      end
  | _ => Some false
  end.

(** The [bg] of the badge of one vote. *)
Definition badge (value : jsval) : option string :=
  match includes value "BUY" with
  | None => None
  | Some true => Some "success"
  | Some false =>
      match includes value "SELL" with
      | None => None
      | Some true => Some "danger"
      | Some false => Some "secondary"
      end
  end.

(** The text of the badge: [value || 'NEUTRAL']. *)
Definition badge_text (value : jsval) : jsval := js_or value (VStr "NEUTRAL").

(** The number a property key stands for when it is an array index:
    the canonical decimal numeral of a number below 2^32 - 1. *)
Definition index_of_key (k : string) : option N :=
  match NilEmpty.uint_of_string k with
  | Some u =>
      let n := N.of_uint u in
      if (NilZero.string_of_uint (N.to_uint n) =? k) && (n <? 4294967295)%N
      then Some n else None
  | None => None
  end.

Fixpoint insert_by_index (e : N * (string * jsval)) (l : list (N * (string * jsval)))
  : list (N * (string * jsval)) :=
  match l with
  | [] => [e]
  | e' :: rest =>
      if (fst e <? fst e')%N then e :: l else e' :: insert_by_index e rest
  end.

(** The properties whose keys are array indexes, by ascending index. *)
Fixpoint indexed (fields : list (string * jsval)) : list (N * (string * jsval)) :=
  match fields with
  | [] => []
  | (k, v) :: rest =>
      match index_of_key k with
      | Some n => insert_by_index (n, (k, v)) (indexed rest)
      | None => indexed rest
      end
  end.

Definition named (fields : list (string * jsval)) : list (string * jsval) :=
  filter (fun kv => match index_of_key (fst kv) with Some _ => false | None => true end)
         fields.

(** The own properties of an object in the order the language lists
    them: array-index keys first, ascending, then the other keys in
    insertion order. *)
Definition own_entries (fields : list (string * jsval)) : list (string * jsval) :=
  (map snd (indexed fields) ++ named fields)%list.

(** [Object.entries(o)] of an object or an array. *)
Definition entries (o : jsval) : list (string * jsval) :=
  match o with
  | VObj fields => own_entries fields
  | VArr items => combine (map nat_to_string (seq 0 (List.length items))) items
  | _ => []
  end.

(** The votes listed under "Signal Breakdown", by key. *)
Definition breakdown_rows (signal : jsval) : list (string * jsval) :=
  if truthy (prop signal "signals") && (typeof (prop signal "signals") =? "object")
  then entries (prop signal "signals")
  else [].

(** Whether "No signal breakdown available" is shown. *)
Definition breakdown_placeholder (signal : jsval) : bool :=
  negb (truthy (prop signal "signals"))
  || negb (typeof (prop signal "signals") =? "object")
  || (List.length (object_keys (prop signal "signals")) =? 0)%nat.

(** [v?.toFixed(2) || 'N/A'] for a price field [v]; [None] is the
    TypeError of calling [toFixed] on a value that has no such method
    (anything but a number, null and undefined). *)
Definition price_text (big : float -> string) (v : jsval) : option jsval :=
  match v with
  | VUndefined | VNull => Some (VStr "N/A")
  | VNum x => Some (js_or (VStr (toFixed2 big x)) (VStr "N/A"))
  | _ => None
  end.

Lemma prefix_spec (p s : string) :
  String.prefix p s = true <-> exists b, s = p ++ b.
Proof.
  revert s. induction p as [|c p IH]; intros s.
  - split; [intros _; exists s; reflexivity | intros _; destruct s; reflexivity].
  - destruct s as [|d s]; cbn.
    + split; [discriminate | intros [b H]; discriminate].
    + destruct (Ascii.ascii_dec c d) as [->|Hne].
      * rewrite IH. split; intros [b H]; exists b; [subst; reflexivity|].
        injection H as H. exact H.
      * split; [discriminate|]. intros [b H]. injection H as H1 H2. congruence.
Qed.

Lemma contains_spec (needle s : string) :
  contains needle s = true <-> exists a b, s = a ++ needle ++ b.
Proof.
  induction s as [|c s IH]; cbn [contains].
  - rewrite orb_false_r, prefix_spec. split.
    + intros [b H]. exists "", b. exact H.
    + intros (a & b & H). destruct a as [|d a]; [exists b; exact H | discriminate].
  - rewrite orb_true_iff, prefix_spec, IH. split.
    + intros [[b H]|(a & b & H)].
      * exists "", b. exact H.
      * exists (String c a), b. cbn. rewrite H. reflexivity.
    + intros (a & b & H). destruct a as [|d a].
      * left. exists b. exact H.
      * right. injection H as _ H. exists a, b. exact H.
Qed.

Lemma hundredths_not_empty (n : Z) : hundredths_string n <> "".
Proof.
  unfold hundredths_string. destruct (digit_string (n / 100)); discriminate.
Qed.

Lemma toFixed2_not_empty (big : float -> string) (x : float) :
  (forall y, big y <> "") -> toFixed2 big x <> "".
Proof.
  intros Hbig. unfold toFixed2.
  destruct (Prim2SF x) as [z|i| |neg m e]; try discriminate.
  - destruct i; discriminate.
  - destruct neg; cbn; [discriminate|].
    destruct (1e21 <=? PrimFloat.abs x)%float; [apply Hbig | apply hundredths_not_empty].
Qed.

Definition occurs (needle s : string) : Prop := exists a b, s = a ++ needle ++ b.

Lemma insert_by_index_cons (e : N * (string * jsval)) (l : list (N * (string * jsval))) :
  insert_by_index e l <> [].
Proof. destruct l as [|e' l]; cbn; [|destruct (fst e <? fst e')%N]; discriminate. Qed.

(** An object with a property has an entry. *)
Lemma own_entries_cons (f : string * jsval) (fields : list (string * jsval)) :
  own_entries (f :: fields) <> [].
Proof.
  unfold own_entries, named. destruct f as [k v]. cbn [indexed filter fst].
  destruct (index_of_key k) as [n|].
  - pose proof (insert_by_index_cons (n, (k, v)) (indexed fields)) as H.
    destruct (insert_by_index (n, (k, v)) (indexed fields)); [contradiction|discriminate].
  - intros E. apply app_eq_nil in E as [_ E]. discriminate.
Qed.

Lemma badge_of_string (s : string) :
  badge (VStr s)
  = Some (if contains "BUY" s then "success"
          else if contains "SELL" s then "danger" else "secondary").
Proof.
  unfold badge, includes.
  destruct (contains "BUY" s); [reflexivity|].
  destruct (contains "SELL" s); reflexivity.
Qed.

Lemma falsy_vote (v : jsval) :
  truthy v = false -> badge v = Some "secondary" /\ badge_text v = VStr "NEUTRAL".
Proof.
  intros Hv. unfold badge_text, js_or. rewrite Hv. split; [|reflexivity].
  destruct v as [| |b|x|t|items|fields]; try discriminate; try reflexivity.
  cbn in Hv. destruct t; [reflexivity|discriminate].
Qed.

(** The badge of a vote given as a string is green ("success") exactly
    when "BUY" occurs in it, red ("danger") exactly when "SELL" occurs and
    "BUY" does not, and grey ("secondary") otherwise; the test is by
    substring and by case, so STRONG_BUY is green and buy is grey. A falsy
    vote is grey and reads NEUTRAL. *)
Theorem vote_badge_colour (s : string) :
  (badge (VStr s) = Some "success" <-> occurs "BUY" s)
  /\ (badge (VStr s) = Some "danger" <-> ~ occurs "BUY" s /\ occurs "SELL" s)
  /\ (badge (VStr s) = Some "secondary" <-> ~ occurs "BUY" s /\ ~ occurs "SELL" s)
  /\ (forall v, truthy v = false ->
               badge v = Some "secondary" /\ badge_text v = VStr "NEUTRAL").
Proof.
  rewrite badge_of_string. unfold occurs.
  rewrite <- !contains_spec.
  split; [|split; [|split]]; [| | |exact falsy_vote];
    destruct (contains "BUY" s), (contains "SELL" s);
    intuition (discriminate || congruence).
Qed.

(** The votes on three spellings. *)
Lemma badge_examples :
  badge (VStr "STRONG_BUY") = Some "success"
  /\ badge (VStr "SELL") = Some "danger"
  /\ badge (VStr "buy") = Some "secondary"
  /\ badge (VStr "BUY_OR_SELL") = Some "success"
  /\ badge (VArr [VStr "SELL"]) = Some "danger"
  /\ badge (VNum 1%float) = Some "secondary"
  /\ badge (VObj [("includes", VStr "BUY")]) = None.
Proof. repeat split; reflexivity. Qed.

(** The breakdown shows either its rows or the line "No signal
    breakdown available", never both and never neither. *)
Theorem breakdown_rows_or_placeholder (signal : jsval) :
  breakdown_placeholder signal = true <-> breakdown_rows signal = [].
Proof.
  unfold breakdown_placeholder, breakdown_rows.
  destruct (prop signal "signals") as [| |b|x|t|items|fields]; cbn;
    try (split; reflexivity).
  - destruct b; split; reflexivity.
  - destruct (negb (falsy_number x)); split; reflexivity.
  - destruct (negb (t =? "")); split; reflexivity.
  - destruct items; cbn; split; try reflexivity; discriminate.
  - destruct fields as [|f fields]; cbn [object_keys map List.length Nat.eqb];
      split; try reflexivity; try discriminate.
    intros H. contradiction (own_entries_cons f fields).
Qed.

Lemma falsy_number_prints (x : float) :
  falsy_number x = true ->
  Prim2SF x = S754_nan \/ exists sign, Prim2SF x = S754_zero sign.
Proof.
  unfold falsy_number. rewrite FloatAxioms.classify_spec.
  unfold SF64classify, SFclassify.
  destruct (Prim2SF x) as [z|i| |neg m e].
  - intros _. right. exists z. reflexivity.
  - destruct i; discriminate.
  - intros _. left. reflexivity.
  - destruct neg; destruct (Z.eqb _ _); discriminate.
Qed.

(** A level that is a falsy number (0, -0 or NaN) is printed on the
    card as a number ("0.00" or "NaN", not "N/A"), while an order placed
    with the box ticked does not carry it: it carries the level of the
    form instead. *)
Theorem falsy_level_is_shown_not_traded
        (big : float -> string) (sig : jsval) (k : string) (x : float) (manual : jsval) :
  get_prop sig k = Some (VNum x) ->
  falsy_number x = true ->
  (price_text big (prop sig k) = Some (VStr "0.00")
   \/ price_text big (prop sig k) = Some (VStr "NaN"))
  /\ Trading.chosen_level true sig k manual = manual.
Proof.
  intros Hk Hx. split.
  - unfold prop. rewrite Hk. unfold price_text, toFixed2.
    destruct (falsy_number_prints x Hx) as [H|[sign H]]; rewrite H;
      [right|left]; reflexivity.
  - unfold Trading.chosen_level. rewrite Hk. cbn [truthy]. rewrite Hx. reflexivity.
Qed.

Lemma falsy_level_witness :
  price_text (fun _ => "1e+21") (prop (Trading.signal Trading.zero_stop_render) "stop_loss")
  = Some (VStr "0.00")
  /\ Trading.chosen_level true (Trading.signal Trading.zero_stop_render) "stop_loss"
                          (VStr "1900")
     = VStr "1900".
Proof.
  pose proof (falsy_level_is_shown_not_traded (fun _ => "1e+21")
                (Trading.signal Trading.zero_stop_render) "stop_loss" 0%float (VStr "1900")
                eq_refl eq_refl) as [_ H].
  split; [reflexivity | exact H].
Defined.

(** A price that is a number is always printed as that number by
    [toFixed(2)]; "N/A" is printed for null and undefined only, and a
    price of any other type (a string, say) makes the card throw. *)
Theorem price_text_by_type (big : float -> string) (v : jsval) :
  (forall y, big y <> "") ->
  match v with
  | VNum x => price_text big v = Some (VStr (toFixed2 big x))
  | VUndefined | VNull => price_text big v = Some (VStr "N/A")
  | _ => price_text big v = None
  end.
Proof.
  intros Hbig. destruct v as [| |b|x|t|items|fields]; try reflexivity.
  unfold price_text, js_or. cbn [truthy].
  destruct (toFixed2 big x =? "") eqn:E; [|reflexivity].
  apply String.eqb_eq in E. contradiction (toFixed2_not_empty big x Hbig).
Qed.

Lemma price_text_witness :
  price_text (fun _ => "1e+21") (VNum 1987.5%float) = Some (VStr "1987.50").
Proof.
  refine (price_text_by_type (fun _ => "1e+21") (VNum 1987.5%float) _).
  intros y. discriminate.
Defined.

End SignalCard.

(* ------------------------------------------------------------------ *)
(** ** The signal card component, whole *)

Module SignalComponent.
Import SignalDisplay SignalCard.

(** The integer [n] closest to [m * 2^e * 10000], the larger one on a
    tie. *)
Definition nearest_ten_thousandths (m : positive) (e : Z) : Z :=
  if (0 <=? e)%Z then (Z.pos m * 2 ^ e * 10000)%Z
  else ((20000 * Z.pos m + 2 ^ (- e)) / (2 * 2 ^ (- e)))%Z.

(** The decimal numeral of [n] with a point before its last four
    digits. *)
Definition ten_thousandths_string (n : Z) : string :=
  digit_string (n / 10000) ++ "." ++ digit_string (n mod 10000 / 1000)
  ++ digit_string (n mod 1000 / 100) ++ digit_string (n mod 100 / 10)
  ++ digit_string (n mod 10).

(** [x.toFixed(4)], as [toFixed2] with four digits. *)
Definition toFixed4 (big : float -> string) (x : float) : string :=
  match Prim2SF x with
  | S754_nan => "NaN"
  | S754_infinity false => "Infinity"
  | S754_infinity true => "-Infinity"
  | S754_zero _ => "0.0000"
  | S754_finite neg m e =>
      (if neg then "-" else "")
      ++ (if (1e21 <=? PrimFloat.abs x)%float then big (PrimFloat.abs x)
          else ten_thousandths_string (nearest_ten_thousandths m e))
  end.

(** [v?.toFixed(4) || 'N/A'], as [price_text] with four digits. *)
Definition fixed4_text (big : float -> string) (v : jsval) : option jsval :=
  match v with
  | VUndefined | VNull => Some (VStr "N/A")
  | VNum x => Some (js_or (VStr (toFixed4 big x)) (VStr "N/A"))
  | _ => None
  end.

(** One line of the breakdown: the key with its first letter in upper
    case, the colour of the badge and what the badge shows. *)
Record Row := mkRow {
  label : string;
  bg : string;
  text : jsval
}.

(** The four lines under "Key Indicators". *)
Record Indicators := mkIndicators {
  rsi_14 : jsval;
  macd : jsval;
  macd_signal : jsval;
  macd_histogram : jsval
}.

(** The value of [signal.signals && typeof signal.signals === 'object'
    && Object.entries(signal.signals).map(...)]: the lines, or the falsy
    value the conjunction stops at. *)
Inductive Breakdown :=
| NoLines (v : jsval)
| Lines (rows : list Row).

(** What the signal card shows: every expression of the JSX, by the
    value it takes; the static markup is left out. [noBreakdown] says
    whether "No signal breakdown available" is shown, and
    [indicatorLines] is [None] for "No indicator data available". *)
Record Card := mkCard {
  title : string;
  stamp : string;
  head : Header;
  strengthShown : string;
  currentPrice : jsval;
  stopLoss : jsval;
  takeProfit : jsval;
  breakdown : Breakdown;
  noBreakdown : bool;
  indicatorLines : option Indicators
}.

(** The element the component returns: the "No signal data available"
    card, or the signal card. *)
Inductive View :=
| NoSignalData
| SignalCard (c : Card).

(** All the results of a list of evaluations, unless one of them threw. *)
Fixpoint all_of {A} (l : list (option A)) : option (list A) :=
  match l with
  | [] => Some []
  | None :: _ => None
  | Some a :: rest =>
      match all_of rest with
      | Some r => Some (a :: r)
      | None => None
      end
  end.

Notation "x <-- m ;; k" := (match m with Some x => k | None => None end)
  (at level 61, m at next level, right associativity, only parsing).

Section Component.
(** [moment(v).format('MM/DD/YYYY HH:mm:ss')], the one library call. *)
Variable format : jsval -> string.
(** [String.prototype.toUpperCase]. *)
Variable upper : string -> string.
(** The number-to-string conversion of the language, which [toFixed]
    falls back to from 1e21 on. *)
Variable big : float -> string.
(** The string conversion a template literal applies to an object or an
    array; [None] is the TypeError it raises on one that cannot be
    converted. *)
Variable tostr : jsval -> option string.

(** [timeframe.toUpperCase()] for [timeframe = signal.timeframe ||
    'Unknown']: a truthy timeframe that is not a string has no such
    method, and the call throws. *)
Definition title_of (signal : jsval) : option string :=
  match js_or (prop signal "timeframe") (VStr "Unknown") with
  | VStr t => Some (upper t)
  | _ => None
  end.

Definition formattedTimestamp (signal : jsval) : string :=
  if truthy (prop signal "timestamp") then format (prop signal "timestamp")
  else "No timestamp available".

(** [signal.signal_strength ? `- ${signal.signal_strength}` : ''] *)
Definition strength_text (strength : jsval) : option string :=
  if truthy strength then
    match strength with
    | VStr s => Some ("- " ++ s)
    | VNum x => Some ("- " ++ big x)
    | VBool b => Some ("- " ++ (if b then "true" else "false"))
    | VNull => Some "- null"
    | VUndefined => Some "- undefined"
    | VArr _ | VObj _ => s <-- tostr strength ;; Some ("- " ++ s)
    end
  else Some "".

(** [key.charAt(0).toUpperCase() + key.slice(1)] *)
Definition capitalized (key : string) : string :=
  match key with
  | EmptyString => upper ""
  | String c rest => upper (String c EmptyString) ++ rest
  end.

Definition row_of (entry : string * jsval) : option Row :=
  colour <-- badge (snd entry) ;;
  Some (mkRow (capitalized (fst entry)) colour (badge_text (snd entry))).

(** The value of the breakdown expression. *)
Definition breakdown_of (signal : jsval) : option Breakdown :=
  let votes := prop signal "signals" in
  if negb (truthy votes) then Some (NoLines votes)
  else if negb (typeof votes =? "object") then Some (NoLines (VBool false))
  else
    lines <-- all_of (map row_of (entries votes)) ;;
    Some (Lines lines).

(** The lines under "Key Indicators", when [signal.indicators] is a
    truthy object. *)
Definition indicators_of (signal : jsval) : option (option Indicators) :=
  let ind := prop signal "indicators" in
  if truthy ind && (typeof ind =? "object") then
    rsi <-- price_text big (prop ind "rsi_14") ;;
    m <-- fixed4_text big (prop ind "macd") ;;
    ms <-- fixed4_text big (prop ind "macd_signal") ;;
    mh <-- fixed4_text big (prop ind "macd_histogram") ;;
    Some (Some (mkIndicators rsi m ms mh))
  else Some None.

(** The component as a function: the element it returns, or [None]
    when evaluating one of its expressions throws a TypeError. *)
Definition SignalDisplay (signal : jsval) : option View :=
  if negb (hasValidData signal) then Some NoSignalData
  else
    heading <-- title_of signal ;;
    strength <-- strength_text (prop signal "signal_strength") ;;
    current <-- price_text big (prop signal "current_price") ;;
    stop <-- price_text big (prop signal "stop_loss") ;;
    take <-- price_text big (prop signal "take_profit") ;;
    lines <-- breakdown_of signal ;;
    ind <-- indicators_of signal ;;
    Some (SignalCard
            (mkCard heading (formattedTimestamp signal)
                    (header_of (prop signal "action") (prop signal "signal_strength"))
                    strength current stop take lines
                    (breakdown_placeholder signal) ind)).

End Component.

(** React shows a value given as a child when it is a string, a number,
    nothing (a boolean, null, undefined) or an array of such values, and
    throws on a plain object ("Objects are not valid as a React child"). *)
Fixpoint valid_child (v : jsval) : bool :=
  match v with
  | VObj _ => false
  | VArr items => forallb valid_child items
  | _ => true
  end.

(** The two children of the card that are values of the response: the
    action and the text of each badge. *)
Definition mounts (c : Card) : bool :=
  valid_child (actionShown (head c))
  && match breakdown c with
     | NoLines v => valid_child v
     | Lines rows => forallb (fun r => valid_child (text r)) rows
     end.

(** What is on the page once React has rendered the element: the view,
    or [None] when building or mounting it threw. *)
Definition render (format : jsval -> string) (upper : string -> string)
           (big : float -> string) (tostr : jsval -> option string) (signal : jsval)
  : option View :=
  match SignalDisplay format upper big tostr signal with
  | Some (SignalCard c) => if mounts c then Some (SignalCard c) else None
  | other => other
  end.

(** *** The inputs the card can be built from *)

(** The signal has no data to show, in the words of the component's
    test: it is null or undefined, is not an object, has a truthy [error]
    property, or has no keys. *)
Definition without_data (signal : jsval) : Prop :=
  nullish signal = true
  \/ typeof signal <> "object"
  \/ truthy (prop signal "error") = true
  \/ object_keys signal = [].

Definition is_text (v : jsval) : bool :=
  match v with VStr _ => true | _ => false end.

(** Falsy, or a string. *)
Definition text_or_falsy (v : jsval) : bool := negb (truthy v) || is_text v.

(** Not an object or an array that the template literal cannot
    convert. *)
Definition printable (tostr : jsval -> option string) (v : jsval) : bool :=
  match v with
  | VArr _ | VObj _ => match tostr v with Some _ => true | None => false end
  | _ => true
  end.

(** Null, undefined, or a number. *)
Definition number_or_absent (v : jsval) : bool :=
  match v with VUndefined | VNull | VNum _ => true | _ => false end.

(** Not an object with a truthy [includes] property. *)
Definition plain_vote (v : jsval) : bool :=
  match v with
  | VObj _ => negb (truthy (prop v "includes"))
  | _ => true
  end.

Definition indicators_ok (signal : jsval) : bool :=
  let ind := prop signal "indicators" in
  if truthy ind && (typeof ind =? "object") then
    number_or_absent (prop ind "rsi_14")
    && number_or_absent (prop ind "macd")
    && number_or_absent (prop ind "macd_signal")
    && number_or_absent (prop ind "macd_histogram")
  else true.

(** The fields of the signal have the types the expressions of the card
    need. *)
Definition well_formed (tostr : jsval -> option string) (signal : jsval) : bool :=
  text_or_falsy (prop signal "timeframe")
  && printable tostr (prop signal "signal_strength")
  && number_or_absent (prop signal "current_price")
  && number_or_absent (prop signal "stop_loss")
  && number_or_absent (prop signal "take_profit")
  && forallb (fun vote => plain_vote (snd vote)) (breakdown_rows signal)
  && indicators_ok signal.

(** Neither the action nor a vote is a plain object (or an array that
    holds one). *)
Definition showable (signal : jsval) : bool :=
  valid_child (prop signal "action")
  && forallb (fun vote => valid_child (snd vote)) (breakdown_rows signal).

Definition isSome {A} (o : option A) : bool :=
  match o with Some _ => true | None => false end.

(** *** Doubles of the runtime for the examples *)

Definition upper_char (c : ascii) : ascii :=
  let n := nat_of_ascii c in
  if (97 <=? n)%nat && (n <=? 122)%nat then ascii_of_nat (n - 32) else c.

(** [toUpperCase] on ASCII text. *)
Fixpoint ascii_upper (s : string) : string :=
  match s with
  | EmptyString => EmptyString
  | String c rest => String (upper_char c) (ascii_upper rest)
  end.

(** The conversion of an object: one with a [toString] property of
    its own, which is no function, cannot be converted. The examples
    convert no array. *)
Definition simple_tostr (v : jsval) : option string :=
  match v with
  | VObj _ => if has_field v "toString" then None else Some "[object Object]"
  | _ => Some ""
  end.

(** A number printer for the examples, which print no number through
    it. *)
Definition large (x : float) : string := "1e+21".

(** A response that names its error field and leaves it null. *)
Definition null_error_signal : jsval :=
  VObj [("error", VNull); ("action", VStr "BUY"); ("timeframe", VStr "1h")].

(** A response whose timeframe is a number. *)
Definition numeric_timeframe_signal : jsval :=
  VObj [("action", VStr "BUY"); ("timeframe", VNum 5%float)].

(** A response whose action is an object. *)
Definition object_action_signal : jsval :=
  VObj [("action", VObj [("side", VStr "BUY")])].




(** The card of [null_error_signal]. *)
Definition null_error_card : Card :=
  mkCard "1H" "No timestamp available"
         (mkHeader "buy" "buy-signal" "" (VStr "BUY")) ""
         (VStr "N/A") (VStr "N/A") (VStr "N/A")
         (NoLines VUndefined) true None.

(** *** When each expression throws *)

Lemma title_of_some (upper : string -> string) (signal : jsval) :
  isSome (title_of upper signal) = text_or_falsy (prop signal "timeframe").
Proof.
  unfold title_of, text_or_falsy, js_or.
  destruct (truthy (prop signal "timeframe")) eqn:E; [|reflexivity].
  destruct (prop signal "timeframe"); reflexivity.
Qed.

Lemma strength_text_some (big : float -> string) (tostr : jsval -> option string)
      (v : jsval) :
  isSome (strength_text big tostr v) = printable tostr v.
Proof.
  unfold strength_text, printable.
  destruct v as [| |b|x|s|items|fields]; cbn [truthy];
    try reflexivity;
    try (match goal with |- context [tostr ?x] => destruct (tostr x) end; reflexivity).
  - destruct b; reflexivity.
  - destruct (negb (falsy_number x)); reflexivity.
  - destruct (negb (s =? "")); reflexivity.
Qed.

Lemma price_text_some (big : float -> string) (v : jsval) :
  isSome (price_text big v) = number_or_absent v.
Proof. destruct v; reflexivity. Qed.

Lemma fixed4_text_some (big : float -> string) (v : jsval) :
  isSome (fixed4_text big v) = number_or_absent v.
Proof. destruct v; reflexivity. Qed.

Lemma badge_some (v : jsval) : isSome (badge v) = plain_vote v.
Proof.
  unfold badge, includes, plain_vote, prop, get_prop.
  destruct v as [| |b|x|s|items|fields]; try reflexivity.
  - destruct (contains "BUY" s); [reflexivity|].
    destruct (contains "SELL" s); reflexivity.
  - destruct (existsb _ items); [reflexivity|].
    destruct (existsb _ items); reflexivity.
  - destruct (lookup_field "includes" fields) as [f|]; [|reflexivity].
    destruct (truthy f); reflexivity.
Qed.

Lemma row_of_some (upper : string -> string) (entry : string * jsval) :
  isSome (row_of upper entry) = plain_vote (snd entry).
Proof.
  unfold row_of. rewrite <- badge_some. destruct (badge (snd entry)); reflexivity.
Qed.

Lemma all_of_some {A B} (f : A -> option B) (l : list A) :
  isSome (all_of (map f l)) = forallb (fun x => isSome (f x)) l.
Proof.
  induction l as [|x l IH]; [reflexivity|].
  cbn [map all_of forallb]. destruct (f x) as [y|]; [|reflexivity].
  cbn [isSome andb]. rewrite <- IH. destruct (all_of (map f l)); reflexivity.
Qed.

Lemma forallb_same {A} (f g : A -> bool) (l : list A) :
  (forall x, f x = g x) -> forallb f l = forallb g l.
Proof.
  intros H. induction l as [|x l IH]; [reflexivity|].
  cbn [forallb]. rewrite H, IH. reflexivity.
Qed.

Lemma breakdown_of_some (upper : string -> string) (signal : jsval) :
  isSome (breakdown_of upper signal)
  = forallb (fun vote => plain_vote (snd vote)) (breakdown_rows signal).
Proof.
  unfold breakdown_of, breakdown_rows.
  destruct (truthy (prop signal "signals")); [|reflexivity].
  destruct (typeof (prop signal "signals") =? "object"); [|reflexivity].
  cbn [negb andb].
  rewrite <- (forallb_same _ _ _ (row_of_some upper)), <- all_of_some.
  destruct (all_of _); reflexivity.
Qed.

Lemma indicators_of_some (big : float -> string) (signal : jsval) :
  isSome (indicators_of big signal) = indicators_ok signal.
Proof.
  unfold indicators_of, indicators_ok.
  destruct (truthy (prop signal "indicators") && _); [|reflexivity].
  rewrite <- (price_text_some big), <- !(fixed4_text_some big).
  destruct (price_text big _); [|reflexivity].
  destruct (fixed4_text big (prop _ "macd")); [|reflexivity].
  destruct (fixed4_text big (prop _ "macd_signal")); [|reflexivity].
  destruct (fixed4_text big (prop _ "macd_histogram")); reflexivity.
Qed.

Section Characterisation.
Variable format : jsval -> string.
Variable upper : string -> string.
Variable big : float -> string.
Variable tostr : jsval -> option string.

(** With data to show, the component returns a card or throws, and it
    returns exactly when the signal is well formed. *)
Lemma builds_when_well_formed (signal : jsval) :
  hasValidData signal = true ->
  match SignalDisplay format upper big tostr signal with
  | Some NoSignalData => False
  | Some (SignalCard c) =>
      well_formed tostr signal = true
      /\ head c = header_of (prop signal "action") (prop signal "signal_strength")
      /\ isSome (breakdown_of upper signal) = true
      /\ breakdown_of upper signal = Some (breakdown c)
  | None => well_formed tostr signal = false
  end.
Proof.
  intros Hv. unfold SignalDisplay, well_formed. rewrite Hv. cbn [negb].
  rewrite <- (title_of_some upper), <- (strength_text_some big), <- !(price_text_some big),
    <- (breakdown_of_some upper), <- (indicators_of_some big).
  destruct (title_of upper signal); [|reflexivity].
  destruct (strength_text big tostr _); [|reflexivity].
  destruct (price_text big (prop signal "current_price")); [|reflexivity].
  destruct (price_text big (prop signal "stop_loss")); [|reflexivity].
  destruct (price_text big (prop signal "take_profit")); [|reflexivity].
  destruct (breakdown_of upper signal); [|reflexivity].
  destruct (indicators_of big signal); [|reflexivity].
  repeat split; reflexivity.
Qed.

Lemma fallback_iff (signal : jsval) :
  SignalDisplay format upper big tostr signal = Some NoSignalData
  <-> hasValidData signal = false.
Proof.
  destruct (hasValidData signal) eqn:Hv.
  - pose proof (builds_when_well_formed signal Hv) as H.
    split; [|discriminate]. intros E. rewrite E in H. contradiction.
  - unfold SignalDisplay. rewrite Hv. split; reflexivity.
Qed.

End Characterisation.

(** *** What React can mount *)

Lemma valid_child_or (v : jsval) (d : string) :
  valid_child (js_or v (VStr d)) = valid_child v.
Proof.
  unfold js_or. destruct (truthy v) eqn:E; [reflexivity|].
  destruct v; try reflexivity; discriminate.
Qed.

Lemma lines_mount (upper : string -> string) (votes : list (string * jsval))
      (lines : list Row) :
  all_of (map (row_of upper) votes) = Some lines ->
  forallb (fun r => valid_child (text r)) lines
  = forallb (fun vote => valid_child (snd vote)) votes.
Proof.
  revert lines. induction votes as [|vote votes IH]; intros lines H.
  - injection H as <-. reflexivity.
  - cbn [map all_of] in H. unfold row_of at 1 in H.
    destruct (badge (snd vote)) as [colour|]; [|discriminate].
    destruct (all_of (map (row_of upper) votes)) as [rest|]; [|discriminate].
    injection H as <-. cbn [forallb text].
    unfold badge_text. rewrite valid_child_or, (IH rest eq_refl). reflexivity.
Qed.

Lemma breakdown_mounts (upper : string -> string) (signal : jsval) (b : Breakdown) :
  breakdown_of upper signal = Some b ->
  match b with
  | NoLines v => valid_child v
  | Lines lines => forallb (fun r => valid_child (text r)) lines
  end
  = forallb (fun vote => valid_child (snd vote)) (breakdown_rows signal).
Proof.
  unfold breakdown_of, breakdown_rows.
  destruct (truthy (prop signal "signals")) eqn:Et; cbn [negb andb].
  - destruct (typeof (prop signal "signals") =? "object"); cbn [negb].
    + destruct (all_of _) as [lines|] eqn:El; [|discriminate].
      intros H. injection H as <-. apply (lines_mount upper). exact El.
    + intros H. injection H as <-. reflexivity.
  - intros H. injection H as <-.
    destruct (prop signal "signals"); try reflexivity; discriminate.
Qed.

Section Claims.
Variable format : jsval -> string.
Variable upper : string -> string.
Variable big : float -> string.
Variable tostr : jsval -> option string.

Lemma card_mounts (signal : jsval) (c : Card) :
  SignalDisplay format upper big tostr signal = Some (SignalCard c) ->
  mounts c = showable signal.
Proof.
  intros H.
  destruct (hasValidData signal) eqn:Hv.
  - pose proof (builds_when_well_formed format upper big tostr signal Hv) as B.
    rewrite H in B. destruct B as (_ & Hhead & _ & Hb).
    unfold mounts, showable. rewrite Hhead.
    unfold header_of. cbn [actionShown]. rewrite valid_child_or.
    rewrite (breakdown_mounts upper signal (breakdown c) Hb). reflexivity.
  - apply (fallback_iff format upper big tostr) in Hv. congruence.
Qed.

Lemma with_data_iff (signal : jsval) :
  ~ without_data signal <-> hasValidData signal = true.
Proof.
  unfold without_data. rewrite <- hasValidData_false_iff.
  destruct (hasValidData signal); split; intros H.
  - reflexivity.
  - discriminate.
  - contradiction H. reflexivity.
  - discriminate.
Qed.

End Claims.

(** C8, as stated, fails. A signal that carries an error field whose
    value is null is rendered as the full signal card; a signal with keys,
    without an error field, whose timeframe is the number 5 is rendered
    neither as the fallback nor as the card: the component throws at
    [timeframe.toUpperCase()]; and for a signal whose action is an object
    the component returns the card and React throws when it mounts it. *)
Lemma error_field_counterexample :
  has_field null_error_signal "error" = true
  /\ SignalDisplay PriceChart.plain_label ascii_upper large simple_tostr null_error_signal
     = Some (SignalCard null_error_card)
  /\ render PriceChart.plain_label ascii_upper large simple_tostr null_error_signal
     = Some (SignalCard null_error_card)
  /\ nullish numeric_timeframe_signal = false
  /\ typeof numeric_timeframe_signal = "object"
  /\ has_field numeric_timeframe_signal "error" = false
  /\ object_keys numeric_timeframe_signal = ["action"; "timeframe"]
  /\ SignalDisplay PriceChart.plain_label ascii_upper large simple_tostr
                   numeric_timeframe_signal
     = None
  /\ render PriceChart.plain_label ascii_upper large simple_tostr numeric_timeframe_signal
     = None
  /\ hasValidData object_action_signal = true
  /\ isSome (SignalDisplay PriceChart.plain_label ascii_upper large simple_tostr
                           object_action_signal)
     = true
  /\ render PriceChart.plain_label ascii_upper large simple_tostr object_action_signal
     = None.
Proof. repeat split; reflexivity. Qed.

(** C8, amended. SignalDisplay returns the "No signal data available"
    fallback exactly when its signal input is null or undefined, is not an
    object, has a truthy [error] property, or has no keys. For every other
    input it returns the full signal card exactly when the fields of the
    signal have the types its expressions need, and throws otherwise; the
    card is then mounted by React exactly when, in addition, neither the
    action nor a vote is a plain object. The fallback is never the answer
    to a signal with data, and a card is never the answer to one without. *)
Theorem fallback_exactly_without_data
        (format : jsval -> string) (upper : string -> string)
        (big : float -> string) (tostr : jsval -> option string) (signal : jsval) :
  (SignalDisplay format upper big tostr signal = Some NoSignalData
   <-> without_data signal)
  /\ ((exists c, SignalDisplay format upper big tostr signal = Some (SignalCard c))
      <-> ~ without_data signal /\ well_formed tostr signal = true)
  /\ (SignalDisplay format upper big tostr signal = None
      <-> ~ without_data signal /\ well_formed tostr signal = false)
  /\ (render format upper big tostr signal = Some NoSignalData
      <-> without_data signal)
  /\ ((exists c, render format upper big tostr signal = Some (SignalCard c))
      <-> ~ without_data signal
          /\ well_formed tostr signal = true /\ showable signal = true)
  /\ (forall c, render format upper big tostr signal = Some (SignalCard c) ->
                SignalDisplay format upper big tostr signal = Some (SignalCard c)).
Proof.
  rewrite with_data_iff.
  assert (Hw : without_data signal <-> hasValidData signal = false)
    by (unfold without_data; symmetry; apply hasValidData_false_iff).
  rewrite Hw.
  pose proof (fallback_iff format upper big tostr signal) as Hf.
  pose proof (card_mounts format upper big tostr signal) as Hm.
  unfold render.
  destruct (hasValidData signal) eqn:Hv.
  - pose proof (builds_when_well_formed format upper big tostr signal Hv) as B.
    destruct (SignalDisplay format upper big tostr signal) as [[|c]|].
    + contradiction.
    + destruct B as (Hwf & _). specialize (Hm c eq_refl). rewrite Hm, Hwf.
      split; [split; discriminate|].
      split; [split; [intros _; split; reflexivity | intros _; exists c; reflexivity]|].
      split; [split; [discriminate | intros [_ E]; discriminate]|].
      split; [destruct (showable signal); split; discriminate|].
      split.
      * destruct (showable signal); split.
        -- intros _. repeat split; reflexivity.
        -- intros _. exists c. reflexivity.
        -- intros [c' E]. discriminate.
        -- intros (_ & _ & E). discriminate.
      * intros c' E. destruct (showable signal); [exact E|discriminate].
    + rewrite B.
      split; [split; discriminate|].
      split; [split; [intros [c E]; discriminate | intros [_ E]; discriminate]|].
      split; [split; [intros _; split; reflexivity | reflexivity]|].
      split; [split; discriminate|].
      split; [split; [intros [c E]; discriminate | intros (_ & E & _); discriminate]|].
      intros c E. discriminate.
  - assert (E : SignalDisplay format upper big tostr signal = Some NoSignalData)
      by (apply Hf; reflexivity).
    rewrite E.
    split; [split; reflexivity|].
    split; [split; [intros [c H]; discriminate | intros [H _]; discriminate]|].
    split; [split; [discriminate | intros [H _]; discriminate]|].
    split; [split; reflexivity|].
    split; [split; [intros [c H]; discriminate | intros (H & _); discriminate]|].
    intros c H. discriminate.
Qed.




(** The card on signals of several shapes: a complete one (the votes
    are listed with the integer-like keys first), an array, signals
    without a card, and values React cannot mount. *)
Lemma component_examples :
  SignalDisplay PriceChart.plain_label ascii_upper large simple_tostr
                (VObj [("action", VStr "buy")])
  = Some (SignalCard
            (mkCard "UNKNOWN" "No timestamp available"
                    (mkHeader "hold" "hold-signal" "" (VStr "buy")) ""
                    (VStr "N/A") (VStr "N/A") (VStr "N/A")
                    (NoLines VUndefined) true None))
  /\ render PriceChart.plain_label ascii_upper large simple_tostr
            (VArr [VNum 1%float])
     = Some (SignalCard
               (mkCard "UNKNOWN" "No timestamp available"
                       (mkHeader "hold" "hold-signal" "" (VStr "HOLD")) ""
                       (VStr "N/A") (VStr "N/A") (VStr "N/A")
                       (NoLines VUndefined) true None))
  /\ SignalDisplay PriceChart.plain_label ascii_upper large simple_tostr (VObj [])
     = Some NoSignalData
  /\ SignalDisplay PriceChart.plain_label ascii_upper large simple_tostr VUndefined
     = Some NoSignalData
  /\ SignalDisplay PriceChart.plain_label ascii_upper large simple_tostr
                   (VObj [("action", VStr "BUY"); ("stop_loss", VStr "1950")])
     = None
  /\ SignalDisplay PriceChart.plain_label ascii_upper large simple_tostr
                   (VObj [("signals", VObj [("rsi", VObj [("includes", VBool true)])])])
     = None
  /\ map fst (entries (VObj [("rsi", VNull); ("10", VNull); ("macd", VNull);
                             ("2", VNull); ("01", VNull)]))
     = ["2"; "10"; "rsi"; "macd"; "01"].
Proof. repeat split; reflexivity. Qed.

End SignalComponent.

(* ------------------------------------------------------------------ *)
(** ** OAuth callback page: how it ends *)

Module AuthFlows.
Import ZerodhaAuth.

(** A brokerage double that refuses the token exchange. *)
Definition refusing_exchange : World :=
  mkWorld (fun _ _ => Rejected) (fun _ => 0%float) (fun v => v)
          (fun v => match v with VStr t => t | _ => "undefined" end)
          (fun v => match v with VNum x => x | _ => nan end).

Definition redirect : Event := Timer 3000 "/trading".

Lemma token_run (params : list (string * string)) (t : string)
      (w : World) (s : State) (l : Log) :
  request_token params = Some t ->
  handleAuth params w s l
  = match respond w (List.length (calls l)) (zerodhaCallback t) with
    | Resolved _ =>
        (Done tt, mkState false (error s) true,
         mkLog (events l ++ [Call (zerodhaCallback t); redirect]) (draws l))
    | Rejected =>
        (Done tt, mkState false (Some exchange_failed_message) (success s),
         mkLog (events l ++ [Call (zerodhaCallback t);
                             Console "Zerodha authentication error:"]) (draws l))
    end.
Proof.
  unfold request_token, handleAuth. intros H.
  destruct (search_get params "request_token") as [t'|]; [|discriminate].
  cbn [truthy]. destruct (t' =? "") eqn:Ht; [discriminate|].
  injection H as ->. cbn [negb].
  destruct (respond w (List.length (calls l)) (zerodhaCallback t)) as [d|] eqn:Hr.
  - erewrite try_catch_done.
    2:{ eapply bind_done; [apply await_resolved; exact Hr|]. reflexivity. }
    cbn. rewrite <- app_assoc. reflexivity.
  - erewrite try_catch_thrown;
      [|eapply bind_thrown; apply await_rejected; exact Hr].
    cbn. rewrite <- app_assoc. reflexivity.
Qed.

(** The callback page always comes to a decision. Run on the freshly
    mounted page, [handleAuth] returns, stops the spinner, and ends in
    exactly one of two ways: success without an error, with the redirect
    to /trading scheduled in 3000 ms, which happens exactly when a request
    token was brought and its exchange resolved; or an error without
    success and without a redirect. *)
Theorem callback_ends_decided (params : list (string * string)) (w : World) :
  outcome_of (handleAuth params w initial empty_log) = Done tt
  /\ loading (store_of (handleAuth params w initial empty_log)) = false
  /\ (success (store_of (handleAuth params w initial empty_log)) = true
      <-> error (store_of (handleAuth params w initial empty_log)) = None)
  /\ (success (store_of (handleAuth params w initial empty_log)) = true
      <-> In redirect (events (log_of (handleAuth params w initial empty_log))))
  /\ (success (store_of (handleAuth params w initial empty_log)) = true
      <-> exists t data, request_token params = Some t
                         /\ respond w 0 (zerodhaCallback t) = Resolved data).
Proof.
  destruct (request_token params) as [t|] eqn:Ht.
  - rewrite (token_run params t w initial empty_log Ht).
    change (List.length (calls empty_log)) with 0.
    destruct (respond w 0 (zerodhaCallback t)) as [d|] eqn:Hr; cbn.
    + repeat split; try reflexivity; intros _; try reflexivity.
      * right. left. reflexivity.
      * exists t, d. split; [reflexivity|exact Hr].
    + repeat split; try reflexivity; try discriminate.
      * intros [H|[H|[]]]; discriminate.
      * intros (t' & d & H1 & H2). injection H1 as <-. congruence.
  - rewrite (handleAuth_without_token params w initial empty_log Ht). cbn.
    repeat split; try reflexivity; try discriminate.
    + intros [].
    + intros (t' & d & H1 & _). discriminate.
Qed.

(** A rejected exchange on a double. *)
Lemma rejected_exchange_example :
  handleAuth [("request_token", "abc123")] refusing_exchange initial empty_log
  = (Done tt, mkState false (Some exchange_failed_message) false,
     mkLog [Call (zerodhaCallback "abc123"); Console "Zerodha authentication error:"] 0).
Proof. reflexivity. Qed.

End AuthFlows.

(* ------------------------------------------------------------------ *)
(** ** Signals page: refresh and update *)

Module SignalsFlows.
Import Signals.

Definition refresh_failed_message : string :=
  "Failed to load signals. Please try again later.".
Definition update_failed_message : string :=
  "Failed to update data. Please try again later.".

(** A backend double whose update succeeds and whose signals are down. *)
Definition update_only : World :=
  mkWorld (fun _ c => match c with
                      | updateData => Resolved (VObj [("status", VStr "success")])
                      | _ => Rejected
                      end)
          (fun _ => 0%float) (fun v => v)
          (fun v => match v with VStr t => t | _ => "undefined" end)
          (fun v => match v with VNum x => x | _ => nan end).

Lemma signals_fetch_run (w : World) (s : State) (l : Log) :
  fetchSignals w s l
  = match respond w (List.length (calls l)) getAllSignals with
    | Resolved data =>
        (Done tt, mkState false None data (selectedTimeframe s) true,
         mkLog (events l ++ [Call getAllSignals]) (draws l))
    | Rejected =>
        (Done tt,
         mkState false (Some refresh_failed_message) (signals s)
                 (selectedTimeframe s) (lastUpdate s),
         mkLog (events l ++ [Call getAllSignals; Console "Error fetching signals:"])
               (draws l))
    end.
Proof.
  unfold fetchSignals.
  do 2 (eapply bind_done; [reflexivity|]).
  unfold try_finally.
  destruct (respond w (List.length (calls l)) getAllSignals) as [d|] eqn:Hr.
  - erewrite try_catch_done.
    2:{ eapply bind_done; [apply await_resolved; exact Hr|]. reflexivity. }
    reflexivity.
  - erewrite try_catch_thrown;
      [|eapply bind_thrown; apply await_rejected; exact Hr].
    cbn. rewrite <- app_assoc. reflexivity.
Qed.

Lemma update_run (w : World) (s : State) (l : Log) :
  handleUpdateData w s l
  = match respond w (List.length (calls l)) updateData with
    | Resolved _ =>
        fetchSignals w
          (mkState true (error s) (signals s) (selectedTimeframe s) (lastUpdate s))
          (mkLog (events l ++ [Call updateData]) (draws l))
    | Rejected =>
        (Done tt,
         mkState false (Some update_failed_message) (signals s)
                 (selectedTimeframe s) (lastUpdate s),
         mkLog (events l ++ [Call updateData; Console "Error updating data:"]) (draws l))
    end.
Proof.
  unfold handleUpdateData.
  destruct (respond w (List.length (calls l)) updateData) as [d|] eqn:Hr.
  - unfold try_catch.
    erewrite bind_done; [|reflexivity|].
    2:{ eapply bind_done; [apply await_resolved; exact Hr|]. reflexivity. }
    rewrite signals_fetch_run. cbn.
    destruct (respond w _ getAllSignals); reflexivity.
  - erewrite try_catch_thrown.
    2:{ eapply bind_done; [reflexivity|].
        eapply bind_thrown. apply await_rejected. exact Hr. }
    cbn. rewrite <- app_assoc. reflexivity.
Qed.

(** "Update Data" fetches the signals only after the update succeeded.
    A rejected update sends nothing more, keeps the signals and shows the
    update error; a resolved update is followed by exactly one signals
    request, whose rejection keeps the old signals and shows the load
    error. In every case the handler returns, [loading] ends cleared and
    the selected timeframe is left alone. *)
Theorem update_precedes_refresh (w : World) (s : State) (l : Log) :
  outcome_of (handleUpdateData w s l) = Done tt
  /\ loading (store_of (handleUpdateData w s l)) = false
  /\ selectedTimeframe (store_of (handleUpdateData w s l)) = selectedTimeframe s
  /\ match respond w (List.length (calls l)) updateData with
     | Rejected =>
         calls (log_of (handleUpdateData w s l)) = (calls l ++ [updateData])%list
         /\ signals (store_of (handleUpdateData w s l)) = signals s
         /\ error (store_of (handleUpdateData w s l)) = Some update_failed_message
     | Resolved _ =>
         calls (log_of (handleUpdateData w s l))
         = (calls l ++ [updateData; getAllSignals])%list
         /\ match respond w (Datatypes.S (List.length (calls l))) getAllSignals with
            | Resolved data =>
                signals (store_of (handleUpdateData w s l)) = data
                /\ error (store_of (handleUpdateData w s l)) = None
                /\ lastUpdate (store_of (handleUpdateData w s l)) = true
            | Rejected =>
                signals (store_of (handleUpdateData w s l)) = signals s
                /\ error (store_of (handleUpdateData w s l)) = Some refresh_failed_message
                /\ lastUpdate (store_of (handleUpdateData w s l)) = lastUpdate s
            end
     end.
Proof.
  rewrite update_run.
  destruct (respond w (List.length (calls l)) updateData) as [d|] eqn:Hu.
  - rewrite signals_fetch_run.
    replace (List.length (calls (mkLog (events l ++ [Call updateData]) (draws l))))
      with (Datatypes.S (List.length (calls l)))
      by (rewrite calls_after_call, length_app, Nat.add_1_r; reflexivity).
    destruct (respond w (Datatypes.S (List.length (calls l))) getAllSignals) as [data|];
      (repeat split; try reflexivity);
      cbn; next_index; rewrite ?app_nil_r, <- ?app_assoc; reflexivity.
  - (repeat split; try reflexivity).
    cbn. next_index. rewrite ?app_nil_r. reflexivity.
Qed.

(** An update that succeeds before a refresh that fails. *)
Lemma update_example :
  handleUpdateData update_only
    (mkState false None (VObj [("1h", VObj [("action", VStr "BUY")])]) "1h" true)
    empty_log
  = (Done tt,
     mkState false (Some refresh_failed_message)
             (VObj [("1h", VObj [("action", VStr "BUY")])]) "1h" true,
     mkLog [Call updateData; Call getAllSignals; Console "Error fetching signals:"] 0).
Proof. reflexivity. Qed.

End SignalsFlows.

(* ------------------------------------------------------------------ *)
(** ** Dashboard: what a response is taken to hold, and failures *)

Module DashboardFlows.
Import Dashboard.

(** The chart is handed two arrays and the signal card a value it can
    read from. *)
Definition lists_in_place (s : State) : Prop :=
  is_array (priceData s) = true
  /\ is_array (predictions s) = true
  /\ nullish (signals s) = false.

Definition load_failed_message : string :=
  "Failed to load dashboard data. Please try again later.".

(** The list found in a response: its [data] field when that is an
    array. *)
Definition list_of (data : jsval) : jsval :=
  if is_array (prop data "data") then prop data "data" else VArr [].

(** The value [received_signal] returns. *)
Definition signal_of (data : jsval) : jsval :=
  if truthy data then
    if strict_eq_str (prop data "status") "success" && truthy (prop data "data")
    then prop data "data"
    else if (typeof data =? "object") && negb (truthy (prop data "error"))
    then data
    else VObj []
  else VObj [].

(** The three requests of a fetch started after [n] requests all resolve. *)
Definition loaded (w : World) (n : nat) (tf : string) : bool :=
  match respond w n (getPriceData (Some tf) (Some 100)),
        respond w (Datatypes.S n) (getPredictions (Some tf)),
        respond w (Datatypes.S (Datatypes.S n)) (getSignal (Some tf)) with
  | Resolved _, Resolved _, Resolved _ => true
  | _, _, _ => false
  end.

(** A backend double that answers every request with a bare JSON array
    of one bar. *)
Definition bare_arrays : World :=
  mkWorld (fun _ _ => Resolved (VArr [VObj [("timestamp", VStr "2024-01-01T00:00:00");
                                            ("close", VNum 2050)]]))
          (fun _ => 0%float) (fun v => v)
          (fun v => match v with VStr t => t | _ => "undefined" end)
          (fun v => match v with VNum x => x | _ => nan end).

(** A backend double with prices and without predictions. *)
Definition prices_then_nothing : World :=
  mkWorld (fun _ c => match c with
                      | getPriceData _ _ =>
                          Resolved (VObj [("status", VStr "success");
                                          ("data", VArr [VObj [("close", VNum 2050)]])])
                      | _ => Rejected
                      end)
          (fun _ => 0%float) (fun v => v)
          (fun v => match v with VStr t => t | _ => "undefined" end)
          (fun v => match v with VNum x => x | _ => nan end).

Lemma data_array_of_object (data : jsval) :
  is_array (prop data "data") = true -> exists fields, data = VObj fields.
Proof.
  destruct data as [| |b|x|t|items|fields]; try discriminate.
  intros _. exists fields. reflexivity.
Qed.

Lemma note_calls (l : Log) (t : string) :
  calls (mkLog (events l ++ [Console t]) (draws l)) = calls l.
Proof. unfold calls. cbn. rewrite calls_of_app. cbn. apply app_nil_r. Qed.

Lemma received_list_run (what : string) (data : jsval) (w : World) (l : Log) :
  exists l',
    (forall s : State, received_list what data w s l = (Done (list_of data), s, l'))
    /\ calls l' = calls l.
Proof.
  unfold received_list, list_of.
  destruct (is_array (prop data "data")) eqn:Ha.
  - destruct (data_array_of_object data Ha) as [fields ->].
    assert (truthy (prop (VObj fields) "data") = true) as ->
      by (destruct (prop (VObj fields) "data"); try discriminate; reflexivity).
    cbn [truthy andb]. rewrite orb_true_r.
    exists l. split; [reflexivity|reflexivity].
  - destruct (truthy data
              && (strict_eq_str (prop data "status") "success"
                  || truthy (prop data "data"))) eqn:Hc.
    + destruct (is_array data) eqn:Hd.
      * destruct data as [| |b|x|t|items|fields]; discriminate.
      * eexists. split; [intros s; reflexivity|apply note_calls].
    + eexists. split; [intros s; reflexivity|apply note_calls].
Qed.

Lemma received_signal_run (data : jsval) (w : World) (l : Log) :
  exists l',
    (forall s : State, received_signal data w s l = (Done (signal_of data), s, l'))
    /\ calls l' = calls l.
Proof.
  unfold received_signal, signal_of.
  destruct (truthy data).
  - destruct (strict_eq_str (prop data "status") "success" && truthy (prop data "data")).
    + exists l. split; reflexivity.
    + destruct ((typeof data =? "object") && negb (truthy (prop data "error"))).
      * exists l. split; reflexivity.
      * eexists. split; [intros s; reflexivity|apply note_calls].
  - eexists. split; [intros s; reflexivity|apply note_calls].
Qed.

Lemma list_of_array (data : jsval) : is_array (list_of data) = true.
Proof. unfold list_of. destruct (is_array (prop data "data")) eqn:H; [exact H|reflexivity]. Qed.

Lemma truthy_not_nullish (v : jsval) : truthy v = true -> nullish v = false.
Proof. destruct v; try reflexivity; discriminate. Qed.

Lemma signal_of_readable (data : jsval) : nullish (signal_of data) = false.
Proof.
  unfold signal_of. destruct (truthy data) eqn:Hd; [|reflexivity].
  destruct (strict_eq_str (prop data "status") "success" && truthy (prop data "data")) eqn:H1.
  - apply andb_prop in H1 as [_ H1]. apply truthy_not_nullish. exact H1.
  - destruct ((typeof data =? "object") && negb (truthy (prop data "error")));
      [apply truthy_not_nullish; exact Hd|reflexivity].
Qed.

(** The whole fetch, by the answers to its three requests. *)
Lemma dashboard_fetch_run (tf : string) (w : World) (s : State) (l : Log) :
  exists l',
    fetchDashboardData tf w s l
    = (Done tt,
       match respond w (List.length (calls l)) (getPriceData (Some tf) (Some 100)),
             respond w (Datatypes.S (List.length (calls l))) (getPredictions (Some tf)),
             respond w (Datatypes.S (Datatypes.S (List.length (calls l))))
                     (getSignal (Some tf)) with
       | Resolved d1, Resolved d2, Resolved d3 =>
           mkState false None (list_of d1) (list_of d2) (signal_of d3)
                   (selectedTimeframe s) true (showPredictions s)
       | _, _, _ =>
           mkState false (Some load_failed_message) (VArr []) (VArr []) (VObj [])
                   (selectedTimeframe s) (lastUpdate s) (showPredictions s)
       end, l').
Proof.
  unfold fetchDashboardData.
  set (n := List.length (calls l)).
  destruct (respond w n (getPriceData (Some tf) (Some 100))) as [d1|] eqn:H1.
  - destruct (received_list_run "price" d1 w
                (mkLog (events l ++ [Call (getPriceData (Some tf) (Some 100))]) (draws l)))
      as (l1 & E1 & C1).
    assert (List.length (calls l1) = Datatypes.S n) as N1
      by (rewrite C1, calls_after_call, length_app, Nat.add_1_r; reflexivity).
    destruct (respond w (Datatypes.S n) (getPredictions (Some tf))) as [d2|] eqn:H2.
    + destruct (received_list_run "prediction" d2 w
                  (mkLog (events l1 ++ [Call (getPredictions (Some tf))]) (draws l1)))
        as (l2 & E2 & C2).
      assert (List.length (calls l2) = Datatypes.S (Datatypes.S n)) as N2
        by (rewrite C2, calls_after_call, length_app, Nat.add_1_r, N1; reflexivity).
      destruct (respond w (Datatypes.S (Datatypes.S n)) (getSignal (Some tf)))
        as [d3|] eqn:H3.
      * destruct (received_signal_run d3 w
                    (mkLog (events l2 ++ [Call (getSignal (Some tf))]) (draws l2)))
          as (l3 & E3 & C3).
        exists l3.
        do 2 (eapply bind_done; [reflexivity|]).
        unfold try_finally. erewrite try_catch_done.
        2:{ eapply bind_done; [apply await_resolved; exact H1|].
            eapply bind_done; [apply E1|].
            eapply bind_done; [reflexivity|].
            eapply bind_done; [apply await_resolved; rewrite N1; exact H2|].
            eapply bind_done; [apply E2|].
            eapply bind_done; [reflexivity|].
            eapply bind_done; [apply await_resolved; rewrite N2; exact H3|].
            eapply bind_done; [apply E3|].
            eapply bind_done; [reflexivity|].
            reflexivity. }
        reflexivity.
      * eexists.
        do 2 (eapply bind_done; [reflexivity|]).
        unfold try_finally. erewrite try_catch_thrown.
        2:{ eapply bind_done; [apply await_resolved; exact H1|].
            eapply bind_done; [apply E1|].
            eapply bind_done; [reflexivity|].
            eapply bind_done; [apply await_resolved; rewrite N1; exact H2|].
            eapply bind_done; [apply E2|].
            eapply bind_done; [reflexivity|].
            eapply bind_thrown. apply await_rejected. rewrite N2. exact H3. }
        reflexivity.
    + eexists.
      do 2 (eapply bind_done; [reflexivity|]).
      unfold try_finally. erewrite try_catch_thrown.
      2:{ eapply bind_done; [apply await_resolved; exact H1|].
          eapply bind_done; [apply E1|].
          eapply bind_done; [reflexivity|].
          eapply bind_thrown. apply await_rejected. rewrite N1. exact H2. }
      reflexivity.
  - eexists.
    do 2 (eapply bind_done; [reflexivity|]).
    unfold try_finally. erewrite try_catch_thrown.
    2:{ eapply bind_thrown. apply await_rejected. exact H1. }
    reflexivity.
Qed.

Lemma dashboard_fetch_keeps (tf : string) :
  keeps lists_in_place unrestricted anything (fetchDashboardData tf).
Proof.
  intros w s l Hs _. destruct (dashboard_fetch_run tf w s l) as [l' ->].
  split; [|split; [apply unrestricted_log|exact Logic.I]].
  unfold store_of, lists_in_place. cbn [fst snd].
  destruct (respond w _ (getPriceData _ _)) as [d1|];
    [destruct (respond w _ (getPredictions _)) as [d2|];
     [destruct (respond w _ (getSignal _)) as [d3|]|]|];
    cbn; try (repeat split; reflexivity).
  repeat split; [apply list_of_array|apply list_of_array|apply signal_of_readable].
Qed.

Lemma handler_keeps (snap : State) (e : UiEvent) :
  keeps lists_in_place unrestricted anything (handler snap e).
Proof.
  destruct e as [| | |i|]; cbn [handler].
  - apply dashboard_fetch_keeps.
  - apply dashboard_fetch_keeps.
  - unfold handleUpdateData.
    repeat first [apply dashboard_fetch_keeps | keeps_step];
      try (intros s Hs; exact Hs); try exact Logic.I.
  - destruct (nth_error timeframe_buttons i) as [tf|].
    + repeat first [apply dashboard_fetch_keeps | keeps_step];
        try (intros s Hs; exact Hs); try exact Logic.I.
    + keeps_step.
  - apply keeps_modify. intros s Hs. exact Hs.
Qed.

Lemma run_keeps (w : World) (es : list UiEvent) (s : State) (l : Log) :
  lists_in_place s -> lists_in_place (fst (run w es s l)).
Proof.
  revert s l. induction es as [|e es IH]; intros s l Hs; [exact Hs|].
  cbn [run]. apply IH.
  apply (handler_keeps s e w s l Hs (unrestricted_log _)).
Qed.

(** Only a list wrapped in a [data] field is taken from a price or
    prediction response. [received_list] returns the response's [data]
    property when that is an array and the empty list for every other
    response: a response that is itself a JSON array is dropped, since a
    bare array has neither a [status] nor a [data] property and so fails
    the first test. It never throws, and changes neither the page state
    nor the requests sent. *)
Theorem only_wrapped_lists_are_taken
        (what : string) (data : jsval) (w : World) (s : State) (l : Log) :
  outcome_of (received_list what data w s l)
  = Done (if is_array (prop data "data") then prop data "data" else VArr [])
  /\ (is_array data = true ->
      outcome_of (received_list what data w s l) = Done (VArr []))
  /\ store_of (received_list what data w s l) = s
  /\ calls (log_of (received_list what data w s l)) = calls l.
Proof.
  destruct (received_list_run what data w l) as (l' & E & C).
  rewrite E. unfold outcome_of, store_of, log_of. cbn [fst snd].
  repeat split; [|exact C].
  intros Hd. destruct data; try discriminate. reflexivity.
Qed.

(** A dashboard load is all or nothing. [fetchDashboardData] always
    returns with [loading] cleared; when its three requests resolve, the
    error is cleared and the time of the update is set; when any of them is
    rejected, the load error is shown and prices, predictions and signal
    are all emptied, also those that had already arrived. *)
Theorem failed_load_clears_the_dashboard
        (tf : string) (w : World) (s : State) (l : Log) :
  outcome_of (fetchDashboardData tf w s l) = Done tt
  /\ loading (store_of (fetchDashboardData tf w s l)) = false
  /\ if loaded w (List.length (calls l)) tf
     then error (store_of (fetchDashboardData tf w s l)) = None
          /\ lastUpdate (store_of (fetchDashboardData tf w s l)) = true
     else error (store_of (fetchDashboardData tf w s l)) = Some load_failed_message
          /\ priceData (store_of (fetchDashboardData tf w s l)) = VArr []
          /\ predictions (store_of (fetchDashboardData tf w s l)) = VArr []
          /\ signals (store_of (fetchDashboardData tf w s l)) = VObj []
          /\ lastUpdate (store_of (fetchDashboardData tf w s l)) = lastUpdate s.
Proof.
  destruct (dashboard_fetch_run tf w s l) as [l' ->].
  unfold loaded, outcome_of, store_of. cbn [fst snd].
  destruct (respond w _ (getPriceData _ _)) as [d1|];
    [destruct (respond w _ (getPredictions _)) as [d2|];
     [destruct (respond w _ (getSignal _)) as [d3|]|]|];
    cbn; repeat split; reflexivity.
Qed.

(** Whatever the backend answers and whatever is clicked, the dashboard
    hands its chart two arrays and its signal card a value that is neither
    null nor undefined; the chart therefore never shows its "no valid price
    data" message. *)
Theorem dashboard_always_has_lists (w : World) (es : list UiEvent)
        (format : jsval -> string) :
  lists_in_place (fst (run w es initial empty_log))
  /\ PriceChart.PriceChart format
       (priceData (fst (run w es initial empty_log)))
       (VBool (showPredictions (fst (run w es initial empty_log))))
       (predictions (fst (run w es initial empty_log)))
     <> PriceChart.NoValidPriceData.
Proof.
  assert (lists_in_place (fst (run w es initial empty_log))) as H
    by (apply run_keeps; repeat split; reflexivity).
  split; [exact H|].
  destruct H as (Hp & _ & _).
  destruct (priceData (fst (run w es initial empty_log))) as [| |b|x|t|items|fields];
    try discriminate.
  unfold PriceChart.PriceChart.
  destruct items as [|item items]; [discriminate|].
  destruct (_ || _); [discriminate|].
  destruct (_ && _ && _); discriminate.
Qed.

(** A backend of bare arrays leaves the dashboard without bars, and a
    prediction outage discards the prices that had arrived. *)
Lemma dashboard_examples :
  priceData (store_of (fetchDashboardData "1h" bare_arrays initial empty_log)) = VArr []
  /\ error (store_of (fetchDashboardData "1h" bare_arrays initial empty_log)) = None
  /\ store_of (fetchDashboardData "1h" prices_then_nothing initial empty_log)
     = mkState false (Some load_failed_message) (VArr []) (VArr []) (VObj [])
               "1h" false true
  /\ calls (log_of (fetchDashboardData "1h" prices_then_nothing initial empty_log))
     = [getPriceData (Some "1h") (Some 100); getPredictions (Some "1h")].
Proof. repeat split; reflexivity. Qed.

End DashboardFlows.

(* ------------------------------------------------------------------ *)
(** ** How many bars the pages ask for *)

Module PriceLimits.

(** A price request asks for one of the four sizes of the limit
    buttons, or leaves the size to the endpoint's default. *)
Definition known_limit (c : ApiCall) : Prop :=
  match c with
  | getPriceData _ (Some n) => In n PriceData.limit_buttons
  | _ => True
  end.

(** A price request asks for a hundred bars. *)
Definition hundred_bars (c : ApiCall) : Prop :=
  match c with
  | getPriceData _ limit => limit = Some 100
  | _ => True
  end.

Definition limit_offered (s : PriceData.State) : Prop :=
  In (PriceData.limit s) PriceData.limit_buttons.

Definition anywhere {S : Type} : S -> Prop := fun _ => True.

Ltac limits_auto :=
  repeat keeps_step;
  try (intros ? ?; assumption);
  try exact Logic.I.

Lemma price_data_fetch (tf : string) (n : nat) :
  In n PriceData.limit_buttons ->
  keeps limit_offered known_limit anything (PriceData.fetchPriceData tf n).
Proof. intros Hn. unfold PriceData.fetchPriceData. limits_auto; exact Hn. Qed.

Lemma limits_price_data_handler (snap : PriceData.State) (e : PriceData.UiEvent) :
  limit_offered snap ->
  keeps limit_offered known_limit anything (PriceData.handler snap e).
Proof.
  intros Hsnap. destruct e as [| |i|i]; cbn [PriceData.handler].
  - apply price_data_fetch. exact Hsnap.
  - unfold PriceData.handleUpdateData.
    apply keeps_try_catch; [|limits_auto].
    apply keeps_bind with (Q1 := anything); [limits_auto|intros ? _].
    apply keeps_bind with (Q1 := anything);
      [apply keeps_await; exact Logic.I|intros ? _].
    apply price_data_fetch. exact Hsnap.
  - destruct (nth_error PriceData.timeframe_buttons i) as [tf|].
    + apply keeps_bind with (Q1 := anything);
        [apply keeps_modify; intros s Hs; exact Hs|intros ? _].
      apply keeps_if; [apply keeps_ret; exact Logic.I|].
      apply price_data_fetch. exact Hsnap.
    + apply keeps_ret. exact Logic.I.
  - destruct (nth_error PriceData.limit_buttons i) as [n|] eqn:Hi.
    + pose proof (nth_error_In _ _ Hi) as Hn.
      apply keeps_bind with (Q1 := anything);
        [apply keeps_modify; intros s _; exact Hn|intros ? _].
      apply keeps_if; [apply keeps_ret; exact Logic.I|].
      apply price_data_fetch. exact Hn.
    + apply keeps_ret. exact Logic.I.
Qed.

Lemma limits_price_data_run (w : World) (es : list PriceData.UiEvent)
      (s : PriceData.State) (l : Log) :
  limit_offered s -> Forall known_limit (calls l) ->
  limit_offered (fst (PriceData.run w es s l))
  /\ Forall known_limit (calls (snd (PriceData.run w es s l))).
Proof.
  revert s l. induction es as [|e es IH]; intros s l Hs Hl; [split; assumption|].
  cbn [PriceData.run].
  destruct (limits_price_data_handler s e Hs w s l Hs Hl) as (Hs' & Hl' & _).
  apply IH; assumption.
Qed.

Lemma limits_predictions_handler (snap : Predictions.State) (e : Predictions.UiEvent) :
  keeps anywhere known_limit anything (Predictions.handler snap e).
Proof.
  destruct e as [| |i]; cbn [Predictions.handler];
    try destruct (nth_error Predictions.timeframe_buttons i) as [tf|];
    unfold Predictions.fetchData, Predictions.non_empty,
      Predictions.drawn_accuracy, Predictions.fixed2;
    limits_auto; cbn; auto.
Qed.

Lemma limits_predictions_run (w : World) (es : list Predictions.UiEvent)
      (s : Predictions.State) (l : Log) :
  Forall known_limit (calls l) ->
  Forall known_limit (calls (snd (Predictions.run w es s l))).
Proof.
  revert s l. induction es as [|e es IH]; intros s l Hl; [exact Hl|].
  cbn [Predictions.run].
  destruct (limits_predictions_handler s e w s l Logic.I Hl) as (_ & Hl' & _).
  apply IH; assumption.
Qed.

Lemma limits_dashboard_handler (snap : Dashboard.State) (e : Dashboard.UiEvent) :
  keeps anywhere known_limit anything (Dashboard.handler snap e).
Proof.
  destruct e as [| | |i|]; cbn [Dashboard.handler];
    try destruct (nth_error Dashboard.timeframe_buttons i) as [tf|];
    unfold Dashboard.handleUpdateData, Dashboard.fetchDashboardData,
      Dashboard.received_list, Dashboard.received_signal;
    limits_auto; cbn; auto.
Qed.

Lemma limits_dashboard_run (w : World) (es : list Dashboard.UiEvent)
      (s : Dashboard.State) (l : Log) :
  Forall known_limit (calls l) ->
  Forall known_limit (calls (snd (Dashboard.run w es s l))).
Proof.
  revert s l. induction es as [|e es IH]; intros s l Hl; [exact Hl|].
  cbn [Dashboard.run].
  destruct (limits_dashboard_handler s e w s l Logic.I Hl) as (_ & Hl' & _).
  apply IH; assumption.
Qed.

Lemma hundred_predictions_handler (snap : Predictions.State) (e : Predictions.UiEvent) :
  keeps anywhere hundred_bars anything (Predictions.handler snap e).
Proof.
  destruct e as [| |i]; cbn [Predictions.handler];
    try destruct (nth_error Predictions.timeframe_buttons i) as [tf|];
    unfold Predictions.fetchData, Predictions.non_empty,
      Predictions.drawn_accuracy, Predictions.fixed2;
    limits_auto; reflexivity.
Qed.

Lemma hundred_predictions_run (w : World) (es : list Predictions.UiEvent)
      (s : Predictions.State) (l : Log) :
  Forall hundred_bars (calls l) ->
  Forall hundred_bars (calls (snd (Predictions.run w es s l))).
Proof.
  revert s l. induction es as [|e es IH]; intros s l Hl; [exact Hl|].
  cbn [Predictions.run].
  destruct (hundred_predictions_handler s e w s l Logic.I Hl) as (_ & Hl' & _).
  apply IH; assumption.
Qed.

Lemma hundred_dashboard_handler (snap : Dashboard.State) (e : Dashboard.UiEvent) :
  keeps anywhere hundred_bars anything (Dashboard.handler snap e).
Proof.
  destruct e as [| | |i|]; cbn [Dashboard.handler];
    try destruct (nth_error Dashboard.timeframe_buttons i) as [tf|];
    unfold Dashboard.handleUpdateData, Dashboard.fetchDashboardData,
      Dashboard.received_list, Dashboard.received_signal;
    limits_auto; reflexivity.
Qed.

Lemma hundred_dashboard_run (w : World) (es : list Dashboard.UiEvent)
      (s : Dashboard.State) (l : Log) :
  Forall hundred_bars (calls l) ->
  Forall hundred_bars (calls (snd (Dashboard.run w es s l))).
Proof.
  revert s l. induction es as [|e es IH]; intros s l Hl; [exact Hl|].
  cbn [Dashboard.run].
  destruct (hundred_dashboard_handler s e w s l Logic.I Hl) as (_ & Hl' & _).
  apply IH; assumption.
Qed.

(** Whatever is clicked and whatever the backend answers, every price
    request of the Price Data, Predictions and Dashboard pages asks for 50,
    100, 200 or 500 bars; on the Price Data page the chosen limit is always
    one of these four, and the Predictions and Dashboard pages always ask
    for 100. *)
Theorem price_requests_ask_offered_sizes (w : World) :
  (forall es,
      In (PriceData.limit (fst (PriceData.run w es PriceData.initial empty_log)))
         [50; 100; 200; 500]
      /\ Forall known_limit
                (calls (snd (PriceData.run w es PriceData.initial empty_log))))
  /\ (forall es,
        Forall known_limit
               (calls (snd (Predictions.run w es Predictions.initial empty_log))))
  /\ (forall es,
        Forall known_limit
               (calls (snd (Dashboard.run w es Dashboard.initial empty_log))))
  /\ (forall es,
        Forall hundred_bars
               (calls (snd (Predictions.run w es Predictions.initial empty_log))))
  /\ (forall es,
        Forall hundred_bars
               (calls (snd (Dashboard.run w es Dashboard.initial empty_log)))).
Proof.
  split; [|split; [|split; [|split]]].
  - intros es. apply limits_price_data_run; [right; left; reflexivity|constructor].
  - intros es. apply limits_predictions_run. constructor.
  - intros es. apply limits_dashboard_run. constructor.
  - intros es. apply hundred_predictions_run. constructor.
  - intros es. apply hundred_dashboard_run. constructor.
Qed.

End PriceLimits.
